(** * Field reconciliation and validation of the invoice extraction pipeline

    A shallow embedding of [utils/field_extractors.py] (class
    [FieldExtractor]) and [utils/validation.py] (class [Validator]),
    together with the parts of the Python runtime and of the two libraries
    ([re], [rapidfuzz]) that their control flow depends on, and of the code
    around them: the response parser of [utils/vlm_module.py], the
    transcript of [utils/ocr_module.py], the box loop of
    [utils/detection_module.py], [utils/output_formatter.py], and the
    document and batch drivers of [execution.py].  The neural models and
    the image processing are inputs: what they deliver is a parameter.

    Conventions of the embedding.
    - Python objects that the code inspects dynamically are values of
      [PyVal]; a Python [float] is a rational number (finite floats only:
      NaN and the infinities are outside the model, and rounding is not
      represented: [float] on a decimal literal gives its exact value).
      The limits of the conversions are represented: [int] rejects a
      literal of more than 4300 digits, an f-string an [int] of more than
      4300 digits, and [float] an [int] beyond the doubles.
    - A Python [str] is a [string] of 8-bit characters.  Character classes
      ([str.isspace], [\d], [\s], [\w], case folding) follow Python on the
      ASCII range; the bytes of a non-ASCII character (such as the rupee
      sign, three bytes in UTF-8) are ordinary characters that are neither
      digits, spaces, word characters nor cased.
    - A Python call that can raise returns a [result]; the exception is
      threaded with [bind], so that an uncaught exception of a callee is
      the outcome of the caller, and [try]/[except] is a match on [Raise]. *)

From Stdlib Require Import ZArith QArith Qround List String Ascii Bool Lia.
Import ListNotations.

Local Open Scope Z_scope.

(** ** Character and string operations of Python's [str] *)

Module Text.

Definition code (c : ascii) : N := N_of_ascii c.

Definition is_digit (c : ascii) : bool :=
  ((48 <=? code c) && (code c <=? 57))%N.

Definition is_upper (c : ascii) : bool :=
  ((65 <=? code c) && (code c <=? 90))%N.

Definition is_lower (c : ascii) : bool :=
  ((97 <=? code c) && (code c <=? 122))%N.

(** [str.isspace] on one character, also the class [\s]: tab, newline,
    vertical tab, form feed, carriage return, the four separators
    [\x1c]-[\x1f] and the space. *)
Definition is_space (c : ascii) : bool :=
  (((9 <=? code c) && (code c <=? 13)) || ((28 <=? code c) && (code c <=? 32)))%N.

(** The class [\w]. *)
Definition is_word (c : ascii) : bool :=
  is_digit c || is_upper c || is_lower c || (code c =? 95)%N.

Definition lower_char (c : ascii) : ascii :=
  if is_upper c then ascii_of_N (code c + 32) else c.

Definition chars (s : string) : list ascii := list_ascii_of_string s.
Definition text (l : list ascii) : string := string_of_list_ascii l.

(** [s.lower()] *)
Definition lower (s : string) : string := text (map lower_char (chars s)).

Fixpoint drop_while (p : ascii -> bool) (l : list ascii) : list ascii :=
  match l with
  | [] => []
  | c :: t => if p c then drop_while p t else l
  end.

Definition strip_chars (l : list ascii) : list ascii :=
  rev (drop_while is_space (rev (drop_while is_space l))).

(** [s.strip()] *)
Definition strip (s : string) : string := text (strip_chars (chars s)).

(** The white space that [int] and [float] skip around a literal: tab,
    newline, vertical tab, form feed, carriage return and the space.  The
    separators [\x1c]-[\x1f], which [str.strip] removes, are not skipped:
    [int] and [float] reject a literal that carries one. *)
Definition is_blank (c : ascii) : bool :=
  (((9 <=? code c) && (code c <=? 13)) || (code c =? 32))%N.

Definition trim_chars (l : list ascii) : list ascii :=
  rev (drop_while is_blank (rev (drop_while is_blank l))).

(** The fields of [l] between the characters that satisfy [p]; an empty
    input has one empty field, as [''.split(sep)] is [['']]. *)
Fixpoint fields (p : ascii -> bool) (l : list ascii) : list (list ascii) :=
  match l with
  | [] => [[]]
  | c :: t =>
      if p c then [] :: fields p t
      else match fields p t with
           | [] => [[c]]
           | w :: ws => (c :: w) :: ws
           end
  end.

(** [s.split('\n')] *)
Definition split_lines (s : string) : list string :=
  map text (fields (fun c => (code c =? 10)%N) (chars s)).

Definition nonempty (l : list ascii) : bool :=
  match l with [] => false | _ :: _ => true end.

(** [s.split()]: the maximal runs of non-space characters. *)
Definition split_ws (s : string) : list string :=
  map text (filter nonempty (fields is_space (chars s))).

(** [sep.join(ws)] *)
Fixpoint join (sep : string) (ws : list string) : string :=
  match ws with
  | [] => EmptyString
  | [w] => w
  | w :: rest => (w ++ sep ++ join sep rest)%string
  end.

Fixpoint starts_with (needle hay : list ascii) : bool :=
  match needle, hay with
  | [], _ => true
  | _ :: _, [] => false
  | a :: n', b :: h' => Ascii.eqb a b && starts_with n' h'
  end.

Fixpoint occurs (needle hay : list ascii) : bool :=
  starts_with needle hay ||
  match hay with
  | [] => false
  | _ :: t => occurs needle t
  end.

(** [needle in hay] on strings *)
Definition contains (needle hay : string) : bool :=
  occurs (chars needle) (chars hay).

(** [s.replace(',', '')]: every occurrence of one character removed. *)
Definition remove_char (c : ascii) (s : string) : string :=
  text (filter (fun x => negb (Ascii.eqb x c)) (chars s)).

(** Value of a run of decimal digits, most significant first. *)
Definition digit_value (c : ascii) : Z := Z.of_N (code c) - 48.

Definition digits_value (ds : list ascii) : Z :=
  fold_left (fun acc c => 10 * acc + digit_value c) ds 0.

(** After a digit of a numeric literal: further digits, each optionally
    preceded by one underscore.  Returns the digits read and the rest. *)
Fixpoint more_digits (l : list ascii) : list ascii * list ascii :=
  match l with
  | [] => ([], [])
  | c :: t =>
      if is_digit c then
        let (ds, r) := more_digits t in (c :: ds, r)
      else if (code c =? 95)%N then
        match t with
        | d :: t' =>
            if is_digit d then
              let (ds, r) := more_digits t' in (d :: ds, r)
            else ([], l)
        | [] => ([], l)
        end
      else ([], l)
  end.

(** A digit part: at least one digit. *)
Definition digit_part (l : list ascii) : option (list ascii * list ascii) :=
  match l with
  | c :: t =>
      if is_digit c then
        let (ds, r) := more_digits t in Some (c :: ds, r)
      else None
  | [] => None
  end.

Definition split_sign (l : list ascii) : bool * list ascii :=
  match l with
  | c :: t =>
      if (code c =? 45)%N then (true, t)
      else if (code c =? 43)%N then (false, t)
      else (false, l)
  | [] => (false, l)
  end.

(** The limit of [int] on the digits of a decimal literal
    ([sys.get_int_max_str_digits()], 4300 unless the interpreter is
    configured otherwise). *)
Definition max_str_digits : nat := 4300.

(** [int(s)] for a string in base 10: surrounding white space, an optional
    sign, and a digit part of at most [max_str_digits] digits (leading
    zeros count, underscores do not); [None] stands for [ValueError]. *)
Definition int_of_string (s : string) : option Z :=
  let (neg, body) := split_sign (trim_chars (chars s)) in
  match digit_part body with
  | Some (ds, []) =>
      if (List.length ds <=? max_str_digits)%nat
      then Some (if neg then - digits_value ds else digits_value ds)
      else None
  | _ => None
  end.

Definition pow10 (e : Z) : Q :=
  if (0 <=? e)%Z then inject_Z (10 ^ e) else / inject_Z (10 ^ (- e)).

(** [float(s)] for a decimal literal: surrounding white space, an optional
    sign, digits with an optional fraction (at least one digit in all) and
    an optional exponent; [None] stands for [ValueError].  The value is
    the exact value of the decimal, where [float] rounds it to the nearest
    double and reads a literal beyond the doubles as infinity.  The
    spellings of the non-finite floats ([inf], [infinity], [nan]) have no
    value here.  Every call of [float] on a string in this program
    either compares the result with finite bounds, which an infinity or a
    NaN fails like an exception or a value beyond the bounds does, or
    raises afterwards whatever the value. *)
Definition float_of_string (s : string) : option Q :=
  let (neg, body) := split_sign (trim_chars (chars s)) in
  let '(ip, r1) :=
    match digit_part body with
    | Some (ds, r) => (ds, r)
    | None => ([], body)
    end in
  let '(fp, r2) :=
    match r1 with
    | c :: t =>
        if (code c =? 46)%N then
          match digit_part t with
          | Some (ds, r) => (ds, r)
          | None => ([], t)
          end
        else ([], r1)
    | [] => ([], r1)
    end in
  let mantissa : Q :=
    (inject_Z (digits_value ip)
     + inject_Z (digits_value fp) * pow10 (- Z.of_nat (List.length fp)))%Q in
  let signed (q : Q) : Q := if neg then (- q)%Q else q in
  if nonempty ip || nonempty fp then
    match r2 with
    | [] => Some (signed mantissa)
    | c :: t =>
        if ((code c =? 101) || (code c =? 69))%N then
          let (eneg, ebody) := split_sign t in
          match digit_part ebody with
          | Some (es, []) =>
              let e := if eneg then - digits_value es else digits_value es in
              Some (signed (mantissa * pow10 e)%Q)
          | _ => None
          end
        else None
    end
  else None.

End Text.

(** ** Python values, exceptions and coercions *)

Module Py.

Inductive exn : Set :=
| ValueError
| TypeError
| OverflowError
| AttributeError.

Inductive result (A : Type) : Type :=
| Ok (a : A)
| Raise (e : exn).

Arguments Ok {A} a.
Arguments Raise {A} e.

Definition bind {A B : Type} (m : result A) (f : A -> result B) : result B :=
  match m with
  | Ok a => f a
  | Raise e => Raise e
  end.

(** [try: m except: h] with a bare [except] clause. *)
Definition try_except {A : Type} (m : result A) (h : A) : A :=
  match m with
  | Ok a => a
  | Raise _ => h
  end.

#[warnings="-register-all"]
Inductive PyVal : Type :=
| VNone
| VBool (b : bool)
| VInt (z : Z)
| VFloat (q : Q)
| VStr (s : string)
| VList (l : list PyVal).

(** Comparison of rationals as booleans. *)
Definition Qleb (a b : Q) : bool := Qle_bool a b.
Definition Qltb (a b : Q) : bool := negb (Qle_bool b a).
Definition Qeqb (a b : Q) : bool := Qeq_bool a b.

(** Truth value of an object ([if v:], [v and ...]). *)
Definition truthy (v : PyVal) : bool :=
  match v with
  | VNone => false
  | VBool b => b
  | VInt z => negb (z =? 0)
  | VFloat q => negb (Qeqb q 0)
  | VStr s => negb (String.eqb s EmptyString)
  | VList l => match l with [] => false | _ :: _ => true end
  end.

(** [isinstance(v, (int, float))]; [bool] is a subclass of [int]. *)
Definition is_number (v : PyVal) : bool :=
  match v with
  | VBool _ | VInt _ | VFloat _ => true
  | _ => false
  end.

(** The number an [int], [bool] or [float] object stands for in arithmetic
    and comparisons. *)
Definition number_of (v : PyVal) : option Q :=
  match v with
  | VBool b => Some (if b then 1%Q else 0%Q)
  | VInt z => Some (inject_Z z)
  | VFloat q => Some q
  | _ => None
  end.

(** [a >= b], [a > b] on objects: defined between numbers, [TypeError]
    otherwise (the code never compares two strings or two lists). *)
Definition py_ge (a b : PyVal) : result bool :=
  match number_of a, number_of b with
  | Some x, Some y => Ok (Qleb y x)
  | _, _ => Raise TypeError
  end.

Definition py_gt (a b : PyVal) : result bool :=
  match number_of a, number_of b with
  | Some x, Some y => Ok (Qltb y x)
  | _, _ => Raise TypeError
  end.

(** The least magnitude that rounds beyond the largest double: half a
    unit in the last place above it. *)
Definition float_overflow : Z := 2 ^ 1024 - 2 ^ 970.

(** [float(v)]; an [int] too large for a double raises
    [OverflowError]. *)
Definition py_float (v : PyVal) : result Q :=
  match v with
  | VBool b => Ok (if b then 1%Q else 0%Q)
  | VInt z =>
      if Z.abs z <? float_overflow then Ok (inject_Z z)
      else Raise OverflowError
  | VFloat q => Ok q
  | VStr s =>
      match Text.float_of_string s with
      | Some q => Ok q
      | None => Raise ValueError
      end
  | VNone | VList _ => Raise TypeError
  end.

(** Truncation towards zero, as [int] does on a float. *)
Definition Qtrunc (q : Q) : Z := Z.quot (Qnum q) (Zpos (Qden q)).

(** [int(v)] *)
Definition py_int (v : PyVal) : result Z :=
  match v with
  | VBool b => Ok (if b then 1 else 0)
  | VInt z => Ok z
  | VFloat q => Ok (Qtrunc q)
  | VStr s =>
      match Text.int_of_string s with
      | Some z => Ok z
      | None => Raise ValueError
      end
  | VNone | VList _ => Raise TypeError
  end.

End Py.


(** ** Regular expressions: the fragment of [re] used by the extractors

    A backtracking matcher in continuation-passing style, with the
    priorities of [re]: a repetition is greedy, an alternation tries its
    left branch first, an optional part is tried present first.  There is
    one capturing group per pattern, which is what [re.findall] returns. *)

Module Re.

Import Text.

Inductive charset : Set :=
| CDigit                          (* \d *)
| CSpace                          (* \s *)
| COneOf (cs : list ascii)        (* [...] of literal characters *)
| CUnion (a b : charset).

Inductive regex : Set :=
| Eps
| Lit (c : ascii)
| Class (cs : charset)
| Seq (r1 r2 : regex)
| Alt (r1 r2 : regex)
| Opt (r : regex)
| Star (r : regex)
| Group (r : regex).

Definition Plus (r : regex) : regex := Seq r (Star r).

(** A literal word, character by character. *)
Fixpoint word (l : list ascii) : regex :=
  match l with
  | [] => Eps
  | [c] => Lit c
  | c :: t => Seq (Lit c) (word t)
  end.

Definition lit (s : string) : regex := word (chars s).

Fixpoint in_charset (cs : charset) (c : ascii) : bool :=
  match cs with
  | CDigit => is_digit c
  | CSpace => is_space c
  | COneOf l => existsb (Ascii.eqb c) l
  | CUnion a b => in_charset a c || in_charset b c
  end.

(** A literal under the flag [re.IGNORECASE] matches both cases. *)
Definition lit_matches (ignorecase : bool) (c x : ascii) : bool :=
  if ignorecase then Ascii.eqb (lower_char c) (lower_char x)
  else Ascii.eqb c x.

Definition capture : Type := option (list ascii).

Section Matcher.

Variable ignorecase : bool.
Variable R : Type.

(** [rmatch r s cap k]: match [r] at the front of [s] in every way, in
    priority order, and return the first answer of the continuation [k]
    on what is left of the input and the group captured so far. *)
Fixpoint rmatch (r : regex) (s : list ascii) (cap : capture)
    (k : list ascii -> capture -> option R) {struct r} : option R :=
  match r with
  | Eps => k s cap
  | Lit c =>
      match s with
      | x :: t => if lit_matches ignorecase c x then k t cap else None
      | [] => None
      end
  | Class cs =>
      match s with
      | x :: t => if in_charset cs x then k t cap else None
      | [] => None
      end
  | Seq r1 r2 =>
      rmatch r1 s cap (fun s' cap' => rmatch r2 s' cap' k)
  | Alt r1 r2 =>
      match rmatch r1 s cap k with
      | Some a => Some a
      | None => rmatch r2 s cap k
      end
  | Opt r1 =>
      match rmatch r1 s cap k with
      | Some a => Some a
      | None => k s cap
      end
  | Star r1 =>
      (fix loop (fuel : nat) (s : list ascii) (cap : capture) {struct fuel}
         : option R :=
         match fuel with
         | O => k s cap
         | S fuel' =>
             match rmatch r1 s cap
                     (fun s' cap' =>
                        if (List.length s' <? List.length s)%nat
                        then loop fuel' s' cap' else None) with
             | Some a => Some a
             | None => k s cap
             end
         end) (List.length s) s cap
  | Group r1 =>
      rmatch r1 s cap
        (fun s' _ => k s' (Some (firstn (List.length s - List.length s') s)))
  end.

End Matcher.

(** *** What a match is

    [Matches ic r w c c']: the word [w] is matched by [r], and the group
    captured goes from [c] before the match to [c'] after it. *)
Inductive Matches (ic : bool)
  : regex -> list ascii -> capture -> capture -> Prop :=
| MEps c : Matches ic Eps [] c c
| MLit a x c : lit_matches ic a x = true -> Matches ic (Lit a) [x] c c
| MClass cs x c : in_charset cs x = true -> Matches ic (Class cs) [x] c c
| MSeq r1 r2 w1 w2 c c1 c2 :
    Matches ic r1 w1 c c1 -> Matches ic r2 w2 c1 c2 ->
    Matches ic (Seq r1 r2) (w1 ++ w2) c c2
| MAltL r1 r2 w c c' : Matches ic r1 w c c' -> Matches ic (Alt r1 r2) w c c'
| MAltR r1 r2 w c c' : Matches ic r2 w c c' -> Matches ic (Alt r1 r2) w c c'
| MOptSome r w c c' : Matches ic r w c c' -> Matches ic (Opt r) w c c'
| MOptNone r c : Matches ic (Opt r) [] c c
| MStarNil r c : Matches ic (Star r) [] c c
| MStarCons r w1 w2 c c1 c2 :
    Matches ic r w1 c c1 -> Matches ic (Star r) w2 c1 c2 ->
    Matches ic (Star r) (w1 ++ w2) c c2
| MGroup r w c c' : Matches ic r w c c' -> Matches ic (Group r) w c (Some w).

(** Every match of [r] goes through the group. *)
Fixpoint sets_group (r : regex) : bool :=
  match r with
  | Group _ => true
  | Seq r1 r2 => sets_group r1 || sets_group r2
  | Alt r1 r2 => sets_group r1 && sets_group r2
  | _ => false
  end.

(** Every word the group of [r] can capture satisfies [P]. *)
Fixpoint groups_hold (ic : bool) (P : list ascii -> Prop) (r : regex) : Prop :=
  match r with
  | Group r1 => forall w c c', Matches ic r1 w c c' -> P w
  | Seq r1 r2 | Alt r1 r2 => groups_hold ic P r1 /\ groups_hold ic P r2
  | Opt r1 | Star r1 => groups_hold ic P r1
  | _ => True
  end.

(** The group has captured a word that satisfies [P]. *)
Definition captured (P : list ascii -> Prop) (c : capture) : Prop :=
  exists g, c = Some g /\ P g.

(** A run of decimal digits, not empty. *)
Definition digit_run (w : list ascii) : Prop :=
  w <> [] /\ forallb is_digit w = true.

(** [g] occurs in [l] as a run of consecutive characters. *)
Definition segment_of (g l : list ascii) : Prop :=
  exists before after, l = before ++ g ++ after.

(** The leftmost match starting exactly at the front of [s]: what is left
    after it and the captured group. *)
Definition match_here (ignorecase : bool) (r : regex) (s : list ascii)
  : option (list ascii * capture) :=
  rmatch ignorecase _ r s None (fun s' cap => Some (s', cap)).

Definition group_text (cap : capture) : string :=
  match cap with
  | Some g => text g
  | None => EmptyString
  end.

(** Scan for the non-overlapping matches, left to right.  After a match
    the scan resumes where the match ended (one character further after an
    empty match). *)
Fixpoint findall_from (fuel : nat) (ignorecase : bool) (r : regex)
    (s : list ascii) : list string :=
  match fuel with
  | O => []
  | S fuel' =>
      match match_here ignorecase r s with
      | Some (rest, cap) =>
          group_text cap ::
          (if (List.length rest <? List.length s)%nat
           then findall_from fuel' ignorecase r rest
           else match s with
                | [] => []
                | _ :: t => findall_from fuel' ignorecase r t
                end)
      | None =>
          match s with
          | [] => []
          | _ :: t => findall_from fuel' ignorecase r t
          end
      end
  end.

(** [re.findall(pattern, text, flags)] for a pattern with one group. *)
Definition findall (ignorecase : bool) (r : regex) (s : string) : list string :=
  findall_from (S (String.length s)) ignorecase r (chars s).

(** A pattern: its source text, which the explanations quote, and its
    syntax tree. *)
Record pattern : Set := mkPattern { source : string; tree : regex }.

Definition digits1 : regex := Plus (Class CDigit).
Definition spaces : regex := Star (Class CSpace).
Definition colon_or_dash : regex := Opt (Class (COneOf [":"; "-"]%char)).

End Re.


(** ** Similarity scoring: the part of [rapidfuzz] used by the reconciler *)

Module Fuzz.

Import Text Py.

(** One row of the longest-common-subsequence table: [prev] is the row
    above without its first cell, [diag] the cell above the previous
    column, [left] the cell just written. *)
Fixpoint lcs_row (x : ascii) (b : list ascii) (prev : list nat)
    (diag left : nat) : list nat :=
  match b, prev with
  | y :: b', up :: prev' =>
      let v := if Ascii.eqb x y then S diag else Nat.max up left in
      v :: lcs_row x b' prev' up v
  | _, _ => []
  end.

Definition lcs (a b : list ascii) : nat :=
  last (fold_left (fun row x => lcs_row x b row 0%nat 0%nat) a
          (repeat 0%nat (List.length b))) 0%nat.

(** [fuzz.ratio(s1, s2)]: the normalized Indel similarity in [0, 100],
    that is [100 * 2 * lcs / (len s1 + len s2)], and [100] for two empty
    strings. *)
Definition ratio (s1 s2 : string) : Q :=
  let n := (String.length s1 + String.length s2)%nat in
  match n with
  | O => 100%Q
  | S _ =>
      (inject_Z (200 * Z.of_nat (lcs (chars s1) (chars s2)))
       / inject_Z (Z.of_nat n))%Q
  end.

(** [process.extractOne(query, choices, scorer=fuzz.ratio)]: the choice
    with the highest score and that score, the earliest one among equals;
    [None] when there is no choice. *)
Definition better (query : string) (best : option (string * Q))
    (choice : string) : option (string * Q) :=
  let score := ratio query choice in
  match best with
  | None => Some (choice, score)
  | Some (_, b) => if Qltb b score then Some (choice, score) else best
  end.

Definition extractOne (query : string) (choices : list string)
  : option (string * Q) :=
  fold_left (better query) choices None.

End Fuzz.

(** ** Results and explanations *)

(** An explanation is the text of an f-string, kept as its literal
    fragments and the values formatted between them. *)
Inductive fpart : Type :=
| FLit (s : string)      (* literal text *)
| FStr (s : string)      (* a string value, [{s}] *)
| FInt (z : Z)           (* an integer value, [{n}] *)
| FNum (q : Q)           (* a score, [{x}] *)
| FMoney (q : Q).        (* an amount, [{x:,.2f}] *)

Definition Expl : Type := list fpart.

(** The record every extractor returns:
    [{'value': ..., 'confidence': ..., 'explanation': ...}]. *)
Record FieldResult : Type := mkFieldResult {
  value : Py.PyVal;
  confidence : Q;
  explanation : Expl
}.

(** A detection payload as a dictionary: each key may be absent. *)
Record DetDict : Type := mkDetDict {
  present : option Py.PyVal;
  bbox : option Py.PyVal;
  det_confidence : option Py.PyVal
}.

(** [d.get(key)] and [d.get(key, default)] on an optional key. *)
Definition get (o : option Py.PyVal) : Py.PyVal :=
  match o with Some v => v | None => Py.VNone end.

Definition get_default {A : Type} (o : option A) (default : A) : A :=
  match o with Some v => v | None => default end.


(** ** [utils/field_extractors.py]: class [FieldExtractor] *)

Module FieldExtractor.

Import Text Py Re Fuzz.
Local Open Scope string_scope.

(** The object: the two master lists loaded by [__init__]. *)
Record t : Type := mkFieldExtractor {
  dealer_master : list string;
  asset_master : list string
}.

(** The result of the vision-language model, [vlm_result]: the two names
    are a string or [None] ([None] also stands for an absent key, since
    they are read with [.get]); the two numbers are arbitrary objects. *)
Record VlmResult : Type := mkVlmResult {
  vlm_dealer_name : option string;
  vlm_model_name : option string;
  vlm_horse_power : PyVal;
  vlm_asset_cost : PyVal
}.

Record OcrResult : Type := mkOcrResult {
  full_text : option string
}.

Record DetectionResult : Type := mkDetectionResult {
  signature : option DetDict;
  stamp : option DetDict
}.

(** The dictionary built by [extract_all_fields]. *)
Record Fields : Type := mkFields {
  dealer_name : FieldResult;
  model_name : FieldResult;
  horse_power : FieldResult;
  asset_cost : FieldResult;
  dealer_signature : DetDict;
  dealer_stamp : DetDict
}.

Definition str_truthy (s : string) : bool := negb (String.eqb s EmptyString).

(** [candidates = []; if vlm: candidates.append(vlm); candidates.extend(ocr)] *)
Definition combine_candidates (vlm : option string) (ocr : list string)
  : list string :=
  match vlm with
  | Some s => if str_truthy s then s :: ocr else ocr
  | None => ocr
  end.

(** *** Dealer name *)

Definition dealer_keywords : list string :=
  ["motors"; "auto"; "tractors"; "pvt"; "ltd"; "limited"; "company"; "dealer"].

(** [re.sub(r'[^\w\s]', ' ', line)] *)
Definition blank_punctuation (line : string) : string :=
  text (map (fun c => if is_word c || is_space c then c else " "%char)
          (chars line)).

Definition dealer_candidate_of_line (raw : string) : list string :=
  let line := strip raw in
  if existsb (fun kw => contains kw (lower line)) dealer_keywords then
    let cleaned := join " " (split_ws (blank_punctuation line)) in
    if (5 <? String.length cleaned)%nat then [cleaned] else []
  else [].

Definition _extract_dealer_candidates (text : string) : list string :=
  firstn 5 (flat_map dealer_candidate_of_line (split_lines text)).

(** The state of the loop of [extract_dealer_name]:
    [(best_match, best_score, best_candidate)]. *)
Definition dealer_state : Type := option string * Q * option string.

Definition dealer_init : dealer_state := (None, 0%Q, None).

(** One iteration of [for candidate in candidates]. *)
Definition dealer_step (self : t) (st : dealer_state) (candidate : string)
  : dealer_state :=
  let '(best_match, best_score, best_candidate) := st in
  if negb (str_truthy candidate) then st
  else
    match extractOne candidate (dealer_master self) with
    | Some (m, score) =>
        if Qltb best_score score then (Some m, score, Some candidate) else st
    | None => st
    end.

Definition dealer_loop (self : t) (candidates : list string) : dealer_state :=
  fold_left (dealer_step self) candidates dealer_init.

Definition fmt_opt (o : option string) : fpart :=
  match o with
  | Some s => FStr s
  | None => FLit "None"
  end.

Definition opt_value (o : option string) : PyVal :=
  match o with
  | Some s => VStr s
  | None => VNone
  end.

(** The threshold test and the two [return]s that follow the loop. *)
Definition dealer_result (st : dealer_state) : FieldResult :=
  let '(best_match, best_score, best_candidate) := st in
  if Qleb 90 best_score then
    {| value := opt_value best_match;
       confidence := (best_score / 100)%Q;
       explanation :=
         [FLit "Fuzzy matched '"; fmt_opt best_candidate; FLit "' to '";
          fmt_opt best_match; FLit "' with "; FNum best_score;
          FLit "% similarity"] |}
  else
    {| value := VNone;
       confidence := 0%Q;
       explanation :=
         [FLit "No dealer match found (best: "; FNum best_score; FLit "%)"] |}.

(** The matching part of [extract_dealer_name], on the combined list. *)
Definition reconcile_dealer (self : t) (candidates : list string)
  : FieldResult :=
  dealer_result (dealer_loop self candidates).

Definition extract_dealer_name (self : t) (ocr_text : string)
    (vlm_result : VlmResult) : FieldResult :=
  let vlm_dealer := vlm_dealer_name vlm_result in
  let ocr_candidates := _extract_dealer_candidates ocr_text in
  reconcile_dealer self (combine_candidates vlm_dealer ocr_candidates).

(** *** Model name *)

Definition brands : list string :=
  ["mahindra"; "john deere"; "sonalika"; "tafe"; "new holland";
   "kubota"; "massey ferguson"; "farmtrac"; "powertrac"].

Definition model_candidate_of_line (line : string) : list string :=
  let line_lower := lower line in
  if existsb (fun brand => contains brand line_lower) brands
  then [strip line] else [].

Definition _extract_model_candidates (text : string) : list string :=
  firstn 10 (flat_map model_candidate_of_line (split_lines text)).

Definition no_model : FieldResult :=
  {| value := VNone;
     confidence := 0%Q;
     explanation := [FLit "No model match found in asset master"] |}.

(** [candidate in self.asset_master] *)
Definition in_master (candidate : string) (master : list string) : bool :=
  existsb (String.eqb candidate) master.

(** The loop of [extract_model_name] with its two early [return]s. *)
Fixpoint reconcile_model (self : t) (candidates : list string) : FieldResult :=
  match candidates with
  | [] => no_model
  | candidate :: rest =>
      if negb (str_truthy candidate) then reconcile_model self rest
      else if in_master candidate (asset_master self) then
        {| value := VStr candidate;
           confidence := 1%Q;
           explanation := [FLit "Exact match found: "; FStr candidate] |}
      else
        match extractOne candidate (asset_master self) with
        | Some (m, score) =>
            if Qleb 95 score then
              {| value := VStr m;
                 confidence := (score / 100)%Q;
                 explanation :=
                   [FLit "Matched '"; FStr candidate; FLit "' to '"; FStr m;
                    FLit "' ("; FNum score; FLit "%)"] |}
            else reconcile_model self rest
        | None => reconcile_model self rest
        end
  end.

Definition extract_model_name (self : t) (ocr_text : string)
    (vlm_result : VlmResult) : FieldResult :=
  let vlm_model := vlm_model_name vlm_result in
  let ocr_models := _extract_model_candidates ocr_text in
  reconcile_model self (combine_candidates vlm_model ocr_models).

(** *** Horse power *)

Definition is_none (v : PyVal) : bool :=
  match v with VNone => true | _ => false end.

Definition hp_patterns : list pattern :=
  [ mkPattern "(\d+)\s*HP"
      (Seq (Group digits1) (Seq spaces (lit "HP")));
    mkPattern "(\d+)\s*hp"
      (Seq (Group digits1) (Seq spaces (lit "hp")));
    mkPattern "(\d+)\s*horse\s*power"
      (Seq (Group digits1)
         (Seq spaces (Seq (lit "horse") (Seq spaces (lit "power")))));
    mkPattern "HP\s*[:\-]?\s*(\d+)"
      (Seq (lit "HP")
         (Seq spaces (Seq colon_or_dash (Seq spaces (Group digits1)))));
    mkPattern "Power\s*[:\-]?\s*(\d+)"
      (Seq (lit "Power")
         (Seq spaces (Seq colon_or_dash (Seq spaces (Group digits1))))) ].

Definition no_hp : FieldResult :=
  {| value := VNone;
     confidence := 0%Q;
     explanation := [FLit "No HP value found"] |}.

Definition hp_from_text (hp_value : Z) (p : pattern) : FieldResult :=
  {| value := VInt hp_value;
     confidence := 0.85%Q;
     explanation :=
       [FLit "Extracted "; FInt hp_value; FLit " HP using pattern '";
        FStr (source p); FLit "'"] |}.

(** [for pattern in hp_patterns: ...] followed by the final [return]. *)
Fixpoint hp_scan (patterns : list pattern) (ocr_text : string)
  : result FieldResult :=
  match patterns with
  | [] => Ok no_hp
  | p :: rest =>
      match findall true (tree p) ocr_text with
      | first :: _ =>
          bind (py_int (VStr first)) (fun hp_value =>
            if ((20 <=? hp_value) && (hp_value <=? 150))%Z
            then Ok (hp_from_text hp_value p)
            else hp_scan rest ocr_text)
      | [] => hp_scan rest ocr_text
      end
  end.

(** The least magnitude of an [int] that has more digits than the
    limit. *)
Definition int_str_limit : Z := (10 ^ Z.of_nat max_str_digits)%Z.

(** [f"{n}"] on an [int]: the conversion to a decimal string raises
    [ValueError] beyond the limit on the digits. *)
Definition format_int (n : Z) : result fpart :=
  if (Z.abs n <? int_str_limit)%Z then Ok (FInt n) else Raise ValueError.

Definition extract_horse_power (self : t) (ocr_text : string)
    (vlm_result : VlmResult) : result FieldResult :=
  let vlm_hp := vlm_horse_power vlm_result in
  if negb (is_none vlm_hp) then
    bind (py_int vlm_hp) (fun n =>
    bind (format_int n) (fun shown =>
      Ok {| value := VInt n;
            confidence := 0.9%Q;
            explanation := [FLit "Extracted "; shown; FLit " HP from VLM"] |}))
  else hp_scan hp_patterns ocr_text.

(** *** Asset cost *)

Definition rupee : regex := Alt (Seq (lit "rs") (Opt (Lit "."%char))) (lit "₹").

(** [[\d,]+(?:\.\d{2})?] *)
Definition amount : regex :=
  Seq (Plus (Class (CUnion CDigit (COneOf [","%char]))))
      (Opt (Seq (Lit "."%char) (Seq (Class CDigit) (Class CDigit)))).

Definition cost_patterns : list pattern :=
  [ mkPattern
      "(?:total|cost|price|amount|value)\s*[:\-]?\s*(?:rs\.?|₹)?\s*([\d,]+(?:\.\d{2})?)"
      (Seq (Alt (lit "total") (Alt (lit "cost") (Alt (lit "price")
              (Alt (lit "amount") (lit "value")))))
         (Seq spaces (Seq colon_or_dash (Seq spaces
           (Seq (Opt rupee) (Seq spaces (Group amount)))))));
    mkPattern "(?:rs\.?|₹)\s*([\d,]+(?:\.\d{2})?)"
      (Seq rupee (Seq spaces (Group amount)));
    mkPattern "([\d,]+(?:\.\d{2})?)\s*(?:rupees|lakhs?)"
      (Seq (Group amount)
         (Seq spaces (Alt (lit "rupees")
                        (Seq (lit "lakh") (Opt (Lit "s"%char)))))) ].

Definition in_cost_range (v : Q) : bool :=
  Qleb 300000 v && Qleb v 1500000.

(** The body of [for match in matches]: the value appended to
    [candidates], if any.  [float] on a string raises [ValueError] only,
    which the [except] clause turns into [continue]. *)
Definition cost_of_match (p : pattern) (m : string) : list (Q * pattern) :=
  let value_str := strip (remove_char ","%char m) in
  match float_of_string value_str with
  | Some v => if in_cost_range v then [(v, p)] else []
  | None => []
  end.

Definition cost_candidates (patterns : list pattern) (ocr_text : string)
  : list (Q * pattern) :=
  flat_map (fun p => flat_map (cost_of_match p) (findall true (tree p) ocr_text))
    patterns.

(** [max(candidates, key=lambda x: x[0])]: the first of the greatest. *)
Fixpoint max_from (best : Q * pattern) (l : list (Q * pattern)) : Q * pattern :=
  match l with
  | [] => best
  | c :: rest => max_from (if Qltb (fst best) (fst c) then c else best) rest
  end.

Definition no_cost : FieldResult :=
  {| value := VNone;
     confidence := 0%Q;
     explanation := [FLit "No valid cost found"] |}.

Definition cost_from_text (ocr_text : string) : FieldResult :=
  match cost_candidates cost_patterns ocr_text with
  | c :: rest =>
      let '(best_value, best_pattern) := max_from c rest in
      {| value := VFloat best_value;
         confidence := 0.85%Q;
         explanation :=
           [FLit "Extracted cost ₹"; FMoney best_value;
            FLit " using pattern '"; FStr (source best_pattern); FLit "'"] |}
  | [] => no_cost
  end.

(** [f"{v:,.2f}"]: defined on numbers, an [int] being converted as
    [float] does; a string rejects the format ([ValueError]), [None] and
    lists do not support it ([TypeError]). *)
Definition format_money (v : PyVal) : result fpart :=
  match v with
  | VStr _ => Raise ValueError
  | _ => match number_of v with
         | Some q => bind (py_float v) (fun _ => Ok (FMoney q))
         | None => Raise TypeError
         end
  end.

Definition extract_asset_cost (self : t) (ocr_text : string)
    (vlm_result : VlmResult) : result FieldResult :=
  let vlm_cost := vlm_asset_cost vlm_result in
  if negb (is_none vlm_cost) then
    bind (py_float vlm_cost) (fun v =>
    bind (format_money vlm_cost) (fun shown =>
      Ok {| value := VFloat v;
            confidence := 0.9%Q;
            explanation := [FLit "Extracted cost ₹"; shown; FLit " from VLM"] |}))
  else Ok (cost_from_text ocr_text).

(** *** All fields *)

Definition absent_detection : DetDict :=
  {| present := Some (VBool false); bbox := Some VNone; det_confidence := None |}.

Definition extract_all_fields (self : t) (ocr_result : OcrResult)
    (vlm_result : VlmResult) (detection_result : DetectionResult)
  : result Fields :=
  let ocr_text := get_default (full_text ocr_result) EmptyString in
  let dealer := extract_dealer_name self ocr_text vlm_result in
  let model := extract_model_name self ocr_text vlm_result in
  bind (extract_horse_power self ocr_text vlm_result) (fun hp =>
  bind (extract_asset_cost self ocr_text vlm_result) (fun cost =>
    Ok {| dealer_name := dealer;
          model_name := model;
          horse_power := hp;
          asset_cost := cost;
          dealer_signature :=
            get_default (signature detection_result) absent_detection;
          dealer_stamp :=
            get_default (stamp detection_result) absent_detection |})).

(** *** Master lists *)

(** The files that can be opened for reading, each with its text as
    [open(path, 'r', encoding='utf-8')] delivers it (line ends are [\n]);
    [None] when there is no such file ([FileNotFoundError]). *)
Definition FileSystem : Type := string -> option string.

(** [for line in f]: the lines of a text, each with its newline, the last
    one without if the text does not end in one; [cur] is the line being
    read, backwards. *)
Fixpoint file_lines (cur : list ascii) (l : list ascii) : list string :=
  match l with
  | [] => match cur with
          | [] => []
          | _ :: _ => [text (rev cur)]
          end
  | c :: t =>
      if (code c =? 10)%N then text (rev (c :: cur)) :: file_lines [] t
      else file_lines (c :: cur) t
  end.

Definition _load_master_list (fs : FileSystem) (file_path : string)
  : list string :=
  match fs file_path with
  | Some content =>
      map strip
        (filter (fun line => str_truthy (strip line))
           (file_lines [] (chars content)))
  | None => []
  end.

(** [FieldExtractor(dealer_master_path, asset_master_path)] *)
Definition init (fs : FileSystem)
    (dealer_master_path asset_master_path : string) : t :=
  {| dealer_master := _load_master_list fs dealer_master_path;
     asset_master := _load_master_list fs asset_master_path |}.

End FieldExtractor.


(** ** [utils/validation.py]: class [Validator] *)

Module Validator.

Import Py.
Local Open Scope string_scope.

Record t : Type := mkValidator { min_confidence : Q }.

(** [Validator(min_confidence=0.5)] *)
Definition default_min_confidence : Q := 0.5%Q.
Definition new : t := mkValidator default_min_confidence.

(** A field given as a dictionary; each key may be absent. *)
Record FieldDict : Type := mkFieldDict {
  fd_value : option PyVal;
  fd_confidence : option PyVal;
  fd_explanation : option Expl
}.

Definition empty_dict : FieldDict := mkFieldDict None None None.

(** What [fields] holds under the key of a value field: a dictionary or
    any other object ([isinstance(x, dict)] tells them apart). *)
Inductive FieldInput : Type :=
| Structured (d : FieldDict)
| Bare (v : PyVal).

(** The argument [fields] of [validate]; each key may be absent.  The
    detection entries are dictionaries here, as [extract_all_fields]
    builds them; [AnyFields] below lifts that. *)
Record RawFields : Type := mkRawFields {
  raw_dealer_name : option FieldInput;
  raw_model_name : option FieldInput;
  raw_horse_power : option FieldInput;
  raw_asset_cost : option FieldInput;
  raw_dealer_signature : option DetDict;
  raw_dealer_stamp : option DetDict
}.

(** A validated detection payload. *)
Record DetectionPayload : Type := mkDetectionPayload {
  dp_present : PyVal;
  dp_bbox : PyVal;
  dp_confidence : PyVal
}.

(** The dictionary [validated]; an explanation is a string or [None]. *)
Record Validated : Type := mkValidated {
  dealer_name : PyVal;
  dealer_name_confidence : PyVal;
  dealer_name_explanation : option Expl;
  model_name : PyVal;
  model_name_confidence : PyVal;
  model_name_explanation : option Expl;
  horse_power : PyVal;
  horse_power_confidence : PyVal;
  horse_power_explanation : option Expl;
  asset_cost : PyVal;
  asset_cost_confidence : PyVal;
  asset_cost_explanation : option Expl;
  dealer_signature : DetectionPayload;
  dealer_stamp : DetectionPayload
}.

(** The three entries written for one value field. *)
Definition entry : Type := (PyVal * PyVal * option Expl)%type.

Definition _validate_hp_range (hp_value : PyVal) : bool :=
  try_except
    (bind (py_float hp_value) (fun hp => Ok (Qleb 15 hp && Qleb hp 200)))
    false.

Definition _validate_cost_range (cost_value : PyVal) : bool :=
  try_except
    (bind (py_float cost_value) (fun cost =>
       Ok (Qleb 200000 cost && Qleb cost 2000000)))
    false.

Definition _validate_bbox (bbox : PyVal) : PyVal :=
  match bbox with
  | VNone => VNone
  | VList [x; y; w; h] =>
      try_except
        (if forallb is_number [x; y; w; h] then
           bind (py_ge x (VInt 0)) (fun cx =>
           if negb cx then Ok VNone else
           bind (py_ge y (VInt 0)) (fun cy =>
           if negb cy then Ok VNone else
           bind (py_gt w (VInt 0)) (fun cw =>
           if negb cw then Ok VNone else
           bind (py_gt h (VInt 0)) (fun ch =>
           if negb ch then Ok VNone else
           bind (py_int x) (fun ix =>
           bind (py_int y) (fun iy =>
           bind (py_int w) (fun iw =>
           bind (py_int h) (fun ih =>
             Ok (VList [VInt ix; VInt iy; VInt iw; VInt ih])))))))))
         else Ok VNone)
        VNone
  | _ => VNone
  end.

(** The block for [dealer_name], which is also the block for
    [model_name]. *)
Definition validate_name (self : t) (field : option FieldInput) : result entry :=
  match get_default field (Structured empty_dict) with
  | Structured d =>
      bind (py_ge (get_default (fd_confidence d) (VInt 0))
                  (VFloat (min_confidence self))) (fun enough =>
        if enough then
          Ok (get (fd_value d), get (fd_confidence d), fd_explanation d)
        else
          Ok (VNone,
              get_default (fd_confidence d) (VFloat 0),
              Some (get_default (fd_explanation d) [FLit "Low confidence"])))
  | Bare v => Ok (v, VFloat 0.5, Some [FLit "Direct extraction"])
  end.

(** The block for [horse_power]. *)
Definition validate_hp (self : t) (field : option FieldInput) : result entry :=
  match get_default field (Structured empty_dict) with
  | Structured d =>
      let hp_value := get (fd_value d) in
      if truthy hp_value && _validate_hp_range hp_value then
        bind (py_int hp_value) (fun n =>
          Ok (VInt n, get (fd_confidence d), fd_explanation d))
      else
        Ok (VNone,
            get_default (fd_confidence d) (VFloat 0),
            Some (get_default (fd_explanation d)
                    [FLit "Invalid range or not found"]))
  | Bare hp_value =>
      if truthy hp_value && _validate_hp_range hp_value then
        bind (py_int hp_value) (fun n =>
          Ok (VInt n, VFloat 0.7, Some [FLit "Direct extraction"]))
      else
        Ok (VNone, VFloat 0, Some [FLit "Invalid or not found"])
  end.

(** The block for [asset_cost]. *)
Definition validate_cost (self : t) (field : option FieldInput) : result entry :=
  match get_default field (Structured empty_dict) with
  | Structured d =>
      let cost_value := get (fd_value d) in
      if truthy cost_value && _validate_cost_range cost_value then
        bind (py_float cost_value) (fun c =>
          Ok (VFloat c, get (fd_confidence d), fd_explanation d))
      else
        Ok (VNone,
            get_default (fd_confidence d) (VFloat 0),
            Some (get_default (fd_explanation d)
                    [FLit "Invalid range or not found"]))
  | Bare cost_value =>
      if truthy cost_value && _validate_cost_range cost_value then
        bind (py_float cost_value) (fun c =>
          Ok (VFloat c, VFloat 0.7, Some [FLit "Direct extraction"]))
      else
        Ok (VNone, VFloat 0, Some [FLit "Invalid or not found"])
  end.

Definition empty_detection : DetDict := mkDetDict None None None.

(** The block for [dealer_signature], which is also the block for
    [dealer_stamp]. *)
Definition validate_detection (field : option DetDict) : DetectionPayload :=
  let d := get_default field empty_detection in
  {| dp_present := get_default (present d) (VBool false);
     dp_bbox := _validate_bbox (get (bbox d));
     dp_confidence := get_default (det_confidence d) (VFloat 0) |}.

Definition validate (self : t) (fields : RawFields) : result Validated :=
  bind (validate_name self (raw_dealer_name fields)) (fun dealer =>
  bind (validate_name self (raw_model_name fields)) (fun model =>
  bind (validate_hp self (raw_horse_power fields)) (fun hp =>
  bind (validate_cost self (raw_asset_cost fields)) (fun cost =>
    let '(dealer_v, dealer_c, dealer_e) := dealer in
    let '(model_v, model_c, model_e) := model in
    let '(hp_v, hp_c, hp_e) := hp in
    let '(cost_v, cost_c, cost_e) := cost in
    Ok {| dealer_name := dealer_v;
          dealer_name_confidence := dealer_c;
          dealer_name_explanation := dealer_e;
          model_name := model_v;
          model_name_confidence := model_c;
          model_name_explanation := model_e;
          horse_power := hp_v;
          horse_power_confidence := hp_c;
          horse_power_explanation := hp_e;
          asset_cost := cost_v;
          asset_cost_confidence := cost_c;
          asset_cost_explanation := cost_e;
          dealer_signature := validate_detection (raw_dealer_signature fields);
          dealer_stamp := validate_detection (raw_dealer_stamp fields) |})))).

(** *** Detection entries of any type

    [validate] reads the entries under [dealer_signature] and
    [dealer_stamp] with [.get] without a test of their type, unlike the
    four value fields. *)

(** What [fields] holds under the key of a detection: a dictionary, or
    an object of another type, which has no method [get]. *)
Inductive DetInput : Type :=
| DetRecord (d : DetDict)
| DetObject (v : PyVal).

(** The argument [fields] of [validate] with detection entries of any
    type. *)
Record AnyFields : Type := mkAnyFields {
  any_dealer_name : option FieldInput;
  any_model_name : option FieldInput;
  any_horse_power : option FieldInput;
  any_asset_cost : option FieldInput;
  any_dealer_signature : option DetInput;
  any_dealer_stamp : option DetInput
}.

(** The block of one detection: the first [.get] raises
    [AttributeError] on an object that is not a dictionary. *)
Definition validate_detection_any (field : option DetInput)
  : result DetectionPayload :=
  match field with
  | None => Ok (validate_detection None)
  | Some (DetRecord d) => Ok (validate_detection (Some d))
  | Some (DetObject _) => Raise AttributeError
  end.

(** [validate], block after block. *)
Definition validate_any (self : t) (fields : AnyFields) : result Validated :=
  bind (validate_name self (any_dealer_name fields)) (fun dealer =>
  bind (validate_name self (any_model_name fields)) (fun model =>
  bind (validate_hp self (any_horse_power fields)) (fun hp =>
  bind (validate_cost self (any_asset_cost fields)) (fun cost =>
  bind (validate_detection_any (any_dealer_signature fields))
       (fun signature =>
  bind (validate_detection_any (any_dealer_stamp fields)) (fun stamp =>
    let '(dealer_v, dealer_c, dealer_e) := dealer in
    let '(model_v, model_c, model_e) := model in
    let '(hp_v, hp_c, hp_e) := hp in
    let '(cost_v, cost_c, cost_e) := cost in
    Ok {| dealer_name := dealer_v;
          dealer_name_confidence := dealer_c;
          dealer_name_explanation := dealer_e;
          model_name := model_v;
          model_name_confidence := model_c;
          model_name_explanation := model_e;
          horse_power := hp_v;
          horse_power_confidence := hp_c;
          horse_power_explanation := hp_e;
          asset_cost := cost_v;
          asset_cost_confidence := cost_c;
          asset_cost_explanation := cost_e;
          dealer_signature := signature;
          dealer_stamp := stamp |})))))).

(** The fields with dictionaries as detection entries. *)
Definition typed (fields : RawFields) : AnyFields :=
  {| any_dealer_name := raw_dealer_name fields;
     any_model_name := raw_model_name fields;
     any_horse_power := raw_horse_power fields;
     any_asset_cost := raw_asset_cost fields;
     any_dealer_signature := option_map DetRecord (raw_dealer_signature fields);
     any_dealer_stamp := option_map DetRecord (raw_dealer_stamp fields) |}.

End Validator.

(** ** Steps 5 and 6 of [DocumentAIPipeline.process_document] *)

Module Pipeline.

Import Py.

(** An extractor result as the dictionary the validator reads. *)
Definition as_dict (r : FieldResult) : Validator.FieldInput :=
  Validator.Structured
    {| Validator.fd_value := Some (value r);
       Validator.fd_confidence := Some (VFloat (confidence r));
       Validator.fd_explanation := Some (explanation r) |}.

Definition as_raw (f : FieldExtractor.Fields) : Validator.RawFields :=
  {| Validator.raw_dealer_name := Some (as_dict (FieldExtractor.dealer_name f));
     Validator.raw_model_name := Some (as_dict (FieldExtractor.model_name f));
     Validator.raw_horse_power := Some (as_dict (FieldExtractor.horse_power f));
     Validator.raw_asset_cost := Some (as_dict (FieldExtractor.asset_cost f));
     Validator.raw_dealer_signature := Some (FieldExtractor.dealer_signature f);
     Validator.raw_dealer_stamp := Some (FieldExtractor.dealer_stamp f) |}.

(** [fields = self.field_extractor.extract_all_fields(...)] followed by
    [validated_fields = self.validator.validate(fields)]. *)
Definition extract_and_validate (field_extractor : FieldExtractor.t)
    (validator : Validator.t) (ocr_result : FieldExtractor.OcrResult)
    (vlm_result : FieldExtractor.VlmResult)
    (detection_result : FieldExtractor.DetectionResult)
  : result Validator.Validated :=
  bind (FieldExtractor.extract_all_fields field_extractor ocr_result
          vlm_result detection_result)
       (fun fields => Validator.validate validator (as_raw fields)).

End Pipeline.

(** ** [utils/vlm_module.py]: the response parser of [VLMExtractor] *)

Module VLMExtractor.

Import Text.
Local Open Scope string_scope.

(** What [float] makes of a string: a finite number or one of the three
    non-finite floats. *)
Inductive pyfloat : Type :=
| Finite (q : Q)
| Infinity (negative : bool)
| NaN.

Definition chars_eqb (a b : list ascii) : bool :=
  String.eqb (text a) (text b).

(** The spellings [inf], [infinity] and [nan], in any case, with an
    optional sign and surrounding white space. *)
Definition special_float (s : string) : option pyfloat :=
  let (negative, body) := split_sign (trim_chars (chars s)) in
  let word := map lower_char body in
  if chars_eqb word (chars "inf") || chars_eqb word (chars "infinity")
  then Some (Infinity negative)
  else if chars_eqb word (chars "nan") then Some NaN
  else None.

(** The least magnitude that rounds to infinity: half a unit in the last
    place above the largest double. *)
Definition overflow_bound : Q := inject_Z Py.float_overflow.

(** A decimal literal too large for a double is read as infinity. *)
Definition finite_or_infinity (q : Q) : pyfloat :=
  if Py.Qleb overflow_bound q then Infinity false
  else if Py.Qleb q (- overflow_bound) then Infinity true
  else Finite q.

(** [float(s)] on a string; [None] stands for [ValueError]. *)
Definition py_float_of_str (s : string) : option pyfloat :=
  match special_float s with
  | Some f => Some f
  | None => option_map finite_or_infinity (float_of_string s)
  end.

(** The dictionary [fields] of [_parse_vlm_response]; the dictionary of
    [_fallback_extraction] has the key [vlm_available] in the place of
    [vlm_raw_response]. *)
Record Fields : Type := mkFields {
  dealer_name : option string;
  model_name : option string;
  horse_power : option pyfloat;
  asset_cost : option pyfloat;
  vlm_raw_response : option string;
  vlm_available : option bool
}.

Definition set_dealer_name (f : Fields) (v : string) : Fields :=
  mkFields (Some v) (model_name f) (horse_power f) (asset_cost f)
    (vlm_raw_response f) (vlm_available f).

Definition set_model_name (f : Fields) (v : string) : Fields :=
  mkFields (dealer_name f) (Some v) (horse_power f) (asset_cost f)
    (vlm_raw_response f) (vlm_available f).

Definition set_horse_power (f : Fields) (v : pyfloat) : Fields :=
  mkFields (dealer_name f) (model_name f) (Some v) (asset_cost f)
    (vlm_raw_response f) (vlm_available f).

Definition set_asset_cost (f : Fields) (v : pyfloat) : Fields :=
  mkFields (dealer_name f) (model_name f) (horse_power f) (Some v)
    (vlm_raw_response f) (vlm_available f).

(** [line.startswith(prefix)] *)
Definition startswith (line prefix : string) : bool :=
  starts_with (chars prefix) (chars line).

(** [line.split(':', 1)[1]]: what follows the first colon.  Every call is
    on a line that starts with a key and its colon. *)
Fixpoint after_colon_chars (l : list ascii) : list ascii :=
  match l with
  | [] => []
  | c :: t => if (code c =? 58)%N then t else after_colon_chars t
  end.

Definition after_colon (line : string) : string :=
  text (after_colon_chars (chars line)).

Definition not_found (value : string) : bool := String.eqb value "NOT_FOUND".

(** The body of [for line in response.split('\n')]. *)
Definition parse_line (fields : Fields) (raw : string) : Fields :=
  let line := strip raw in
  if startswith line "DEALER_NAME:" then
    let value := strip (after_colon line) in
    if negb (not_found value) then set_dealer_name fields value else fields
  else if startswith line "MODEL_NAME:" then
    let value := strip (after_colon line) in
    if negb (not_found value) then set_model_name fields value else fields
  else if startswith line "HORSE_POWER:" then
    let value := strip (after_colon line) in
    if negb (not_found value) then
      match py_float_of_str value with
      | Some v => set_horse_power fields v
      | None => fields
      end
    else fields
  else if startswith line "ASSET_COST:" then
    let value := strip (after_colon line) in
    if negb (not_found value) then
      match py_float_of_str (remove_char ","%char value) with
      | Some v => set_asset_cost fields v
      | None => fields
      end
    else fields
  else fields.

Definition _parse_vlm_response (response : string) : Fields :=
  fold_left parse_line (split_lines response)
    (mkFields None None None None (Some response) None).

Definition _fallback_extraction : Fields :=
  mkFields None None None None None (Some false).

(** The number as the object the field extractor receives; the
    non-finite floats are not objects of [Py.PyVal]. *)
Definition number_object (v : option pyfloat) : option Py.PyVal :=
  match v with
  | None => Some Py.VNone
  | Some (Finite q) => Some (Py.VFloat q)
  | Some (Infinity _) | Some NaN => None
  end.

(** The dictionary as the [vlm_result] of the field extractor, when its
    numbers are finite. *)
Definition as_vlm_result (f : Fields) : option FieldExtractor.VlmResult :=
  match number_object (horse_power f), number_object (asset_cost f) with
  | Some hp, Some cost =>
      Some (FieldExtractor.mkVlmResult (dealer_name f) (model_name f) hp cost)
  | _, _ => None
  end.

End VLMExtractor.

(** ** [utils/ocr_module.py]: the transcript of [OCRExtractor.extract] *)

Module OCRExtractor.

Import Text.
Local Open Scope string_scope.

(** One recognised line, [line[1]]: its text and its confidence. *)
Definition Line : Type := (string * Q)%type.

Definition newline : string := String (ascii_of_N 10) EmptyString.

(** The loop over [result[0]] and [full_text = '\n'.join(text_lines)]. *)
Definition full_text_of (lines : list Line) : string :=
  join newline (map fst lines).

(** The result of [extract], as far as the field extractor reads it:
    without an engine, or when the engine returns nothing ([None] or an
    empty list), the transcript is empty. *)
Definition extract (result : option (list (list Line)))
  : FieldExtractor.OcrResult :=
  match result with
  | None | Some [] => FieldExtractor.mkOcrResult (Some EmptyString)
  | Some (first :: _) => FieldExtractor.mkOcrResult (Some (full_text_of first))
  end.

End OCRExtractor.

(** ** [utils/detection_module.py]: the detections of
    [SignatureStampDetector.detect] *)

Module SignatureStampDetector.

Import Py.

(** One detected box, [box.cls[0]], [box.conf[0]] and [box.xyxy[0]], as
    numbers. *)
Record Box : Type := mkBox {
  cls : Q;
  conf : Q;
  x1 : Q; y1 : Q; x2 : Q; y2 : Q
}.

Definition Detections : Type := (DetDict * DetDict)%type.

Definition nothing (confidence : Q) : DetDict :=
  {| present := Some (VBool false);
     bbox := Some VNone;
     det_confidence := Some (VFloat confidence) |}.

(** The body of [for box in results[0].boxes]: class 0 is a signature,
    class 1 a stamp, each box replaces the one found before. *)
Definition record_box (detections : Detections) (box : Box) : Detections :=
  let cls_id := Qtrunc (cls box) in
  let confidence := conf box in
  let found :=
    {| present := Some (VBool true);
       bbox := Some (VList [VInt (Qtrunc (x1 box)); VInt (Qtrunc (y1 box));
                            VInt (Qtrunc (x2 box - x1 box));
                            VInt (Qtrunc (y2 box - y1 box))]);
       det_confidence := Some (VFloat confidence) |} in
  if (cls_id =? 0)%Z then (found, snd detections)
  else if (cls_id =? 1)%Z then (fst detections, found)
  else detections.

(** The [try] block of [detect] after the model has run: [results] holds
    the boxes of each image. *)
Definition detect (results : list (list Box))
  : FieldExtractor.DetectionResult :=
  let detections :=
    match results with
    | boxes :: _ => fold_left record_box boxes (nothing 0, nothing 0)
    | [] => (nothing 0, nothing 0)
    end in
  FieldExtractor.mkDetectionResult (Some (fst detections))
    (Some (snd detections)).

End SignatureStampDetector.

(** ** [utils/output_formatter.py]: [OutputFormatter.format] *)

Module OutputFormatter.

Import Py.
Local Open Scope string_scope.

(** The argument [fields]: each key may be absent; an explanation that is
    present is a string or [None]. *)
Record FlatFields : Type := mkFlatFields {
  dealer_name : option PyVal;
  dealer_name_confidence : option PyVal;
  dealer_name_explanation : option (option Expl);
  model_name : option PyVal;
  model_name_confidence : option PyVal;
  model_name_explanation : option (option Expl);
  horse_power : option PyVal;
  horse_power_confidence : option PyVal;
  horse_power_explanation : option (option Expl);
  asset_cost : option PyVal;
  asset_cost_confidence : option PyVal;
  asset_cost_explanation : option (option Expl);
  dealer_signature : option DetDict;
  dealer_stamp : option DetDict
}.

(** [{"present": ..., "bbox": ...}] *)
Record Detection : Type := mkDetection {
  det_present : PyVal;
  det_bbox : PyVal
}.

Record OutFields : Type := mkOutFields {
  out_dealer_name : PyVal;
  out_model_name : PyVal;
  out_horse_power : PyVal;
  out_asset_cost : PyVal;
  out_dealer_signature : Detection;
  out_dealer_stamp : Detection
}.

Record OutConfidence : Type := mkOutConfidence {
  conf_dealer_name : PyVal;
  conf_model_name : PyVal;
  conf_horse_power : PyVal;
  conf_asset_cost : PyVal;
  conf_dealer_signature : PyVal;
  conf_dealer_stamp : PyVal
}.

Record OutExplanation : Type := mkOutExplanation {
  expl_dealer_name : option Expl;
  expl_model_name : option Expl;
  expl_horse_power : option Expl;
  expl_asset_cost : option Expl;
  expl_dealer_signature : Expl;
  expl_dealer_stamp : Expl
}.

Record Output : Type := mkOutput {
  doc_id : string;
  fields : OutFields;
  confidences : OutConfidence;
  explanations : OutExplanation;
  processing_time_seconds : Q;
  estimated_cost_usd : Q
}.

Definition empty_detection : DetDict := mkDetDict None None None.

(** [fields.get(key, {})] for a detection. *)
Definition detection_of (d : option DetDict) : DetDict :=
  get_default d empty_detection.

Definition detection_explanation (d : option DetDict) : Expl :=
  if truthy (get (present (detection_of d)))
  then [FLit "Detected"] else [FLit "Not detected"].

Section Format.

(** The builtin [round(x, ndigits)] on floats. *)
Variable round : Q -> Z -> Q.

(** A missing explanation defaults to the empty string, the text without
    fragments. *)
Definition format (doc_id : string) (fields : FlatFields)
    (processing_time estimated_cost : Q) : Output :=
  {| doc_id := doc_id;
     fields :=
       {| out_dealer_name := get (dealer_name fields);
          out_model_name := get (model_name fields);
          out_horse_power := get (horse_power fields);
          out_asset_cost := get (asset_cost fields);
          out_dealer_signature :=
            {| det_present :=
                 get_default (present (detection_of (dealer_signature fields)))
                   (VBool false);
               det_bbox := get (bbox (detection_of (dealer_signature fields))) |};
          out_dealer_stamp :=
            {| det_present :=
                 get_default (present (detection_of (dealer_stamp fields)))
                   (VBool false);
               det_bbox := get (bbox (detection_of (dealer_stamp fields))) |} |};
     confidences :=
       {| conf_dealer_name :=
            get_default (dealer_name_confidence fields) (VFloat 0);
          conf_model_name :=
            get_default (model_name_confidence fields) (VFloat 0);
          conf_horse_power :=
            get_default (horse_power_confidence fields) (VFloat 0);
          conf_asset_cost :=
            get_default (asset_cost_confidence fields) (VFloat 0);
          conf_dealer_signature :=
            get_default (det_confidence (detection_of (dealer_signature fields)))
              (VFloat 0);
          conf_dealer_stamp :=
            get_default (det_confidence (detection_of (dealer_stamp fields)))
              (VFloat 0) |};
     explanations :=
       {| expl_dealer_name :=
            get_default (dealer_name_explanation fields) (Some []);
          expl_model_name :=
            get_default (model_name_explanation fields) (Some []);
          expl_horse_power :=
            get_default (horse_power_explanation fields) (Some []);
          expl_asset_cost :=
            get_default (asset_cost_explanation fields) (Some []);
          expl_dealer_signature :=
            detection_explanation (dealer_signature fields);
          expl_dealer_stamp := detection_explanation (dealer_stamp fields) |};
     processing_time_seconds := round processing_time 2;
     estimated_cost_usd := round estimated_cost 6 |}.

End Format.

(** The dictionary [validate] returns, as the argument of [format]: all
    its keys are present. *)
Definition payload_dict (d : Validator.DetectionPayload) : DetDict :=
  {| present := Some (Validator.dp_present d);
     bbox := Some (Validator.dp_bbox d);
     det_confidence := Some (Validator.dp_confidence d) |}.

Definition of_validated (v : Validator.Validated) : FlatFields :=
  {| dealer_name := Some (Validator.dealer_name v);
     dealer_name_confidence := Some (Validator.dealer_name_confidence v);
     dealer_name_explanation := Some (Validator.dealer_name_explanation v);
     model_name := Some (Validator.model_name v);
     model_name_confidence := Some (Validator.model_name_confidence v);
     model_name_explanation := Some (Validator.model_name_explanation v);
     horse_power := Some (Validator.horse_power v);
     horse_power_confidence := Some (Validator.horse_power_confidence v);
     horse_power_explanation := Some (Validator.horse_power_explanation v);
     asset_cost := Some (Validator.asset_cost v);
     asset_cost_confidence := Some (Validator.asset_cost_confidence v);
     asset_cost_explanation := Some (Validator.asset_cost_explanation v);
     dealer_signature := Some (payload_dict (Validator.dealer_signature v));
     dealer_stamp := Some (payload_dict (Validator.dealer_stamp v)) |}.

End OutputFormatter.

(** ** Steps 2 to 6 of [DocumentAIPipeline.process_document] and the
    formatting that follows *)

Module Document.

Import Py.

(** From what the three models deliver for one image (the lines the text
    recogniser found, the dictionary of the vision-language model and the
    boxes of the detector) to the formatted output; [round] is the
    builtin. *)
Definition process (round : Q -> Z -> Q)
    (field_extractor : FieldExtractor.t)
    (validator : Validator.t) (doc_id : string)
    (ocr : option (list (list OCRExtractor.Line)))
    (vlm_result : FieldExtractor.VlmResult)
    (boxes : list (list SignatureStampDetector.Box))
    (processing_time estimated_cost : Q)
  : result OutputFormatter.Output :=
  bind (Pipeline.extract_and_validate field_extractor validator
          (OCRExtractor.extract ocr) vlm_result
          (SignatureStampDetector.detect boxes))
       (fun validated_fields =>
          Ok (OutputFormatter.format round doc_id
                (OutputFormatter.of_validated validated_fields)
                processing_time estimated_cost)).

End Document.

(** ** The loop and the summary of [DocumentAIPipeline.process_batch] *)

Module Batch.

(** The numbers the summary prints. *)
Record Summary : Type := mkSummary {
  total_documents : nat;
  successfully_processed : nat;
  failed : nat;
  total_time : Q;
  average_time : Q;
  total_cost : Q;
  average_cost : Q
}.

Inductive outcome : Type :=
| Printed (summary : Summary)
| ZeroDivisionError.

(** [results], [total_time] and [total_cost]. *)
Definition state : Type := (list OutputFormatter.Output * Q * Q)%type.

(** The body of the loop over the image files.  [document] is what
    [process_document] did on the file: its output, or [None] when it
    raised an exception, which [except Exception] catches. *)
Definition step (st : state) (document : option OutputFormatter.Output)
  : state :=
  let '(results, total_time, total_cost) := st in
  match document with
  | Some result =>
      (results ++ [result],
       (total_time + OutputFormatter.processing_time_seconds result)%Q,
       (total_cost + OutputFormatter.estimated_cost_usd result)%Q)
  | None => st
  end.

(** The loop and the summary that follows it; the two averages divide by
    [len(results)]. *)
Definition process_batch (image_files : list (option OutputFormatter.Output))
  : outcome :=
  let '(results, total_time, total_cost) :=
    fold_left step image_files ([], 0%Q, 0%Q) in
  let n := List.length results in
  if (n =? 0)%nat then ZeroDivisionError
  else
    Printed
      {| total_documents := List.length image_files;
         successfully_processed := n;
         failed := List.length image_files - n;
         total_time := total_time;
         average_time := (total_time / inject_Z (Z.of_nat n))%Q;
         total_cost := total_cost;
         average_cost := (total_cost / inject_Z (Z.of_nat n))%Q |}.

End Batch.


(** ** Statements used by the theorems *)

Module Props.

Import Py Fuzz FieldExtractor.

(** What the loop of [extract_dealer_name] maintains after the candidates
    [seen]: the state bounds every score of a non-empty candidate against
    a reference entry, and it is either the initial state or the triple of
    one such pair. *)
Definition dealer_inv (self : t) (seen : list string) (st : dealer_state)
  : Prop :=
  let '(best_match, best_score, best_candidate) := st in
  (0 <= best_score)%Q /\
  (forall c r, In c seen -> str_truthy c = true ->
               In r (dealer_master self) -> (ratio c r <= best_score)%Q) /\
  ((best_match = None /\ best_candidate = None /\ best_score = 0%Q) \/
   (exists c r, In c seen /\ str_truthy c = true /\
                In r (dealer_master self) /\
                best_match = Some r /\ best_candidate = Some c /\
                best_score = ratio c r)).

(** The test that ends the loop of [extract_model_name], as the code
    computes it. *)
Definition model_accepts (self : t) (c : string) : bool :=
  str_truthy c &&
  (in_master c (asset_master self) ||
   match extractOne c (asset_master self) with
   | Some (_, score) => Qleb 95 score
   | None => false
   end).

(** A candidate that qualifies: not empty, and either one of the
    reference entries or at similarity 95 or more to one of them. *)
Definition model_acceptable (self : t) (c : string) : Prop :=
  str_truthy c = true /\
  (In c (asset_master self) \/
   exists r, In r (asset_master self) /\ (95 <= ratio c r)%Q).


(** A horse power the validator keeps: a number within 15..200. *)
Definition hp_in_band (v : PyVal) : Prop :=
  exists q, number_of v = Some q /\ (15 <= q /\ q <= 200)%Q.

(** A box the validator keeps: a list of four numbers, the first two not
    negative and the last two positive; [ints] are the four numbers
    truncated to integers. *)
Definition valid_box (bbox : PyVal) (ints : list Z) : Prop :=
  exists x y w h qx qy qw qh,
    bbox = VList [x; y; w; h] /\
    number_of x = Some qx /\ number_of y = Some qy /\
    number_of w = Some qw /\ number_of h = Some qh /\
    (0 <= qx)%Q /\ (0 <= qy)%Q /\ (0 < qw)%Q /\ (0 < qh)%Q /\
    ints = [Qtrunc qx; Qtrunc qy; Qtrunc qw; Qtrunc qh].

(** Nothing, or a number whose integer part has at most 4300 digits,
    which is what an f-string formats. *)
Definition short_number_or_none (v : PyVal) : Prop :=
  v = VNone \/
  exists q, number_of v = Some q /\ Z.abs (Qtrunc q) < int_str_limit.

(** Nothing, or a number within the range of the doubles, which is what
    [float] converts. *)
Definition double_or_none (v : PyVal) : Prop :=
  v = VNone \/
  exists q, number_of v = Some q /\
            (- inject_Z float_overflow < q)%Q /\
            (q < inject_Z float_overflow)%Q.

(** A number as the response parser stores it: when finite, within the
    range of the doubles. *)
Definition parsed_number (o : option VLMExtractor.pyfloat) : Prop :=
  forall q, o = Some (VLMExtractor.Finite q) ->
            (- inject_Z float_overflow < q)%Q /\
            (q < inject_Z float_overflow)%Q.

(** A digit, or a byte of a character outside ASCII: the digits of
    Unicode, which [\d] and [int] read as digits, are among these. *)
Definition digit_like (c : ascii) : bool :=
  Text.is_digit c || (128 <=? Text.code c)%N.

(** No run of consecutive digits of the text is longer than [n], the
    bytes of characters outside ASCII counting as digits. *)
Definition digit_runs_within (n : nat) (s : string) : Prop :=
  forall g, Re.segment_of g (Text.chars s) ->
            forallb digit_like g = true -> (List.length g <= n)%nat.

(** A name field given as a record whose confidence is not a number. *)
Definition name_confidence_invalid (f : option Validator.FieldInput) : Prop :=
  exists d,
    f = Some (Validator.Structured d) /\
    Py.number_of (get_default (Validator.fd_confidence d) (Py.VInt 0)) = None.

(** The object read as the horse power: the value of a record, or the
    bare object. *)
Definition hp_value_of (f : option Validator.FieldInput) : Py.PyVal :=
  match get_default f (Validator.Structured Validator.empty_dict) with
  | Validator.Structured d => get (Validator.fd_value d)
  | Validator.Bare v => v
  end.

(** A horse power given as a string that [float] reads within 15..200
    and [int] does not read. *)
Definition hp_string_invalid (f : option Validator.FieldInput) : Prop :=
  exists s q,
    hp_value_of f = Py.VStr s /\
    Text.float_of_string s = Some q /\ (15 <= q /\ q <= 200)%Q /\
    Text.int_of_string s = None.

(** A string of ASCII characters, on which the model reads numbers as
    [int] and [float] do. *)
Definition ascii_only (s : string) : Prop :=
  forall c, In c (Text.chars s) -> (Text.code c < 128)%N.

(** A horse power given as a string on which the model does not settle
    what the block does: a string with a character outside ASCII (the
    digits and spaces of Unicode are not modelled), or a string that
    [int] does not read and [float] reads within a unit of the band
    15..200 (the model reads a decimal exactly where [float] rounds it,
    so next to the bounds the outcome of the range test is open). *)
Definition hp_string_unsettled (f : option Validator.FieldInput) : Prop :=
  exists s,
    hp_value_of f = Py.VStr s /\
    (~ ascii_only s \/
     (Text.int_of_string s = None /\
      exists q, Text.float_of_string s = Some q /\ (14 < q /\ q < 201)%Q)).

(** A detection entry that is not a dictionary. *)
Definition not_a_dict (p : option Validator.DetInput) : Prop :=
  exists v, p = Some (Validator.DetObject v).

(** Every cell of a table row is at most [i] and at most its column,
    the head being in column [j]. *)
Fixpoint row_bounded (i j : nat) (row : list nat) : Prop :=
  match row with
  | [] => True
  | v :: t => (v <= i)%nat /\ (v <= j)%nat /\ row_bounded i (S j) t
  end.

(** Every cell of a table row is the minimum of [i] and its column. *)
Fixpoint row_exact (i j : nat) (row : list nat) : Prop :=
  match row with
  | [] => True
  | v :: t => v = Nat.min i j /\ row_exact i (S j) t
  end.

(** A detection as the detector leaves it: nothing found, or a box of
    four integers found with some confidence. *)
Definition detected_or_nothing (d : DetDict) : Prop :=
  d = SignatureStampDetector.nothing 0 \/
  exists confidence x y w h,
    d = {| present := Some (Py.VBool true);
           bbox := Some (Py.VList [Py.VInt x; Py.VInt y; Py.VInt w; Py.VInt h]);
           det_confidence := Some (Py.VFloat confidence) |}.

(** The boxes of the first image, the only ones [detect] reads. *)
Definition first_image (results : list (list SignatureStampDetector.Box))
  : list SignatureStampDetector.Box :=
  match results with
  | boxes :: _ => boxes
  | [] => []
  end.

(** Some box of the first image has the class [k]. *)
Definition has_class (k : Z) (results : list (list SignatureStampDetector.Box))
  : Prop :=
  exists box, In box (first_image results) /\
              Py.Qtrunc (SignatureStampDetector.cls box) = k.

(** A validated detection that keeps the invariant of the payload: absent
    means no box and confidence 0.0; present means no box or a box of
    integers with a corner that is not negative and a positive size. *)
Definition payload_consistent (p : Validator.DetectionPayload) : Prop :=
  (Validator.dp_present p = Py.VBool false /\
   Validator.dp_bbox p = Py.VNone /\
   Validator.dp_confidence p = Py.VFloat 0) \/
  (Validator.dp_present p = Py.VBool true /\
   (Validator.dp_bbox p = Py.VNone \/
    exists x y w h,
      0 <= x /\ 0 <= y /\ 0 < w /\ 0 < h /\
      Validator.dp_bbox p
        = Py.VList [Py.VInt x; Py.VInt y; Py.VInt w; Py.VInt h])).

(** A name as the response parser stores it: never the marker
    [NOT_FOUND], and without surrounding white space. *)
Definition parsed_name (o : option string) : Prop :=
  forall v, o = Some v -> v <> "NOT_FOUND"%string /\ Text.strip v = v.

(** A string without a newline. *)
Definition one_line (s : string) : Prop :=
  forall c, In c (Text.chars s) -> Text.code c <> 10%N.

(** An asset cost the validator keeps: a number within
    200000..2000000. *)
Definition cost_in_band (v : Py.PyVal) : Prop :=
  exists q, Py.number_of v = Some q /\ (200000 <= q /\ q <= 2000000)%Q.

(** The score [extractOne] gives a non-empty candidate is below [s]
    (strictly, or not). *)
Definition scores_below (self : FieldExtractor.t) (strict : bool) (s : Q)
    (xs : list string) : Prop :=
  forall x m t,
    In x xs -> FieldExtractor.str_truthy x = true ->
    Fuzz.extractOne x (FieldExtractor.dealer_master self) = Some (m, t) ->
    if strict then (t < s)%Q else (t <= s)%Q.

(** The state of the dealer loop holds the earliest of the best: nothing
    scored above 0, or the candidate kept is one of [seen], the ones
    before it score strictly less and the ones after it no more. *)
Definition dealer_earliest (self : FieldExtractor.t) (seen : list string)
    (st : FieldExtractor.dealer_state) : Prop :=
  let '(best_match, best_score, best_candidate) := st in
  (best_match = None /\ best_candidate = None /\ best_score = 0%Q /\
   scores_below self false 0 seen) \/
  (exists pre c post r,
     seen = pre ++ c :: post /\
     FieldExtractor.str_truthy c = true /\
     Fuzz.extractOne c (FieldExtractor.dealer_master self)
       = Some (r, best_score) /\
     best_match = Some r /\ best_candidate = Some c /\
     (0 < best_score)%Q /\
     scores_below self true best_score pre /\
     scores_below self false best_score post).

(** A name of the output: nothing, or an entry of the master list. *)
Definition none_or_entry (master : list string) (v : Py.PyVal) : Prop :=
  v = Py.VNone \/ exists r, In r master /\ v = Py.VStr r.

(** The documents of a batch that were processed without an exception. *)
Definition processed_documents
    (image_files : list (option OutputFormatter.Output))
  : list OutputFormatter.Output :=
  flat_map (fun document =>
              match document with Some result => [result] | None => [] end)
           image_files.

Definition sum_of (f : OutputFormatter.Output -> Q)
    (results : list OutputFormatter.Output) : Q :=
  fold_left (fun total result => (total + f result)%Q) results 0%Q.

End Props.

(** * Theorems *)

Section Rationals.

Import Py.

Lemma Qleb_le (a b : Q) : Qleb a b = true <-> (a <= b)%Q.
Proof. unfold Qleb. apply Qle_bool_iff. Qed.

Lemma Qleb_gt (a b : Q) : Qleb a b = false <-> (b < a)%Q.
Proof.
  unfold Qleb. split; intro H.
  - apply Qnot_le_lt. intro L. apply Qle_bool_iff in L. congruence.
  - destruct (Qle_bool a b) eqn:E; [|reflexivity].
    apply Qle_bool_iff in E. exfalso. exact (Qlt_not_le _ _ H E).
Qed.

Lemma Qltb_lt (a b : Q) : Qltb a b = true <-> (a < b)%Q.
Proof.
  unfold Qltb. rewrite negb_true_iff. apply (Qleb_gt b a).
Qed.

Lemma Qltb_ge (a b : Q) : Qltb a b = false <-> (b <= a)%Q.
Proof.
  unfold Qltb. rewrite negb_false_iff. apply (Qleb_le b a).
Qed.

End Rationals.

(** ** [process.extractOne] returns the best score over the choices *)

Section ExtractOne.

Import Py Fuzz.

Variable query : string.

Lemma better_fold_some (choices : list string) (m : string) (s : Q) :
  exists m' s', fold_left (better query) choices (Some (m, s)) = Some (m', s').
Proof.
  revert m s. induction choices as [|c choices IH]; intros m s; simpl.
  - eauto.
  - destruct (Qltb s (ratio query c)); apply IH.
Qed.

(** From a current best that bounds the choices seen, the fold ends on a
    pair that bounds them and the remaining choices. *)
Lemma better_fold_spec (choices seen : list string) (m : string) (s : Q) :
  In m seen -> s = ratio query m ->
  (forall c, In c seen -> (ratio query c <= s)%Q) ->
  exists m' s',
    fold_left (better query) choices (Some (m, s)) = Some (m', s') /\
    In m' (seen ++ choices) /\ s' = ratio query m' /\
    (forall c, In c (seen ++ choices) -> (ratio query c <= s')%Q).
Proof.
  revert seen m s.
  induction choices as [|c choices IH]; intros seen m s Hin Hs Hmax; simpl.
  - exists m, s. rewrite app_nil_r. auto.
  - replace (seen ++ c :: choices) with ((seen ++ [c]) ++ choices)
      by (rewrite <- app_assoc; reflexivity).
    destruct (Qltb s (ratio query c)) eqn:E.
    + apply Qltb_lt in E.
      apply IH.
      * apply in_or_app. right. left. reflexivity.
      * reflexivity.
      * intros x Hx. apply in_app_or in Hx. destruct Hx as [Hx|[<-|[]]].
        -- apply Qle_trans with s; [auto | apply Qlt_le_weak; exact E].
        -- apply Qle_refl.
    + apply Qltb_ge in E.
      apply IH.
      * apply in_or_app. left. exact Hin.
      * exact Hs.
      * intros x Hx. apply in_app_or in Hx. destruct Hx as [Hx|[<-|[]]]; auto.
Qed.

Lemma extractOne_none (choices : list string) :
  extractOne query choices = None <-> choices = [].
Proof.
  unfold extractOne. destruct choices as [|c choices]; simpl.
  - tauto.
  - split; [|discriminate].
    destruct (better_fold_some choices c (ratio query c)) as (m & s & E).
    rewrite E. discriminate.
Qed.

Lemma extractOne_best (choices : list string) (m : string) (s : Q) :
  extractOne query choices = Some (m, s) ->
  In m choices /\ s = ratio query m /\
  (forall c, In c choices -> (ratio query c <= s)%Q).
Proof.
  unfold extractOne. destruct choices as [|c choices]; simpl; [discriminate|].
  intro E.
  destruct (better_fold_spec choices [c] c (ratio query c)) as (m' & s' & E' & H).
  - left; reflexivity.
  - reflexivity.
  - intros x [<-|[]]. apply Qle_refl.
  - rewrite E' in E. injection E as <- <-. exact H.
Qed.

End ExtractOne.

(** ** Dealer name: the best score over all candidates *)

Section Dealer.

Import Py Fuzz FieldExtractor Props.

Variable self : t.

Lemma dealer_inv_init : dealer_inv self [] dealer_init.
Proof.
  unfold dealer_inv, dealer_init. repeat split.
  - apply Qle_refl.
  - intros c r [].
  - left. auto.
Qed.

Lemma dealer_inv_mono (seen : list string) (c : string) (st : dealer_state) :
  dealer_inv self seen st ->
  (forall r, str_truthy c = true -> In r (dealer_master self) ->
             (ratio c r <= snd (fst st))%Q) ->
  dealer_inv self (seen ++ [c]) st.
Proof.
  destruct st as [[bm bs] bc]. simpl.
  intros (H0 & Hmax & Hwit) Hc. repeat split.
  - exact H0.
  - intros x r Hx Ht Hr. apply in_app_or in Hx.
    destruct Hx as [Hx|[<-|[]]]; auto.
  - destruct Hwit as [Hwit|(x & r & Hx & Hwit)]; [left; exact Hwit|].
    right. exists x, r. split; [apply in_or_app; left; exact Hx | exact Hwit].
Qed.

Lemma dealer_step_inv (seen : list string) (c : string) (st : dealer_state) :
  dealer_inv self seen st ->
  dealer_inv self (seen ++ [c]) (dealer_step self st c).
Proof.
  intro Hinv. destruct st as [[bm bs] bc]. unfold dealer_step.
  destruct (str_truthy c) eqn:Ht; cbn [negb].
  2:{ apply (dealer_inv_mono seen c (bm, bs, bc)); [exact Hinv|].
      intros r Hr. rewrite Ht in Hr. discriminate. }
  destruct (extractOne c (dealer_master self)) as [[m s]|] eqn:E.
  - apply extractOne_best in E. destruct E as (Hm & Hs & Hbest).
    destruct (Qltb bs s) eqn:Hlt.
    + apply Qltb_lt in Hlt. destruct Hinv as (H0 & Hmax & _).
      repeat split.
      * apply Qle_trans with bs; [exact H0 | apply Qlt_le_weak; exact Hlt].
      * intros x r Hx Hxt Hr. apply in_app_or in Hx.
        destruct Hx as [Hx|[<-|[]]].
        -- apply Qle_trans with bs; [auto | apply Qlt_le_weak; exact Hlt].
        -- auto.
      * right. exists c, m. repeat split; auto.
        apply in_or_app. right. left. reflexivity.
    + apply Qltb_ge in Hlt.
      apply (dealer_inv_mono seen c (bm, bs, bc)); [exact Hinv|].
      simpl. intros r _ Hr. apply Qle_trans with s; auto.
  - apply extractOne_none in E.
    apply (dealer_inv_mono seen c (bm, bs, bc)); [exact Hinv|].
    intros r _ Hr. rewrite E in Hr. destruct Hr.
Qed.

Lemma dealer_fold_inv (candidates seen : list string) (st : dealer_state) :
  dealer_inv self seen st ->
  dealer_inv self (seen ++ candidates)
    (fold_left (dealer_step self) candidates st).
Proof.
  revert seen st.
  induction candidates as [|c candidates IH]; intros seen st Hinv; simpl.
  - rewrite app_nil_r. exact Hinv.
  - replace (seen ++ c :: candidates) with ((seen ++ [c]) ++ candidates)
      by (rewrite <- app_assoc; reflexivity).
    apply IH. apply dealer_step_inv. exact Hinv.
Qed.

Lemma dealer_loop_inv (candidates : list string) :
  dealer_inv self candidates (dealer_loop self candidates).
Proof.
  exact (dealer_fold_inv candidates [] dealer_init dealer_inv_init).
Qed.

(** At a score of 90 or more the state is the triple of a candidate. *)
Lemma dealer_accepted_triple (candidates : list string)
    (bm : option string) (bs : Q) (bc : option string) :
  dealer_inv self candidates (bm, bs, bc) -> (90 <= bs)%Q ->
  exists c r, In c candidates /\ str_truthy c = true /\
              In r (dealer_master self) /\
              bm = Some r /\ bc = Some c /\ bs = ratio c r.
Proof.
  intros (_ & _ & [(_ & _ & ->)|H]) H90.
  - exfalso. revert H90. apply Qlt_not_le. reflexivity.
  - exact H.
Qed.

End Dealer.

(** C1. Issuer reconciliation is best-of-all.  For every list of dealer
    candidates the loop of [extract_dealer_name] ends on a state
    [(best_match, best_score, best_candidate)] such that [best_score]
    bounds the similarity of every non-empty candidate to every reference
    entry and is the similarity of one such pair (or is the initial 0 with
    nothing tracked).  If [best_score >= 90] the result has that reference
    as its value, confidence [best_score / 100] and an explanation naming
    the pair; otherwise the value is [None] and the explanation reports
    [best_score]. *)
Theorem extract_dealer_name_best_of_all
    (self : FieldExtractor.t) (candidates : list string) :
  exists best_match best_score best_candidate,
    FieldExtractor.dealer_loop self candidates
      = (best_match, best_score, best_candidate) /\
    (forall c r, In c candidates -> FieldExtractor.str_truthy c = true ->
                 In r (FieldExtractor.dealer_master self) ->
                 (Fuzz.ratio c r <= best_score)%Q) /\
    ((best_match = None /\ best_candidate = None /\ best_score = 0%Q) \/
     (exists c r, In c candidates /\ FieldExtractor.str_truthy c = true /\
                  In r (FieldExtractor.dealer_master self) /\
                  best_match = Some r /\ best_candidate = Some c /\
                  best_score = Fuzz.ratio c r)) /\
    ((90 <= best_score)%Q ->
     exists c r,
       In c candidates /\ In r (FieldExtractor.dealer_master self) /\
       best_score = Fuzz.ratio c r /\
       FieldExtractor.reconcile_dealer self candidates =
         {| value := Py.VStr r;
            confidence := (best_score / 100)%Q;
            explanation :=
              [FLit "Fuzzy matched '"; FStr c; FLit "' to '"; FStr r;
               FLit "' with "; FNum best_score; FLit "% similarity"] |}) /\
    (~ (90 <= best_score)%Q ->
     value (FieldExtractor.reconcile_dealer self candidates) = Py.VNone /\
     explanation (FieldExtractor.reconcile_dealer self candidates) =
       [FLit "No dealer match found (best: "; FNum best_score; FLit "%)"]).
Proof.
  pose proof (dealer_loop_inv self candidates) as Hinv.
  unfold FieldExtractor.reconcile_dealer.
  destruct (FieldExtractor.dealer_loop self candidates) as [[bm bs] bc] eqn:E.
  exists bm, bs, bc. split; [reflexivity|].
  pose proof Hinv as (H0 & Hmax & Hwit).
  split; [exact Hmax|]. split; [exact Hwit|]. split.
  - intro H90.
    destruct (dealer_accepted_triple self candidates bm bs bc Hinv H90)
      as (c & r & Hc & _ & Hr & -> & -> & Hs).
    exists c, r. repeat split; auto.
    unfold FieldExtractor.dealer_result.
    apply Qleb_le in H90. rewrite H90. reflexivity.
  - intro Hlow. unfold FieldExtractor.dealer_result.
    destruct (Py.Qleb 90 bs) eqn:Hb.
    + apply Qleb_le in Hb. contradiction.
    + split; reflexivity.
Qed.

(** C9 (as amended).  The result of the dealer reconciliation has value
    [None] exactly when the best score is below 90; an accepted result
    carries confidence [best_score / 100]; a rejected result carries
    confidence [0.0], and the best score seen is kept in its explanation
    only. *)
Theorem dealer_result_rejected_iff_none
    (self : FieldExtractor.t) (candidates : list string) :
  exists best_match best_score best_candidate,
    FieldExtractor.dealer_loop self candidates
      = (best_match, best_score, best_candidate) /\
    (value (FieldExtractor.reconcile_dealer self candidates) = Py.VNone
     <-> ~ (90 <= best_score)%Q) /\
    ((90 <= best_score)%Q ->
     confidence (FieldExtractor.reconcile_dealer self candidates)
       = (best_score / 100)%Q) /\
    (~ (90 <= best_score)%Q ->
     confidence (FieldExtractor.reconcile_dealer self candidates) = 0%Q /\
     explanation (FieldExtractor.reconcile_dealer self candidates) =
       [FLit "No dealer match found (best: "; FNum best_score; FLit "%)"]).
Proof.
  pose proof (dealer_loop_inv self candidates) as Hinv.
  unfold FieldExtractor.reconcile_dealer.
  destruct (FieldExtractor.dealer_loop self candidates) as [[bm bs] bc] eqn:E.
  exists bm, bs, bc. split; [reflexivity|].
  unfold FieldExtractor.dealer_result.
  destruct (Py.Qleb 90 bs) eqn:Hb.
  - apply Qleb_le in Hb.
    destruct (dealer_accepted_triple self candidates bm bs bc Hinv Hb)
      as (c & r & _ & _ & _ & -> & _ & _).
    simpl. repeat split; try tauto; intros; try discriminate; contradiction.
  - assert (Hlow : ~ (90 <= bs)%Q).
    { intro H. apply Qleb_le in H. congruence. }
    simpl. repeat split; try tauto; intros; contradiction.
Qed.

(** C9, the claim as stated, fails: with the reference list [["abxy"]]
    and the single candidate ["abcd"] the best score is 50, below 90, and
    the confidence returned is 0, not 50/100. *)
Lemma dealer_rejected_confidence_is_not_best_score :
  let self := FieldExtractor.mkFieldExtractor ["abxy"%string] [] in
  let vlm_result :=
    FieldExtractor.mkVlmResult (Some "abcd"%string) None Py.VNone Py.VNone in
  FieldExtractor.dealer_loop self ["abcd"%string]
    = (Some "abxy"%string, (400 # 8)%Q, Some "abcd"%string) /\
  ~ (90 <= 400 # 8)%Q /\
  FieldExtractor.extract_dealer_name self EmptyString vlm_result
    = FieldExtractor.reconcile_dealer self ["abcd"%string] /\
  confidence (FieldExtractor.extract_dealer_name self EmptyString vlm_result) = 0%Q /\
  ~ (confidence (FieldExtractor.extract_dealer_name self EmptyString vlm_result)
     == (400 # 8) / 100)%Q.
Proof.
  cbv zeta. repeat split.
  - intro H. vm_compute in H. apply H. reflexivity.
  - intro H. vm_compute in H. discriminate H.
Qed.

(** ** Model name: the first acceptable candidate *)

Section Model.

Import Py Fuzz FieldExtractor Props.

Variable self : t.

Lemma reconcile_model_skip (c : string) (rest : list string) :
  model_accepts self c = false ->
  reconcile_model self (c :: rest) = reconcile_model self rest.
Proof.
  unfold model_accepts. intro H. simpl.
  destruct (str_truthy c); simpl in *; [|reflexivity].
  destruct (in_master c (asset_master self)); simpl in H; [discriminate|].
  destruct (extractOne c (asset_master self)) as [[m s]|]; [|reflexivity].
  rewrite H. reflexivity.
Qed.

Lemma reconcile_model_skip_all (pre rest : list string) :
  (forall x, In x pre -> model_accepts self x = false) ->
  reconcile_model self (pre ++ rest) = reconcile_model self rest.
Proof.
  induction pre as [|x pre IH]; intro H; [reflexivity|].
  rewrite <- app_comm_cons, reconcile_model_skip.
  - apply IH. intros y Hy. apply H. right. exact Hy.
  - apply H. left. reflexivity.
Qed.

Lemma reconcile_model_exact (c : string) (rest : list string) :
  str_truthy c = true -> in_master c (asset_master self) = true ->
  reconcile_model self (c :: rest) =
    {| value := VStr c;
       confidence := 1%Q;
       explanation := [FLit "Exact match found: "; FStr c] |}.
Proof.
  intros Ht Hin. simpl. rewrite Ht, Hin. reflexivity.
Qed.

Lemma reconcile_model_fuzzy (c : string) (rest : list string)
    (m : string) (s : Q) :
  str_truthy c = true -> in_master c (asset_master self) = false ->
  extractOne c (asset_master self) = Some (m, s) -> Qleb 95 s = true ->
  reconcile_model self (c :: rest) =
    {| value := VStr m;
       confidence := (s / 100)%Q;
       explanation :=
         [FLit "Matched '"; FStr c; FLit "' to '"; FStr m;
          FLit "' ("; FNum s; FLit "%)"] |}.
Proof.
  intros Ht Hin E Hs. simpl. rewrite Ht, Hin, E, Hs. reflexivity.
Qed.

Lemma in_master_iff (c : string) (master : list string) :
  in_master c master = true <-> In c master.
Proof.
  unfold in_master. rewrite existsb_exists. split.
  - intros (x & Hx & E). apply String.eqb_eq in E. subst x. exact Hx.
  - intro H. exists c. split; [exact H | apply String.eqb_refl].
Qed.

(** The test of the code holds exactly of the candidates that qualify:
    the score of [extractOne] is the greatest similarity to a reference
    entry. *)
Lemma model_accepts_iff (c : string) :
  model_accepts self c = true <-> model_acceptable self c.
Proof.
  unfold model_accepts, model_acceptable.
  rewrite andb_true_iff, orb_true_iff, in_master_iff.
  destruct (extractOne c (asset_master self)) as [[m s]|] eqn:E.
  - destruct (extractOne_best c _ m s E) as (Hm & Hs & Hbest).
    rewrite Qleb_le. split; intros [Ht [Hin|H]]; (split; [exact Ht|]);
      try (left; exact Hin); right.
    + exists m. split; [exact Hm|]. rewrite <- Hs. exact H.
    + destruct H as (r & Hr & H95).
      apply Qle_trans with (ratio c r); [exact H95 | exact (Hbest r Hr)].
  - apply extractOne_none in E. rewrite E.
    split; intros [Ht [Hin|H]]; (split; [exact Ht|]);
      try (left; exact Hin); [discriminate H|].
    destruct H as (r & [] & _).
Qed.

Lemma model_accepts_false (c : string) :
  ~ model_acceptable self c -> model_accepts self c = false.
Proof.
  intro H. destruct (model_accepts self c) eqn:E; [|reflexivity].
  exfalso. apply H, model_accepts_iff. exact E.
Qed.

(** A list of candidates has a first one that qualifies, or none. *)
Lemma first_acceptable (candidates : list string) :
  (forall x, In x candidates -> ~ model_acceptable self x) \/
  exists pre c post,
    candidates = pre ++ c :: post /\
    (forall x, In x pre -> ~ model_acceptable self x) /\
    model_acceptable self c.
Proof.
  induction candidates as [|a rest IH].
  - left. intros x [].
  - destruct (model_accepts self a) eqn:E.
    + right. exists [], a, rest. split; [reflexivity|].
      split; [intros x [] | apply model_accepts_iff; exact E].
    + assert (Ha : ~ model_acceptable self a).
      { intro H. apply model_accepts_iff in H. congruence. }
      destruct IH as [IH|(pre & c & post & -> & Hpre & Hc)].
      * left. intros x [<-|Hx]; [exact Ha | exact (IH x Hx)].
      * right. exists (a :: pre), c, post. split; [reflexivity|].
        split; [|exact Hc].
        intros x [<-|Hx]; [exact Ha | exact (Hpre x Hx)].
Qed.

End Model.

(** C2. Model reconciliation is first-acceptable.  A candidate qualifies
    when it is not empty and is a reference entry or has similarity 95 or
    more to some reference entry.  Let [c] be the first candidate, in
    order, that qualifies.  If [c] is a reference entry the result is [c]
    with confidence 1.0; otherwise it is a reference entry [m] closest to
    [c], whose score [s >= 95] bounds the similarity of [c] to every
    reference entry, with confidence [s / 100].  In both cases the
    candidates after [c] play no part, whatever their scores.  If no
    candidate qualifies the result is [None] with confidence 0.0.  Every
    list of candidates is in one of the two cases. *)
Theorem extract_model_name_first_acceptable
    (self : FieldExtractor.t) (candidates : list string) :
  (forall pre c post,
     candidates = pre ++ c :: post ->
     (forall x, In x pre -> ~ Props.model_acceptable self x) ->
     Props.model_acceptable self c ->
     (In c (FieldExtractor.asset_master self) ->
      FieldExtractor.reconcile_model self candidates =
        {| value := Py.VStr c;
           confidence := 1%Q;
           explanation := [FLit "Exact match found: "; FStr c] |}) /\
     (~ In c (FieldExtractor.asset_master self) ->
      exists m s,
        In m (FieldExtractor.asset_master self) /\
        s = Fuzz.ratio c m /\ (95 <= s)%Q /\
        (forall r, In r (FieldExtractor.asset_master self) ->
                   (Fuzz.ratio c r <= s)%Q) /\
        FieldExtractor.reconcile_model self candidates =
          {| value := Py.VStr m;
             confidence := (s / 100)%Q;
             explanation :=
               [FLit "Matched '"; FStr c; FLit "' to '"; FStr m;
                FLit "' ("; FNum s; FLit "%)"] |}) /\
     (forall post',
        FieldExtractor.reconcile_model self (pre ++ c :: post')
          = FieldExtractor.reconcile_model self candidates)) /\
  ((forall x, In x candidates -> ~ Props.model_acceptable self x) ->
   FieldExtractor.reconcile_model self candidates = FieldExtractor.no_model /\
   value (FieldExtractor.reconcile_model self candidates) = Py.VNone /\
   confidence (FieldExtractor.reconcile_model self candidates) = 0%Q) /\
  ((forall x, In x candidates -> ~ Props.model_acceptable self x) \/
   exists pre c post,
     candidates = pre ++ c :: post /\
     (forall x, In x pre -> ~ Props.model_acceptable self x) /\
     Props.model_acceptable self c) /\
  (forall ocr_text vlm_result,
     FieldExtractor.extract_model_name self ocr_text vlm_result =
       FieldExtractor.reconcile_model self
         (FieldExtractor.combine_candidates
            (FieldExtractor.vlm_model_name vlm_result)
            (FieldExtractor._extract_model_candidates ocr_text))).
Proof.
  split; [|split; [|split; [exact (first_acceptable self candidates)
                          |reflexivity]]].
  - intros pre c post -> Hpre Hc.
    assert (Hpre' : forall x, In x pre -> Props.model_accepts self x = false)
      by (intros x Hx; apply model_accepts_false, Hpre, Hx).
    rewrite (reconcile_model_skip_all self pre (c :: post) Hpre').
    pose proof Hc as [Ht _].
    apply model_accepts_iff in Hc. unfold Props.model_accepts in Hc.
    apply andb_true_iff in Hc. destruct Hc as [_ Hc].
    split; [|split].
    + intro Hin. apply reconcile_model_exact; [exact Ht|].
      apply in_master_iff. exact Hin.
    + intro Hout.
      assert (Hin : FieldExtractor.in_master c
                      (FieldExtractor.asset_master self) = false).
      { destruct (FieldExtractor.in_master c _) eqn:E; [|reflexivity].
        exfalso. apply Hout, in_master_iff. exact E. }
      rewrite Hin in Hc. simpl in Hc.
      destruct (Fuzz.extractOne c (FieldExtractor.asset_master self))
        as [[m s]|] eqn:E; [|discriminate].
      destruct (extractOne_best c _ m s E) as (Hm & Hs & Hbest).
      exists m, s. repeat split; auto.
      * apply Qleb_le. exact Hc.
      * apply reconcile_model_fuzzy; assumption.
    + intro post'.
      rewrite (reconcile_model_skip_all self pre (c :: post') Hpre').
      destruct (FieldExtractor.in_master c (FieldExtractor.asset_master self))
        eqn:Hin.
      * rewrite !reconcile_model_exact by assumption. reflexivity.
      * simpl in Hc.
        destruct (Fuzz.extractOne c (FieldExtractor.asset_master self))
          as [[m s]|] eqn:E; [|discriminate].
        rewrite !(reconcile_model_fuzzy self c _ m s) by assumption.
        reflexivity.
  - intro Hall.
    assert (Hall' : forall x, In x candidates ->
                              Props.model_accepts self x = false)
      by (intros x Hx; apply model_accepts_false, Hall, Hx).
    assert (E : FieldExtractor.reconcile_model self candidates
                = FieldExtractor.no_model).
    { rewrite <- (app_nil_r candidates).
      apply (reconcile_model_skip_all self candidates [] Hall'). }
    rewrite E. repeat split.
Qed.

(** ** Asset cost: the greatest plausible amount *)

Section Cost.

Import Py Re FieldExtractor.

Lemma in_cost_range_bounds (v : Q) :
  in_cost_range v = true <-> (300000 <= v /\ v <= 1500000)%Q.
Proof.
  unfold in_cost_range. rewrite andb_true_iff, !Qleb_le. tauto.
Qed.

Lemma cost_of_match_spec (p q : pattern) (m : string) (v : Q) :
  In (v, q) (cost_of_match p m) <->
  q = p /\
  Text.float_of_string (Text.strip (Text.remove_char ","%char m)) = Some v /\
  in_cost_range v = true.
Proof.
  unfold cost_of_match.
  destruct (Text.float_of_string _) as [w|]; simpl.
  - destruct (in_cost_range w) eqn:Hr; simpl.
    + split.
      * intros [H|[]]. injection H as <- <-. auto.
      * intros (-> & H & _). injection H as ->. left. reflexivity.
    + split; [tauto|]. intros (_ & H & Hv). injection H as ->. congruence.
  - split; [tauto|]. intros (_ & H & _). discriminate.
Qed.

Lemma cost_candidates_spec (patterns : list pattern) (ocr_text : string)
    (v : Q) (p : pattern) :
  In (v, p) (cost_candidates patterns ocr_text) <->
  In p patterns /\
  exists m, In m (findall true (tree p) ocr_text) /\
            Text.float_of_string (Text.strip (Text.remove_char ","%char m))
              = Some v /\
            in_cost_range v = true.
Proof.
  unfold cost_candidates. rewrite in_flat_map. split.
  - intros (q & Hq & H). apply in_flat_map in H. destruct H as (m & Hm & H).
    apply cost_of_match_spec in H. destruct H as (-> & H).
    split; [exact Hq|]. exists m. split; [exact Hm | exact H].
  - intros (Hp & m & Hm & H). exists p. split; [exact Hp|].
    apply in_flat_map. exists m. split; [exact Hm|].
    apply cost_of_match_spec. split; [reflexivity | exact H].
Qed.

(** [max_from] returns an element of the list that bounds all of them. *)
Lemma max_from_spec (l : list (Q * pattern)) (best : Q * pattern) :
  In (max_from best l) (best :: l) /\
  (forall c, In c (best :: l) -> (fst c <= fst (max_from best l))%Q).
Proof.
  revert best. induction l as [|c l IH]; intro best; simpl.
  - split; [left; reflexivity|]. intros x [<-|[]]. apply Qle_refl.
  - destruct (Qltb (fst best) (fst c)) eqn:E.
    + apply Qltb_lt in E. destruct (IH c) as [Hin Hmax]. split.
      * right. exact Hin.
      * intros x [<-|Hx].
        -- apply Qle_trans with (fst c);
             [apply Qlt_le_weak; exact E | apply Hmax; left; reflexivity].
        -- apply Hmax. exact Hx.
    + apply Qltb_ge in E. destruct (IH best) as [Hin Hmax]. split.
      * destruct Hin as [Hin|Hin]; [left; exact Hin | right; right; exact Hin].
      * intros x [<-|[<-|Hx]].
        -- apply Hmax. left. reflexivity.
        -- apply Qle_trans with (fst best);
             [exact E | apply Hmax; left; reflexivity].
        -- apply Hmax. right. exact Hx.
Qed.

Lemma cost_from_text_spec (ocr_text : string) :
  let candidates := cost_candidates cost_patterns ocr_text in
  (candidates = [] /\ cost_from_text ocr_text = no_cost) \/
  (exists v p,
     In (v, p) candidates /\
     (forall w q, In (w, q) candidates -> (w <= v)%Q) /\
     cost_from_text ocr_text =
       {| value := VFloat v;
          confidence := 0.85%Q;
          explanation :=
            [FLit "Extracted cost ₹"; FMoney v; FLit " using pattern '";
             FStr (source p); FLit "'"] |}).
Proof.
  unfold cost_from_text. cbv zeta.
  destruct (cost_candidates cost_patterns ocr_text) as [|c rest].
  - left. split; reflexivity.
  - right. destruct (max_from_spec rest c) as [Hin Hmax].
    destruct (max_from c rest) as [v p].
    exists v, p. split; [exact Hin|]. split; [|reflexivity].
    intros w q H. exact (Hmax (w, q) H).
Qed.

End Cost.

(** C3. Asset-cost extraction from text ([vlm_result] has no cost).  The
    collected candidates are exactly the matches of the cost patterns, in
    all patterns, whose text with the commas removed is a number between
    300000 and 1500000 inclusive.  When there is one, the value returned
    is a collected candidate that bounds all of them, with confidence
    0.85; when there is none the result is [None].  In particular, when
    the collected values are 350000 and 1200000 the value is 1200000. *)
Theorem extract_asset_cost_takes_maximum
    (self : FieldExtractor.t) (ocr_text : string)
    (vlm_result : FieldExtractor.VlmResult)
    (Hvlm : FieldExtractor.vlm_asset_cost vlm_result = Py.VNone) :
  let candidates :=
    FieldExtractor.cost_candidates FieldExtractor.cost_patterns ocr_text in
  (forall v p,
     In (v, p) candidates <->
     In p FieldExtractor.cost_patterns /\
     exists m, In m (Re.findall true (Re.tree p) ocr_text) /\
               Text.float_of_string
                 (Text.strip (Text.remove_char ","%char m)) = Some v /\
               (300000 <= v /\ v <= 1500000)%Q) /\
  (candidates = [] ->
   FieldExtractor.extract_asset_cost self ocr_text vlm_result
     = Py.Ok FieldExtractor.no_cost) /\
  (candidates <> [] ->
   exists v p,
     In (v, p) candidates /\
     (forall w q, In (w, q) candidates -> (w <= v)%Q) /\
     FieldExtractor.extract_asset_cost self ocr_text vlm_result =
       Py.Ok {| value := Py.VFloat v;
                confidence := 0.85%Q;
                explanation :=
                  [FLit "Extracted cost ₹"; FMoney v;
                   FLit " using pattern '"; FStr (Re.source p); FLit "'"] |}) /\
  ((forall w q, In (w, q) candidates -> (w == 350000 \/ w == 1200000)%Q) ->
   (exists w q, In (w, q) candidates /\ (w == 1200000)%Q) ->
   exists r v,
     FieldExtractor.extract_asset_cost self ocr_text vlm_result = Py.Ok r /\
     value r = Py.VFloat v /\ (v == 1200000)%Q /\ confidence r = 0.85%Q).
Proof.
  intro candidates.
  assert (Hpath : FieldExtractor.extract_asset_cost self ocr_text vlm_result
                  = Py.Ok (FieldExtractor.cost_from_text ocr_text)).
  { unfold FieldExtractor.extract_asset_cost. rewrite Hvlm. reflexivity. }
  rewrite Hpath.
  pose proof (cost_from_text_spec ocr_text) as Hspec. cbv zeta in Hspec.
  fold candidates in Hspec.
  split; [|split; [|split]].
  - intros v p. unfold candidates. rewrite cost_candidates_spec.
    split; intros (Hp & m & Hm & Hf & Hr); (split; [exact Hp|]);
      exists m; (split; [exact Hm|]); (split; [exact Hf|]);
      apply in_cost_range_bounds; exact Hr.
  - intro Hnil. destruct Hspec as [[_ ->]|(v & p & Hin & _)]; [reflexivity|].
    rewrite Hnil in Hin. destruct Hin.
  - intro Hne. destruct Hspec as [[Hnil _]|(v & p & Hin & Hmax & ->)];
      [contradiction|].
    exists v, p. auto.
  - intros Hvals (w & q & Hw & Hw12).
    destruct Hspec as [[Hnil _]|(v & p & Hin & Hmax & ->)].
    + rewrite Hnil in Hw. destruct Hw.
    + eexists. exists v. split; [reflexivity|]. split; [reflexivity|].
      split; [|reflexivity].
      destruct (Hvals v p Hin) as [H35|H12]; [|exact H12].
      exfalso. pose proof (Hmax w q Hw) as Hle.
      rewrite Hw12, H35 in Hle. revert Hle. apply Qlt_not_le. reflexivity.
Qed.

(** The statement above at a transcript with a subtotal and a total. *)
Lemma extract_asset_cost_takes_maximum_witness :
  let self := FieldExtractor.mkFieldExtractor [] [] in
  let ocr_text := "Subtotal Rs. 3,50,000
Total: Rs. 12,00,000"%string in
  let vlm_result := FieldExtractor.mkVlmResult None None Py.VNone Py.VNone in
  FieldExtractor.vlm_asset_cost vlm_result = Py.VNone /\
  map fst (FieldExtractor.cost_candidates FieldExtractor.cost_patterns ocr_text)
    = [350000%Q; 1200000%Q; 350000%Q; 1200000%Q] /\
  exists r v,
    FieldExtractor.extract_asset_cost self ocr_text vlm_result = Py.Ok r /\
    value r = Py.VFloat v /\ (v == 1200000)%Q /\ confidence r = 0.85%Q.
Proof.
  intros self ocr_text vlm_result.
  assert (E : map fst (FieldExtractor.cost_candidates
                         FieldExtractor.cost_patterns ocr_text)
              = [350000%Q; 1200000%Q; 350000%Q; 1200000%Q])
    by (vm_compute; reflexivity).
  split; [reflexivity|]. split; [exact E|].
  destruct (extract_asset_cost_takes_maximum self ocr_text vlm_result eq_refl)
    as (_ & _ & _ & H).
  apply H.
  - intros w q Hin. apply (in_map fst) in Hin. rewrite E in Hin. simpl in Hin.
    destruct Hin as [<-|[<-|[<-|[<-|[]]]]];
      [left | right | left | right]; reflexivity.
  - assert (Hin : In 1200000%Q
                    (map fst (FieldExtractor.cost_candidates
                                FieldExtractor.cost_patterns ocr_text)))
      by (rewrite E; right; left; reflexivity).
    apply in_map_iff in Hin. destruct Hin as ([w q] & Hw & Hin).
    exists w, q. split; [exact Hin|]. simpl in Hw. rewrite Hw. reflexivity.
Defined.

(** ** Horse power: the first pattern whose first match is plausible *)

Section HorsePower.

Import Py Re FieldExtractor Props.

Variable ocr_text : string.




End HorsePower.




(** ** A secondary source holding a string *)

(** C5 fails on the code.  When the secondary payload holds a string under
    [horse_power] that is not an integer literal, [int] raises
    [ValueError] in [extract_horse_power]; when it holds any string under
    [asset_cost], well-formed or not, [float] or the format [,.2f] raises
    [ValueError] in [extract_asset_cost].  Nothing catches the exception:
    [extract_all_fields] and the validation that follows it raise too,
    whatever the transcript, the master lists and the detections. *)
Theorem secondary_string_raises
    (self : FieldExtractor.t) (validator : Validator.t)
    (ocr_result : FieldExtractor.OcrResult) (ocr_text : string)
    (detection_result : FieldExtractor.DetectionResult)
    (dealer model : option string) (cost : Py.PyVal) (s : string) :
  let bad_hp :=
    FieldExtractor.mkVlmResult dealer model (Py.VStr "45 HP") cost in
  let bad_cost :=
    FieldExtractor.mkVlmResult dealer model Py.VNone (Py.VStr s) in
  FieldExtractor.extract_horse_power self ocr_text bad_hp
    = Py.Raise Py.ValueError /\
  FieldExtractor.extract_asset_cost self ocr_text bad_cost
    = Py.Raise Py.ValueError /\
  FieldExtractor.extract_all_fields self ocr_result bad_hp detection_result
    = Py.Raise Py.ValueError /\
  Pipeline.extract_and_validate self validator ocr_result bad_hp
    detection_result = Py.Raise Py.ValueError.
Proof.
  intros bad_hp bad_cost.
  assert (Hhp : forall text,
             FieldExtractor.extract_horse_power self text bad_hp
             = Py.Raise Py.ValueError) by (intro text; reflexivity).
  assert (Hall : FieldExtractor.extract_all_fields self ocr_result bad_hp
                   detection_result = Py.Raise Py.ValueError).
  { unfold FieldExtractor.extract_all_fields. cbv zeta.
    rewrite Hhp. reflexivity. }
  split; [apply Hhp|]. split; [|split; [exact Hall|]].
  - unfold FieldExtractor.extract_asset_cost, bad_cost. cbn.
    destruct (Text.float_of_string s); reflexivity.
  - unfold Pipeline.extract_and_validate. rewrite Hall. reflexivity.
Qed.

(** ** The validator *)

Section Numbers.

Import Py.

Lemma float_overflow_large : 2000000 < float_overflow.
Proof. vm_compute. reflexivity. Qed.

Lemma int_str_limit_large : float_overflow < FieldExtractor.int_str_limit.
Proof. vm_compute. reflexivity. Qed.

(** An [int] of at most 4300 digits is formatted. *)
Lemma format_int_small (n : Z) :
  Z.abs n < FieldExtractor.int_str_limit ->
  FieldExtractor.format_int n = Ok (FInt n).
Proof.
  intro H. unfold FieldExtractor.format_int.
  apply Z.ltb_lt in H. rewrite H. reflexivity.
Qed.


(** [float] on a number: the number itself, or [OverflowError] on an
    [int] beyond the doubles. *)
Lemma py_float_cases (v : PyVal) (q : Q) :
  number_of v = Some q ->
  py_float v = Ok q \/
  (py_float v = Raise OverflowError /\
   ((q <= - inject_Z float_overflow)%Q \/ (inject_Z float_overflow <= q)%Q)).
Proof.
  destruct v; cbn [number_of py_float]; intro H; try discriminate;
    injection H as <-; try (left; reflexivity).
  destruct (Z.abs z <? float_overflow) eqn:E; [left; reflexivity|].
  right. split; [reflexivity|]. apply Z.ltb_ge in E.
  unfold Qle. cbn [Qnum Qden inject_Z Qopp]. lia.
Qed.

Lemma py_float_number (v : PyVal) (q : Q) :
  number_of v = Some q ->
  (- inject_Z float_overflow < q)%Q -> (q < inject_Z float_overflow)%Q ->
  py_float v = Ok q.
Proof.
  intros H Hlo Hhi.
  destruct (py_float_cases v q H) as [E|[_ [Hb|Hb]]]; [exact E| |].
  - exfalso. exact (Qlt_not_le _ _ Hlo Hb).
  - exfalso. exact (Qlt_not_le _ _ Hhi Hb).
Qed.

(** A range test on [float(v)] under a bare [except], for a number and
    bounds within the doubles: the test on the number itself. *)
Lemma range_test_number (v : PyVal) (q : Q) (lo hi : Z) :
  number_of v = Some q ->
  - float_overflow < lo -> hi < float_overflow ->
  try_except
    (bind (py_float v)
       (fun x => Ok (Qleb (inject_Z lo) x && Qleb x (inject_Z hi))))
    false
  = Qleb (inject_Z lo) q && Qleb q (inject_Z hi).
Proof.
  intros H Hlo Hhi.
  destruct (py_float_cases v q H) as [->|[-> [Hb|Hb]]];
    cbn [bind try_except]; [reflexivity| |]; symmetry.
  - apply andb_false_iff. left. apply Qleb_gt.
    apply Qle_lt_trans with (- inject_Z float_overflow)%Q; [exact Hb|].
    unfold Qlt. cbn [Qnum Qden inject_Z Qopp]. lia.
  - apply andb_false_iff. right. apply Qleb_gt.
    apply Qlt_le_trans with (inject_Z float_overflow); [|exact Hb].
    unfold Qlt. cbn [Qnum Qden inject_Z]. lia.
Qed.

Lemma Qtrunc_inject_Z (z : Z) : Qtrunc (inject_Z z) = z.
Proof. unfold Qtrunc. simpl. apply Z.quot_1_r. Qed.

Lemma py_int_number (v : PyVal) (q : Q) :
  number_of v = Some q -> py_int v = Ok (Qtrunc q).
Proof.
  destruct v; simpl; intro H; try discriminate; injection H as <-.
  - destruct b; reflexivity.
  - rewrite Qtrunc_inject_Z. reflexivity.
  - reflexivity.
Qed.

Lemma is_number_spec (v : PyVal) :
  is_number v = match number_of v with Some _ => true | None => false end.
Proof. destruct v; reflexivity. Qed.

(** A number that is false as a condition is zero. *)
Lemma falsy_number_zero (v : PyVal) (q : Q) :
  number_of v = Some q -> truthy v = false -> (q == 0)%Q.
Proof.
  destruct v; simpl; intros H Ht; try discriminate; injection H as <-.
  - rewrite Ht. reflexivity.
  - apply negb_false_iff, Z.eqb_eq in Ht. rewrite Ht. reflexivity.
  - apply negb_false_iff in Ht. apply Qeq_bool_iff. exact Ht.
Qed.

(** Truncation keeps a non-negative number within integer bounds. *)
Lemma Qtrunc_nonneg_floor (q : Q) : (0 <= q)%Q -> Qtrunc q = Qfloor q.
Proof.
  destruct q as [n d]. unfold Qle, Qtrunc, Qfloor. simpl. intro H.
  apply Z.quot_div_nonneg; lia.
Qed.

Lemma Qtrunc_between (q : Q) (lo hi : Z) :
  0 <= lo -> (inject_Z lo <= q)%Q -> (q <= inject_Z hi)%Q ->
  lo <= Qtrunc q <= hi.
Proof.
  intros H0 Hlo Hhi.
  assert (Hq : (0 <= q)%Q).
  { apply Qle_trans with (inject_Z lo); [|exact Hlo].
    unfold Qle. simpl. lia. }
  rewrite (Qtrunc_nonneg_floor q Hq). split.
  - rewrite <- (Qfloor_Z lo). apply Qfloor_resp_le. exact Hlo.
  - rewrite <- (Qfloor_Z hi). apply Qfloor_resp_le. exact Hhi.
Qed.

(** Truncation keeps a number within symmetric integer bounds. *)
Lemma Qtrunc_abs_lt (q : Q) (b : Z) :
  (- inject_Z b < q)%Q -> (q < inject_Z b)%Q -> Z.abs (Qtrunc q) < b.
Proof.
  destruct q as [n d]. unfold Qlt, Qtrunc. cbn [Qnum Qden inject_Z Qopp].
  intros Hlo Hhi.
  assert (Hd : Z.abs (Z.pos d) = Z.pos d) by reflexivity.
  rewrite <- Z.quot_abs by discriminate. rewrite Hd.
  apply Z.quot_lt_upper_bound; [apply Z.abs_nonneg | reflexivity | lia].
Qed.

(** A number within the doubles has fewer digits than the limit. *)
Lemma double_is_short (v : PyVal) :
  Props.double_or_none v -> Props.short_number_or_none v.
Proof.
  intros [E|(q & Hq & Hlo & Hhi)]; [left; exact E|].
  right. exists q. split; [exact Hq|].
  pose proof (Qtrunc_abs_lt q float_overflow Hlo Hhi).
  pose proof int_str_limit_large. lia.
Qed.

End Numbers.

Section ValidatorLemmas.

Import Py Validator Props.

Variable self : Validator.t.

(** When [validate] returns, each group of entries of its result is what
    the block of that field computed. *)
Lemma validate_entries (fields : RawFields) (out : Validated) :
  validate self fields = Ok out ->
  validate_name self (raw_dealer_name fields)
    = Ok (dealer_name out, dealer_name_confidence out,
          dealer_name_explanation out) /\
  validate_name self (raw_model_name fields)
    = Ok (model_name out, model_name_confidence out,
          model_name_explanation out) /\
  validate_hp self (raw_horse_power fields)
    = Ok (horse_power out, horse_power_confidence out,
          horse_power_explanation out) /\
  validate_cost self (raw_asset_cost fields)
    = Ok (asset_cost out, asset_cost_confidence out,
          asset_cost_explanation out) /\
  dealer_signature out = validate_detection (raw_dealer_signature fields) /\
  dealer_stamp out = validate_detection (raw_dealer_stamp fields).
Proof.
  unfold validate.
  destruct (validate_name self (raw_dealer_name fields))
    as [[[dv dc] de]|]; [|discriminate].
  destruct (validate_name self (raw_model_name fields))
    as [[[mv mc] me]|]; [|discriminate].
  destruct (validate_hp self (raw_horse_power fields))
    as [[[hv hc] he]|]; [|discriminate].
  destruct (validate_cost self (raw_asset_cost fields))
    as [[[cv cc] ce]|]; [|discriminate].
  cbn [bind]. intro H. injection H as <-. cbn. repeat split.
Qed.

Lemma hp_range_number (v : PyVal) (q : Q) :
  number_of v = Some q ->
  _validate_hp_range v = Qleb 15 q && Qleb q 200.
Proof.
  intro H. unfold _validate_hp_range.
  pose proof float_overflow_large as Hbig.
  apply (range_test_number v q 15 200 H); lia.
Qed.

(** The condition [hp_value and self._validate_hp_range(hp_value)] on a
    number: zero is false as a condition and is out of range as well. *)
Lemma hp_gate_number (v : PyVal) (q : Q) :
  number_of v = Some q ->
  truthy v && _validate_hp_range v = Qleb 15 q && Qleb q 200.
Proof.
  intro H. rewrite (hp_range_number v q H).
  destruct (truthy v) eqn:Ht; [reflexivity|]. simpl.
  pose proof (falsy_number_zero v q H Ht) as Hz.
  assert (E : Qleb 15 q = false).
  { apply Qleb_gt. rewrite Hz. reflexivity. }
  rewrite E. reflexivity.
Qed.

Lemma hp_gate_other (v : PyVal) :
  number_of v = None -> (forall s, v <> VStr s) ->
  truthy v && _validate_hp_range v = false.
Proof.
  destruct v; simpl; intros H Hs; try discriminate; try reflexivity.
  - exfalso. exact (Hs s eq_refl).
  - apply andb_false_r.
Qed.

Lemma hp_in_band_gate (v : PyVal) (q : Q) :
  number_of v = Some q ->
  (hp_in_band v <-> Qleb 15 q && Qleb q 200 = true).
Proof.
  intro H. unfold hp_in_band. rewrite andb_true_iff, !Qleb_le. split.
  - intros (q' & H' & Hb). rewrite H in H'. injection H' as <-. exact Hb.
  - intro Hb. exists q. split; [exact H | exact Hb].
Qed.

Lemma validate_hp_int (n : Z) (c : option PyVal) (e : option Expl) :
  15 <= n <= 200 ->
  validate_hp self (Some (Structured (mkFieldDict (Some (VInt n)) c e)))
    = Ok (VInt n, get c, e).
Proof.
  intro Hn. unfold validate_hp. cbn [get_default fd_value get].
  rewrite (hp_gate_number (VInt n) (inject_Z n) eq_refl).
  replace (Qleb 15 (inject_Z n) && Qleb (inject_Z n) 200) with true.
  - reflexivity.
  - symmetry. apply andb_true_iff. rewrite !Qleb_le.
    unfold Qle. simpl. lia.
Qed.

End ValidatorLemmas.

Section IntAndFloatOfString.

Import Text.

Lemma digit_part_nonempty (l ds r : list ascii) :
  digit_part l = Some (ds, r) -> nonempty ds = true.
Proof.
  unfold digit_part. destruct l as [|c t]; [discriminate|].
  destruct (is_digit c); [|discriminate].
  destruct (more_digits t) as [ds' r']. intro H. injection H as <- _.
  reflexivity.
Qed.

(** A string that [int] reads is read by [float] as the same number. *)
Lemma int_of_string_float (s : string) (z : Z) :
  int_of_string s = Some z ->
  exists q, float_of_string s = Some q /\ (q == inject_Z z)%Q.
Proof.
  unfold int_of_string, float_of_string.
  destruct (split_sign (trim_chars (chars s))) as [neg body].
  destruct (digit_part body) as [[ds r]|] eqn:E; [|discriminate].
  destruct r as [|c r]; [|discriminate].
  destruct (List.length ds <=? max_str_digits)%nat; [|discriminate].
  intro H. injection H as <-.
  rewrite (digit_part_nonempty body ds [] E). cbn [orb].
  eexists. split; [reflexivity|].
  destruct neg; unfold Qeq; simpl; lia.
Qed.

End IntAndFloatOfString.

Section HorsePowerStrings.

Import Py Validator.

Variable self : Validator.t.

Lemma int_of_string_nonempty (s : string) (n : Z) :
  Text.int_of_string s = Some n -> truthy (VStr s) = true.
Proof. destruct s; [discriminate | reflexivity]. Qed.

Lemma float_of_string_nonempty (s : string) (q : Q) :
  Text.float_of_string s = Some q -> truthy (VStr s) = true.
Proof. destruct s; [discriminate | reflexivity]. Qed.

(** The range test on a string that [int] reads is the test on the
    integer. *)
Lemma hp_gate_int_string (s : string) (n : Z) :
  Text.int_of_string s = Some n ->
  truthy (VStr s) && _validate_hp_range (VStr s)
    = (15 <=? n) && (n <=? 200).
Proof.
  intro H. rewrite (int_of_string_nonempty s n H). cbn [andb].
  destruct (int_of_string_float s n H) as (q & Hq & Heq).
  unfold _validate_hp_range. cbn [py_float]. rewrite Hq.
  cbn [bind try_except].
  assert (Hlo : Qleb 15 q = (15 <=? n)).
  { destruct (15 <=? n) eqn:E.
    - apply Qleb_le. rewrite Heq. apply Z.leb_le in E.
      unfold Qle. cbn [Qnum Qden inject_Z]. lia.
    - apply Qleb_gt. rewrite Heq. apply Z.leb_gt in E.
      unfold Qlt. cbn [Qnum Qden inject_Z]. lia. }
  assert (Hhi : Qleb q 200 = (n <=? 200)).
  { destruct (n <=? 200) eqn:E.
    - apply Qleb_le. rewrite Heq. apply Z.leb_le in E.
      unfold Qle. cbn [Qnum Qden inject_Z]. lia.
    - apply Qleb_gt. rewrite Heq. apply Z.leb_gt in E.
      unfold Qlt. cbn [Qnum Qden inject_Z]. lia. }
  rewrite Hlo, Hhi. reflexivity.
Qed.

Lemma validate_hp_int_string (d : FieldDict) (s : string) (n : Z) :
  get (fd_value d) = VStr s -> Text.int_of_string s = Some n ->
  validate_hp self (Some (Structured d)) =
    if (15 <=? n) && (n <=? 200)
    then Ok (VInt n, get (fd_confidence d), fd_explanation d)
    else Ok (VNone,
             get_default (fd_confidence d) (VFloat 0),
             Some (get_default (fd_explanation d)
                     [FLit "Invalid range or not found"])).
Proof.
  intros Hv Hn. unfold validate_hp. cbn [get_default]. cbv zeta.
  rewrite Hv, (hp_gate_int_string s n Hn).
  cbn [py_int]. rewrite Hn. reflexivity.
Qed.

(** A string that [int] does not read is never kept: the block raises
    when the range test passes, and gives [None] when it fails. *)
Lemma validate_hp_not_int_string (d : FieldDict) (s : string) :
  get (fd_value d) = VStr s -> Text.int_of_string s = None ->
  validate_hp self (Some (Structured d)) =
    if truthy (VStr s) && _validate_hp_range (VStr s)
    then Raise ValueError
    else Ok (VNone,
             get_default (fd_confidence d) (VFloat 0),
             Some (get_default (fd_explanation d)
                     [FLit "Invalid range or not found"])).
Proof.
  intros Hv Hn. unfold validate_hp. cbn [get_default]. cbv zeta.
  rewrite Hv. cbn [py_int]. rewrite Hn. reflexivity.
Qed.

Lemma hp_gate_float_string (s : string) (q : Q) :
  Text.float_of_string s = Some q ->
  truthy (VStr s) && _validate_hp_range (VStr s) = Qleb 15 q && Qleb q 200.
Proof.
  intro H. rewrite (float_of_string_nonempty s q H). cbn [andb].
  unfold _validate_hp_range. cbn [py_float]. rewrite H. reflexivity.
Qed.

Lemma hp_gate_no_float_string (s : string) :
  Text.float_of_string s = None ->
  truthy (VStr s) && _validate_hp_range (VStr s) = false.
Proof.
  intro H. unfold _validate_hp_range. cbn [py_float]. rewrite H.
  apply andb_false_r.
Qed.

End HorsePowerStrings.

(** C6 fails on the code for a horse power given as a string.  For a
    value that is not a string the claim holds: the validator keeps a
    horse power exactly when it is a number within 15..200, as the
    integer it truncates to, with the confidence and explanation it came
    with; otherwise the value becomes [None] and the confidence and
    explanation that were attached are kept.  So a value the text
    extractor accepted (an integer within 20..150) comes out unchanged,
    and so does the value taken from a secondary source holding a number
    within 150..200.  A string that [int] reads is treated like that
    integer, and a string of ASCII characters that [float] does not read
    becomes [None].  But the range test converts with [float] and the
    value is then converted with [int]: a string that [float] reads
    within 15..200 and [int] does not read, such as ["45.5"], is neither
    kept nor set to [None]: the block raises [ValueError], and so does
    [validate]. *)
Theorem validate_horse_power_band (self : Validator.t) :
  (forall d,
     (forall s, get (Validator.fd_value d) <> Py.VStr s) ->
     (Props.hp_in_band (get (Validator.fd_value d)) ->
      exists q,
        Py.number_of (get (Validator.fd_value d)) = Some q /\
        Validator.validate_hp self (Some (Validator.Structured d)) =
          Py.Ok (Py.VInt (Py.Qtrunc q),
                 get (Validator.fd_confidence d),
                 Validator.fd_explanation d)) /\
     (~ Props.hp_in_band (get (Validator.fd_value d)) ->
      Validator.validate_hp self (Some (Validator.Structured d)) =
        Py.Ok (Py.VNone,
               get_default (Validator.fd_confidence d) (Py.VFloat 0),
               Some (get_default (Validator.fd_explanation d)
                       [FLit "Invalid range or not found"])))) /\
  (forall d s n,
     get (Validator.fd_value d) = Py.VStr s ->
     Text.int_of_string s = Some n ->
     (15 <= n <= 200 ->
      Validator.validate_hp self (Some (Validator.Structured d)) =
        Py.Ok (Py.VInt n, get (Validator.fd_confidence d),
               Validator.fd_explanation d)) /\
     (~ 15 <= n <= 200 ->
      Validator.validate_hp self (Some (Validator.Structured d)) =
        Py.Ok (Py.VNone,
               get_default (Validator.fd_confidence d) (Py.VFloat 0),
               Some (get_default (Validator.fd_explanation d)
                       [FLit "Invalid range or not found"])))) /\
  (forall d s,
     get (Validator.fd_value d) = Py.VStr s ->
     Text.int_of_string s = None ->
     (forall q, Text.float_of_string s = Some q ->
                (15 <= q /\ q <= 200)%Q ->
                Validator.validate_hp self (Some (Validator.Structured d))
                  = Py.Raise Py.ValueError) /\
     (Props.ascii_only s -> Text.float_of_string s = None ->
      Validator.validate_hp self (Some (Validator.Structured d)) =
        Py.Ok (Py.VNone,
               get_default (Validator.fd_confidence d) (Py.VFloat 0),
               Some (get_default (Validator.fd_explanation d)
                       [FLit "Invalid range or not found"]))) /\
     (Props.ascii_only s ->
      forall r,
        Validator.validate_hp self (Some (Validator.Structured d))
          = Py.Ok r ->
        r = (Py.VNone,
             get_default (Validator.fd_confidence d) (Py.VFloat 0),
             Some (get_default (Validator.fd_explanation d)
                     [FLit "Invalid range or not found"])))) /\
  (forall c e cost signature stamp,
     Validator.validate_hp self
       (Some (Validator.Structured
                (Validator.mkFieldDict (Some (Py.VStr "45.5")) c e)))
       = Py.Raise Py.ValueError /\
     Validator.validate self
       (Validator.mkRawFields None None
          (Some (Validator.Structured
                   (Validator.mkFieldDict (Some (Py.VStr "45.5")) c e)))
          cost signature stamp)
       = Py.Raise Py.ValueError) /\
  (forall n p,
     20 <= n <= 150 ->
     Validator.validate_hp self
       (Some (Pipeline.as_dict (FieldExtractor.hp_from_text n p))) =
       Py.Ok (Py.VInt n, Py.VFloat 0.85,
              Some (explanation (FieldExtractor.hp_from_text n p)))) /\
  (forall extractor ocr_text vlm_result q,
     Py.number_of (FieldExtractor.vlm_horse_power vlm_result) = Some q ->
     (150 <= q /\ q <= 200)%Q ->
     exists r,
       FieldExtractor.extract_horse_power extractor ocr_text vlm_result
         = Py.Ok r /\
       value r = Py.VInt (Py.Qtrunc q) /\
       150 <= Py.Qtrunc q <= 200 /\
       Validator.validate_hp self (Some (Pipeline.as_dict r)) =
         Py.Ok (value r, Py.VFloat 0.9, Some (explanation r))) /\
  (forall fields out,
     Validator.validate self fields = Py.Ok out ->
     Validator.validate_hp self (Validator.raw_horse_power fields) =
       Py.Ok (Validator.horse_power out,
              Validator.horse_power_confidence out,
              Validator.horse_power_explanation out)).
Proof.
  split; [|split; [|split; [|split; [|split; [|split]]]]].
  - intros d Hstr. unfold Validator.validate_hp.
    cbn [get_default]. cbv zeta.
    destruct (Py.number_of (get (Validator.fd_value d))) as [q|] eqn:Hq.
    + rewrite (hp_gate_number _ q Hq).
      pose proof (hp_in_band_gate _ q Hq) as Hband.
      rewrite (py_int_number _ q Hq). split.
      * intro Hin. exists q. split; [reflexivity|].
        apply Hband in Hin. rewrite Hin. reflexivity.
      * intro Hout.
        destruct (Py.Qleb 15 q && Py.Qleb q 200); [|reflexivity].
        exfalso. apply Hout, Hband. reflexivity.
    + rewrite (hp_gate_other _ Hq Hstr). split.
      * intros (q & Hq' & _). congruence.
      * reflexivity.
  - intros d s n Hv Hn. rewrite (validate_hp_int_string self d s n Hv Hn).
    split; intro Hb.
    + replace ((15 <=? n) && (n <=? 200)) with true; [reflexivity|].
      symmetry. apply andb_true_iff. rewrite !Z.leb_le. exact Hb.
    + destruct ((15 <=? n) && (n <=? 200)) eqn:E; [|reflexivity].
      exfalso. apply Hb. apply andb_true_iff in E.
      rewrite !Z.leb_le in E. exact E.
  - intros d s Hv Hn. rewrite (validate_hp_not_int_string self d s Hv Hn).
    split; [|split].
    + intros q Hq [Hlo Hhi]. rewrite (hp_gate_float_string s q Hq).
      replace (Py.Qleb 15 q && Py.Qleb q 200) with true; [reflexivity|].
      symmetry. apply andb_true_iff. rewrite !Qleb_le. split; assumption.
    + intros _ Hf. rewrite (hp_gate_no_float_string s Hf). reflexivity.
    + intros _ r.
      destruct (Py.truthy (Py.VStr s)
                && Validator._validate_hp_range (Py.VStr s));
        [discriminate|].
      intro H. injection H as <-. reflexivity.
  - intros c e cost signature stamp.
    assert (E : Validator.validate_hp self
                  (Some (Validator.Structured
                           (Validator.mkFieldDict (Some (Py.VStr "45.5"))
                              c e)))
                = Py.Raise Py.ValueError) by reflexivity.
    split; [exact E|].
    unfold Validator.validate.
    cbn [Validator.raw_dealer_name Validator.raw_model_name
         Validator.raw_horse_power].
    rewrite E.
    assert (En : exists x, Validator.validate_name self None = Py.Ok x).
    { unfold Validator.validate_name. cbn.
      destruct (Py.Qleb (Validator.min_confidence self) (inject_Z 0));
        eexists; reflexivity. }
    destruct En as (x & ->). reflexivity.
  - intros n p Hn. unfold Pipeline.as_dict, FieldExtractor.hp_from_text.
    cbn [value confidence explanation].
    apply validate_hp_int. lia.
  - intros extractor ocr_text vlm_result q Hq [Hlo Hhi].
    unfold FieldExtractor.extract_horse_power.
    assert (Hnone : FieldExtractor.is_none
                      (FieldExtractor.vlm_horse_power vlm_result) = false).
    { destruct (FieldExtractor.vlm_horse_power vlm_result);
        try reflexivity; discriminate. }
    rewrite Hnone, (py_int_number _ q Hq). cbn [negb Py.bind].
    assert (Hb : 150 <= Py.Qtrunc q <= 200).
    { apply Qtrunc_between; [lia | exact Hlo | exact Hhi]. }
    pose proof float_overflow_large as Hbig.
    pose proof int_str_limit_large as Hlim.
    rewrite (format_int_small (Py.Qtrunc q)) by lia. cbn [Py.bind].
    eexists. split; [reflexivity|]. split; [reflexivity|]. split; [exact Hb|].
    unfold Pipeline.as_dict. cbn [value confidence explanation].
    apply validate_hp_int. lia.
  - intros fields out H.
    apply (validate_entries self fields out H).
Qed.

Section BoundingBox.

Import Py Validator Props.

Lemma py_ge_zero (v : PyVal) (q : Q) :
  number_of v = Some q -> py_ge v (VInt 0) = Ok (Qleb 0 q).
Proof. intro H. unfold py_ge. rewrite H. reflexivity. Qed.

Lemma py_gt_zero (v : PyVal) (q : Q) :
  number_of v = Some q -> py_gt v (VInt 0) = Ok (Qltb 0 q).
Proof. intro H. unfold py_gt. rewrite H. reflexivity. Qed.

(** The box of four numbers, by its four comparisons. *)
Lemma validate_bbox_numbers (x y w h : PyVal) (qx qy qw qh : Q) :
  number_of x = Some qx -> number_of y = Some qy ->
  number_of w = Some qw -> number_of h = Some qh ->
  _validate_bbox (VList [x; y; w; h]) =
    if Qleb 0 qx && Qleb 0 qy && Qltb 0 qw && Qltb 0 qh
    then VList [VInt (Qtrunc qx); VInt (Qtrunc qy);
                VInt (Qtrunc qw); VInt (Qtrunc qh)]
    else VNone.
Proof.
  intros Hx Hy Hw Hh. unfold _validate_bbox. cbn [forallb].
  rewrite !is_number_spec, Hx, Hy, Hw, Hh. cbn [andb].
  rewrite (py_ge_zero x qx Hx), (py_ge_zero y qy Hy),
          (py_gt_zero w qw Hw), (py_gt_zero h qh Hh),
          (py_int_number x qx Hx), (py_int_number y qy Hy),
          (py_int_number w qw Hw), (py_int_number h qh Hh).
  destruct (Qleb 0 qx); [|reflexivity].
  destruct (Qleb 0 qy); [|reflexivity].
  destruct (Qltb 0 qw); [|reflexivity].
  destruct (Qltb 0 qh); reflexivity.
Qed.

(** A list of four objects one of which is not a number. *)
Lemma validate_bbox_not_numbers (x y w h : PyVal) :
  forallb is_number [x; y; w; h] = false ->
  _validate_bbox (VList [x; y; w; h]) = VNone.
Proof. intro H. unfold _validate_bbox. rewrite H. reflexivity. Qed.

Lemma validate_bbox_valid (bbox : PyVal) (ints : list Z) :
  valid_box bbox ints -> _validate_bbox bbox = VList (map VInt ints).
Proof.
  intros (x & y & w & h & qx & qy & qw & qh & -> & Hx & Hy & Hw & Hh
          & Bx & By & Bw & Bh & ->).
  rewrite (validate_bbox_numbers x y w h qx qy qw qh Hx Hy Hw Hh).
  apply Qleb_le in Bx, By. apply Qltb_lt in Bw, Bh.
  rewrite Bx, By, Bw, Bh. reflexivity.
Qed.

Lemma validate_bbox_invalid (bbox : PyVal) :
  (forall ints, ~ valid_box bbox ints) -> _validate_bbox bbox = VNone.
Proof.
  intro Hno.
  destruct bbox as [| | | | |l]; try reflexivity.
  destruct l as [|x [|y [|w [|h [|extra rest]]]]]; try reflexivity.
  destruct (forallb is_number [x; y; w; h]) eqn:Hnum.
  - cbn [forallb] in Hnum. rewrite !is_number_spec in Hnum.
    destruct (number_of x) as [qx|] eqn:Hx; [|discriminate].
    destruct (number_of y) as [qy|] eqn:Hy; [|discriminate].
    destruct (number_of w) as [qw|] eqn:Hw; [|discriminate].
    destruct (number_of h) as [qh|] eqn:Hh; [|discriminate].
    rewrite (validate_bbox_numbers x y w h qx qy qw qh Hx Hy Hw Hh).
    destruct (Qleb 0 qx && Qleb 0 qy && Qltb 0 qw && Qltb 0 qh) eqn:Hc;
      [|reflexivity].
    exfalso. apply andb_true_iff in Hc. destruct Hc as [Hc Bh].
    apply andb_true_iff in Hc. destruct Hc as [Hc Bw].
    apply andb_true_iff in Hc. destruct Hc as [Bx By].
    apply Qleb_le in Bx, By. apply Qltb_lt in Bw, Bh.
    apply (Hno [Qtrunc qx; Qtrunc qy; Qtrunc qw; Qtrunc qh]).
    exists x, y, w, h, qx, qy, qw, qh. repeat split; assumption.
  - apply validate_bbox_not_numbers. exact Hnum.
Qed.

(** Whether an object is a box the validator keeps can be told. *)
Lemma valid_box_cases (bbox : PyVal) :
  (exists ints, valid_box bbox ints) \/ (forall ints, ~ valid_box bbox ints).
Proof.
  destruct (_validate_bbox bbox) eqn:E.
  1:{ right. intros ints Hv. rewrite (validate_bbox_valid bbox ints Hv) in E.
      discriminate. }
  all: left.
  all: destruct bbox as [| | | | |l0]; try discriminate.
  all: destruct l0 as [|x [|y [|w [|h [|extra rest]]]]]; try discriminate.
  all: destruct (forallb is_number [x; y; w; h]) eqn:Hnum;
    [|rewrite (validate_bbox_not_numbers x y w h Hnum) in E; discriminate].
  all: cbn [forallb] in Hnum; rewrite !is_number_spec in Hnum.
  all: destruct (number_of x) as [qx|] eqn:Hx; [|discriminate].
  all: destruct (number_of y) as [qy|] eqn:Hy; [|discriminate].
  all: destruct (number_of w) as [qw|] eqn:Hw; [|discriminate].
  all: destruct (number_of h) as [qh|] eqn:Hh; [|discriminate].
  all: rewrite (validate_bbox_numbers x y w h qx qy qw qh Hx Hy Hw Hh) in E.
  all: destruct (Qleb 0 qx && Qleb 0 qy && Qltb 0 qw && Qltb 0 qh) eqn:Hc;
    [|discriminate].
  all: apply andb_true_iff in Hc; destruct Hc as [Hc Bh].
  all: apply andb_true_iff in Hc; destruct Hc as [Hc Bw].
  all: apply andb_true_iff in Hc; destruct Hc as [Bx By].
  all: apply Qleb_le in Bx, By; apply Qltb_lt in Bw, Bh.
  all: exists [Qtrunc qx; Qtrunc qy; Qtrunc qw; Qtrunc qh].
  all: exists x, y, w, h, qx, qy, qw, qh; repeat split; assumption.
Qed.

End BoundingBox.

(** C7. [_validate_bbox] returns the box truncated to integers exactly
    when its argument is a list of four numbers [x, y, w, h] with
    [x >= 0], [y >= 0], [w > 0], [h > 0], and [None] for every other
    argument.  The [present] flag plays no part: the box [[10, 10, 0, 5]]
    becomes [None] under every flag, and with [present = True] the
    validated payload is [present = True, bbox = None]. *)
Theorem validate_bbox_exact (bbox : Py.PyVal) :
  (forall ints,
     Props.valid_box bbox ints ->
     Validator._validate_bbox bbox = Py.VList (map Py.VInt ints)) /\
  ((forall ints, ~ Props.valid_box bbox ints) ->
   Validator._validate_bbox bbox = Py.VNone) /\
  (Validator._validate_bbox bbox <> Py.VNone <->
   exists ints, Props.valid_box bbox ints) /\
  (forall flag conf,
     let zero_width :=
       Py.VList [Py.VInt 10; Py.VInt 10; Py.VInt 0; Py.VInt 5] in
     Validator.validate_detection
       (Some {| present := flag; bbox := Some zero_width;
                det_confidence := conf |}) =
       {| Validator.dp_present := get_default flag (Py.VBool false);
          Validator.dp_bbox := Py.VNone;
          Validator.dp_confidence := get_default conf (Py.VFloat 0) |}).
Proof.
  split; [|split; [|split]].
  - apply validate_bbox_valid.
  - apply validate_bbox_invalid.
  - split.
    + intro Hne. destruct (valid_box_cases bbox) as [Hyes|Hno].
      * exact Hyes.
      * exfalso. apply Hne. apply validate_bbox_invalid. exact Hno.
    + intros (ints & Hv). rewrite (validate_bbox_valid bbox ints Hv).
      discriminate.
  - intros flag conf zero_width. reflexivity.
Qed.

(** C8 (as amended).  The validator copies the [present] flag (false when
    absent) and normalises the box without looking at the flag.  It
    therefore keeps the invariant when the payload it receives has it: a
    payload with no box (absent or [None]) and a false or absent flag
    comes out as [present = False, bbox = None]. *)
Theorem validate_detection_keeps_invariant
    (self : Validator.t) (field : option DetDict) :
  let d := get_default field Validator.empty_detection in
  Validator.dp_present (Validator.validate_detection field)
    = get_default (present d) (Py.VBool false) /\
  Validator.dp_bbox (Validator.validate_detection field)
    = Validator._validate_bbox (get (bbox d)) /\
  (get (bbox d) = Py.VNone ->
   Validator.dp_bbox (Validator.validate_detection field) = Py.VNone) /\
  (get (bbox d) = Py.VNone ->
   get_default (present d) (Py.VBool false) = Py.VBool false ->
   Validator.dp_present (Validator.validate_detection field) = Py.VBool false
   /\ Validator.dp_bbox (Validator.validate_detection field) = Py.VNone) /\
  (forall fields out,
     Validator.validate self fields = Py.Ok out ->
     Validator.dealer_signature out
       = Validator.validate_detection (Validator.raw_dealer_signature fields)
     /\
     Validator.dealer_stamp out
       = Validator.validate_detection (Validator.raw_dealer_stamp fields)).
Proof.
  intro d. unfold Validator.validate_detection. fold d.
  cbn [Validator.dp_present Validator.dp_bbox].
  split; [reflexivity|]. split; [reflexivity|]. split; [|split].
  - intros ->. reflexivity.
  - intros -> ->. split; reflexivity.
  - intros fields out H.
    apply (validate_entries self fields out H).
Qed.

(** C8, the claim as stated, fails: a signature payload with
    [present = False] and the box [[10, 20, 30, 40]] comes out of
    [validate] with [present = False] and that box. *)
Lemma validate_keeps_box_of_absent_signature :
  let payload :=
    {| present := Some (Py.VBool false);
       bbox := Some (Py.VList [Py.VInt 10; Py.VInt 20; Py.VInt 30; Py.VInt 40]);
       det_confidence := Some (Py.VFloat 0.5) |} in
  let fields :=
    Validator.mkRawFields None None None None (Some payload) None in
  exists out,
    Validator.validate Validator.new fields = Py.Ok out /\
    Validator.dp_present (Validator.dealer_signature out) = Py.VBool false /\
    Validator.dp_bbox (Validator.dealer_signature out)
      = Py.VList [Py.VInt 10; Py.VInt 20; Py.VInt 30; Py.VInt 40] /\
    Validator.dp_bbox (Validator.dealer_signature out) <> Py.VNone.
Proof.
  cbv zeta. eexists. split; [vm_compute; reflexivity|].
  split; [reflexivity|]. split; [reflexivity|]. discriminate.
Qed.

Section ConfidenceGate.

Import Py Validator.

Lemma validate_name_gate (self : Validator.t) (d : FieldDict) (q : Q) :
  number_of (get_default (fd_confidence d) (VInt 0)) = Some q ->
  validate_name self (Some (Structured d)) =
    if Qleb (min_confidence self) q
    then Ok (get (fd_value d), get (fd_confidence d), fd_explanation d)
    else Ok (VNone,
             get_default (fd_confidence d) (VFloat 0),
             Some (get_default (fd_explanation d) [FLit "Low confidence"])).
Proof.
  intro H. unfold validate_name, py_ge. cbn [get_default].
  rewrite H. cbn [number_of bind]. reflexivity.
Qed.

End ConfidenceGate.

(** C10. The validator is built with the minimum confidence 0.5 by
    default and applies it to the two name fields given as records: below
    0.5 (an absent confidence counts as 0) the value is [None], whatever
    value was there, and the confidence (0.0 when absent) and explanation
    are kept; at 0.5 or more the record passes as it is.  A name that is
    not a record passes with confidence 0.5.  The value kept for
    [horse_power] and [asset_cost] does not depend on the confidence of
    the record: a horse power of 45 and a cost of 450000 pass with a
    confidence of 0.1. *)
Theorem validate_confidence_gate_on_names_only :
  Validator.min_confidence Validator.new = 0.5%Q /\
  (forall d q,
     Py.number_of (get_default (Validator.fd_confidence d) (Py.VInt 0))
       = Some q ->
     (q < 0.5)%Q ->
     Validator.validate_name Validator.new (Some (Validator.Structured d)) =
       Py.Ok (Py.VNone,
              get_default (Validator.fd_confidence d) (Py.VFloat 0),
              Some (get_default (Validator.fd_explanation d)
                      [FLit "Low confidence"]))) /\
  (forall d q,
     Py.number_of (get_default (Validator.fd_confidence d) (Py.VInt 0))
       = Some q ->
     (0.5 <= q)%Q ->
     Validator.validate_name Validator.new (Some (Validator.Structured d)) =
       Py.Ok (get (Validator.fd_value d),
              get (Validator.fd_confidence d),
              Validator.fd_explanation d)) /\
  (forall v,
     Validator.validate_name Validator.new (Some (Validator.Bare v)) =
       Py.Ok (v, Py.VFloat 0.5, Some [FLit "Direct extraction"])) /\
  (forall fields out,
     Validator.validate Validator.new fields = Py.Ok out ->
     Validator.validate_name Validator.new (Validator.raw_dealer_name fields)
       = Py.Ok (Validator.dealer_name out,
                Validator.dealer_name_confidence out,
                Validator.dealer_name_explanation out) /\
     Validator.validate_name Validator.new (Validator.raw_model_name fields)
       = Py.Ok (Validator.model_name out,
                Validator.model_name_confidence out,
                Validator.model_name_explanation out)) /\
  (forall self v c c' e e',
     Py.bind (Validator.validate_hp self
                (Some (Validator.Structured (Validator.mkFieldDict v c e))))
             (fun r => Py.Ok (fst (fst r))) =
     Py.bind (Validator.validate_hp self
                (Some (Validator.Structured (Validator.mkFieldDict v c' e'))))
             (fun r => Py.Ok (fst (fst r)))) /\
  (forall self v c c' e e',
     Py.bind (Validator.validate_cost self
                (Some (Validator.Structured (Validator.mkFieldDict v c e))))
             (fun r => Py.Ok (fst (fst r))) =
     Py.bind (Validator.validate_cost self
                (Some (Validator.Structured (Validator.mkFieldDict v c' e'))))
             (fun r => Py.Ok (fst (fst r)))) /\
  (forall e,
     Validator.validate_hp Validator.new
       (Some (Validator.Structured
                (Validator.mkFieldDict (Some (Py.VInt 45))
                   (Some (Py.VFloat 0.1)) e)))
       = Py.Ok (Py.VInt 45, Py.VFloat 0.1, e) /\
     Validator.validate_cost Validator.new
       (Some (Validator.Structured
                (Validator.mkFieldDict (Some (Py.VInt 450000))
                   (Some (Py.VFloat 0.1)) e)))
       = Py.Ok (Py.VFloat 450000, Py.VFloat 0.1, e)).
Proof.
  split; [reflexivity|].
  split; [|split; [|split; [|split; [|split; [|split]]]]].
  - intros d q Hq Hlow. rewrite (validate_name_gate _ d q Hq).
    replace (Py.Qleb (Validator.min_confidence Validator.new) q) with false;
      [reflexivity|].
    symmetry. apply Qleb_gt. exact Hlow.
  - intros d q Hq Hhigh. rewrite (validate_name_gate _ d q Hq).
    replace (Py.Qleb (Validator.min_confidence Validator.new) q) with true;
      [reflexivity|].
    symmetry. apply Qleb_le. exact Hhigh.
  - intro v. reflexivity.
  - intros fields out H.
    destruct (validate_entries Validator.new fields out H) as (Hd & Hm & _).
    split; assumption.
  - intros self v c c' e e'. unfold Validator.validate_hp.
    cbn [get_default Validator.fd_value Validator.fd_confidence
         Validator.fd_explanation].
    cbv zeta.
    destruct (Py.truthy (get v) && Validator._validate_hp_range (get v));
      [|reflexivity].
    destruct (Py.py_int (get v)); reflexivity.
  - intros self v c c' e e'. unfold Validator.validate_cost.
    cbn [get_default Validator.fd_value Validator.fd_confidence
         Validator.fd_explanation].
    cbv zeta.
    destruct (Py.truthy (get v) && Validator._validate_cost_range (get v));
      [|reflexivity].
    destruct (Py.py_float (get v)); reflexivity.
  - intro e. split; vm_compute; reflexivity.
Qed.

(** ** The engine on the inputs of its interface *)

Section RegexSoundness.

Import Text Re.

Variable ic : bool.
Variable R : Type.

(** What the matcher finds is a match: the input splits into the word
    matched and the rest handed to the continuation. *)
Lemma rmatch_sound (r : regex) :
  forall (s : list ascii) (cap : capture)
         (k : list ascii -> capture -> option R) (x : R),
    rmatch ic R r s cap k = Some x ->
    exists w s' cap',
      s = w ++ s' /\ Matches ic r w cap cap' /\ k s' cap' = Some x.
Proof.
  induction r as [|a|cs|r1 IH1 r2 IH2|r1 IH1 r2 IH2|r1 IH1|r1 IH1|r1 IH1];
    intros s cap k x H; cbn [rmatch] in H.
  - exists [], s, cap. split; [reflexivity|]. split; [constructor | exact H].
  - destruct s as [|c t]; [discriminate|].
    destruct (lit_matches ic a c) eqn:E; [|discriminate].
    exists [c], t, cap. split; [reflexivity|].
    split; [constructor; exact E | exact H].
  - destruct s as [|c t]; [discriminate|].
    destruct (in_charset cs c) eqn:E; [|discriminate].
    exists [c], t, cap. split; [reflexivity|].
    split; [constructor; exact E | exact H].
  - apply IH1 in H. destruct H as (w1 & s1 & c1 & -> & M1 & H).
    apply IH2 in H. destruct H as (w2 & s2 & c2 & -> & M2 & H).
    exists (w1 ++ w2), s2, c2. split; [apply app_assoc|].
    split; [econstructor; eassumption | exact H].
  - destruct (rmatch ic R r1 s cap k) as [a|] eqn:E.
    + injection H as ->. apply IH1 in E.
      destruct E as (w & s' & c' & -> & M & E).
      exists w, s', c'. split; [reflexivity|].
      split; [apply MAltL; exact M | exact E].
    + apply IH2 in H. destruct H as (w & s' & c' & -> & M & H).
      exists w, s', c'. split; [reflexivity|].
      split; [apply MAltR; exact M | exact H].
  - destruct (rmatch ic R r1 s cap k) as [a|] eqn:E.
    + injection H as ->. apply IH1 in E.
      destruct E as (w & s' & c' & -> & M & E).
      exists w, s', c'. split; [reflexivity|].
      split; [apply MOptSome; exact M | exact E].
    + exists [], s, cap. split; [reflexivity|].
      split; [apply MOptNone | exact H].
  - revert H. generalize (List.length s) at 1. intro fuel.
    revert s cap. induction fuel as [|fuel IHf]; intros s cap H.
    + exists [], s, cap. split; [reflexivity|].
      split; [apply MStarNil | exact H].
    + match type of H with
      | match ?m with _ => _ end = _ => destruct m as [a|] eqn:E
      end.
      * injection H as ->. apply IH1 in E.
        destruct E as (w1 & s1 & c1 & -> & M1 & E).
        destruct (List.length s1 <? List.length (w1 ++ s1))%nat;
          [|discriminate].
        apply IHf in E. destruct E as (w2 & s2 & c2 & -> & M2 & E).
        exists (w1 ++ w2), s2, c2. split; [apply app_assoc|].
        split; [econstructor; eassumption | exact E].
      * exists [], s, cap. split; [reflexivity|].
        split; [apply MStarNil | exact H].
  - apply IH1 in H. destruct H as (w & s' & c' & -> & M & H).
    exists w, s', (Some w). split; [reflexivity|].
    split; [apply MGroup with c'; exact M|].
    rewrite length_app, Nat.add_sub, firstn_app, firstn_all, Nat.sub_diag in H.
    cbn [firstn] in H. rewrite app_nil_r in H. exact H.
Qed.

End RegexSoundness.

Section Captures.

Import Text Re.

Variable ic : bool.
Variable P : list ascii -> Prop.

(** A match keeps a good capture good, and leaves a good capture when it
    goes through the group. *)
Lemma matches_capture (r : regex) (w : list ascii) (c c' : capture) :
  Matches ic r w c c' -> groups_hold ic P r ->
  (captured P c -> captured P c') /\
  (sets_group r = true -> captured P c').
Proof.
  induction 1 as [c|a x c Ha|cs x c Hx|r1 r2 w1 w2 c c1 c2 M1 IH1 M2 IH2
                  |r1 r2 w c c' M IH|r1 r2 w c c' M IH|r w c c' M IH|r c|r c
                  |r w1 w2 c c1 c2 M1 IH1 M2 IH2|r w c c' M IH];
    cbn [groups_hold sets_group]; intro G;
    try (split; [tauto | discriminate]).
  - destruct G as [G1 G2]. destruct (IH1 G1) as [K1 S1].
    destruct (IH2 G2) as [K2 S2]. split; [tauto|].
    intro Hs. apply orb_true_iff in Hs. destruct Hs as [Hs|Hs]; auto.
  - destruct G as [G1 _]. destruct (IH G1) as [K S]. split; [exact K|].
    intro Hs. apply andb_true_iff in Hs. tauto.
  - destruct G as [_ G2]. destruct (IH G2) as [K S]. split; [exact K|].
    intro Hs. apply andb_true_iff in Hs. tauto.
  - assert (Hc : captured P (Some w)).
    { exists w. split; [reflexivity | exact (G w c c' M)]. }
    split; intro; exact Hc.
Qed.

End Captures.

Section Digits.

Import Text Re.

Variable ic : bool.

Lemma star_class_words (cs : charset) (r : regex) (w : list ascii)
    (c c' : capture) :
  Matches ic r w c c' -> r = Star (Class cs) ->
  forallb (in_charset cs) w = true.
Proof.
  induction 1 as [| | | | | | | | |r0 w1 w2 c c1 c2 M1 _ M2 IH2|];
    intro E; try discriminate; [reflexivity|].
  injection E as ->. rewrite forallb_app, (IH2 eq_refl), andb_true_r.
  inversion M1; subst. cbn. rewrite andb_true_r. assumption.
Qed.

(** The group [(\d+)] captures a run of digits, not empty. *)
Lemma digits1_words (w : list ascii) (c c' : capture) :
  Matches ic digits1 w c c' -> digit_run w.
Proof.
  unfold digits1, Plus. intro M. inversion M as [| | |r1 r2 w1 w2 c0 c1 c2 M1 M2| | | | | | |]; subst.
  inversion M1; subst.
  pose proof (star_class_words CDigit _ _ _ _ M2 eq_refl) as Hw2.
  split; [discriminate|]. cbn [app forallb in_charset] in *.
  match goal with H : is_digit _ = true |- _ => rewrite H end. exact Hw2.
Qed.

End Digits.

Section FindAll.

Import Text Re.

Lemma segment_of_app_l (g w1 w2 : list ascii) :
  segment_of g w1 -> segment_of g (w1 ++ w2).
Proof.
  intros (a & b & ->). exists a, (b ++ w2).
  rewrite <- !app_assoc. reflexivity.
Qed.

Lemma segment_of_app_r (g w1 w2 : list ascii) :
  segment_of g w2 -> segment_of g (w1 ++ w2).
Proof.
  intros (a & b & ->). exists (w1 ++ a), b.
  rewrite <- !app_assoc. reflexivity.
Qed.

(** The group captured by a match is left as it was or is a segment of
    the word matched. *)
Lemma matches_segment (ic : bool) (r : regex) (w : list ascii)
    (c c' : capture) :
  Matches ic r w c c' ->
  c' = c \/ exists g, c' = Some g /\ segment_of g w.
Proof.
  induction 1 as [c|a x c Ha|cs x c Hx|r1 r2 w1 w2 c c1 c2 M1 IH1 M2 IH2
                  |r1 r2 w c c' M IH|r1 r2 w c c' M IH|r w c c' M IH|r c|r c
                  |r w1 w2 c c1 c2 M1 IH1 M2 IH2|r w c c' M IH];
    try (left; reflexivity); try exact IH.
  - destruct IH2 as [->|(g & -> & Hg)].
    + destruct IH1 as [->|(g & -> & Hg)]; [left; reflexivity|].
      right. exists g. split; [reflexivity | apply segment_of_app_l; exact Hg].
    + right. exists g. split; [reflexivity | apply segment_of_app_r; exact Hg].
  - destruct IH2 as [->|(g & -> & Hg)].
    + destruct IH1 as [->|(g & -> & Hg)]; [left; reflexivity|].
      right. exists g. split; [reflexivity | apply segment_of_app_l; exact Hg].
    + right. exists g. split; [reflexivity | apply segment_of_app_r; exact Hg].
  - right. exists w. split; [reflexivity|]. exists [], [].
    rewrite app_nil_r. reflexivity.
Qed.

(** Every element of [findall] is the group of a match that starts
    somewhere in the input. *)
Lemma findall_from_suffix (ic : bool) (r : regex) (fuel : nat) :
  forall (s : list ascii) (m : string),
    In m (findall_from fuel ic r s) ->
    exists before s0 rest cap,
      s = before ++ s0 /\
      match_here ic r s0 = Some (rest, cap) /\ m = group_text cap.
Proof.
  induction fuel as [|fuel IH]; intros s m H; cbn [findall_from] in H.
  - destruct H.
  - assert (Htail : forall c t, s = c :: t ->
              In m (findall_from fuel ic r t) ->
              exists before s0 rest cap,
                s = before ++ s0 /\
                match_here ic r s0 = Some (rest, cap) /\ m = group_text cap).
    { intros c t -> Ht. destruct (IH t m Ht) as (b & s0 & rest & cap & -> & K).
      exists (c :: b), s0, rest, cap. split; [reflexivity | exact K]. }
    destruct (match_here ic r s) as [[rest cap]|] eqn:E.
    + destruct H as [<-|H].
      * exists [], s, rest, cap. split; [reflexivity|].
        split; [exact E | reflexivity].
      * destruct (List.length rest <? List.length s)%nat.
        -- pose proof E as E'. unfold match_here in E'.
           apply rmatch_sound in E'.
           destruct E' as (w & s' & cap' & -> & _ & E').
           injection E' as <- _.
           destruct (IH s' m H) as (b & s0 & rest' & cap0 & -> & K).
           exists (w ++ b), s0, rest', cap0.
           split; [apply app_assoc | exact K].
        -- destruct s as [|c t]; [destruct H | exact (Htail c t eq_refl H)].
    + destruct s as [|c t]; [destruct H | exact (Htail c t eq_refl H)].
Qed.

(** Every element of [findall] is a segment of the input that the group
    can capture. *)
Lemma findall_segment_holds (ic : bool) (P : list ascii -> Prop) (r : regex)
    (s m : string) :
  sets_group r = true -> groups_hold ic P r ->
  In m (findall ic r s) ->
  exists g, m = text g /\ P g /\ segment_of g (chars s).
Proof.
  intros Hs G H. unfold findall in H.
  apply findall_from_suffix in H.
  destruct H as (before & s0 & rest & cap & Es & E & ->).
  unfold match_here in E. apply rmatch_sound in E.
  destruct E as (w & s' & cap' & -> & M & E). injection E as _ <-.
  destruct (matches_capture ic P r w None cap' M G) as [_ K].
  destruct (K Hs) as (g & -> & Hg). exists g.
  split; [reflexivity|]. split; [exact Hg|].
  destruct (matches_segment ic r w None (Some g) M) as [K'|(g' & Eg & Hseg)];
    [discriminate K'|].
  injection Eg as <-. rewrite Es.
  apply segment_of_app_r, segment_of_app_l. exact Hseg.
Qed.

End FindAll.

Section ShortTexts.

Import Text Re.

(** A text of at most [n] characters has no longer run of digits. *)
Lemma short_text_digit_runs (n : nat) (s : string) :
  (String.length s <= n)%nat -> Props.digit_runs_within n s.
Proof.
  intros Hlen g (a & b & E) _.
  assert (Hs : forall x, List.length (chars x) = String.length x).
  { unfold chars. induction x as [|c x IH]; [reflexivity|].
    cbn. rewrite IH. reflexivity. }
  specialize (Hs s). rewrite E, !length_app in Hs. lia.
Qed.

End ShortTexts.

Section DigitRuns.

Import Text Re.

Lemma digit_code (c : ascii) :
  is_digit c = true -> (48 <= code c <= 57)%N.
Proof.
  unfold is_digit. rewrite andb_true_iff, !N.leb_le. tauto.
Qed.

Lemma digit_run_rev (w : list ascii) : digit_run w -> digit_run (rev w).
Proof.
  intros [Hne Hd]. split.
  - intro E. apply Hne. rewrite <- (rev_involutive w), E. reflexivity.
  - apply forallb_forall. intros x Hx. apply in_rev in Hx.
    exact (proj1 (forallb_forall _ _) Hd x Hx).
Qed.

Lemma digit_not_blank (c : ascii) : is_digit c = true -> is_blank c = false.
Proof.
  intro H. apply digit_code in H. unfold is_blank.
  apply orb_false_iff. split.
  - apply andb_false_iff. right. apply N.leb_gt. lia.
  - apply N.eqb_neq. lia.
Qed.

Lemma drop_blanks_digit_run (w : list ascii) :
  digit_run w -> drop_while is_blank w = w.
Proof.
  intros [Hne Hd]. destruct w as [|c t]; [reflexivity|].
  cbn [forallb] in Hd. apply andb_true_iff in Hd. destruct Hd as [Hc _].
  cbn [drop_while]. rewrite (digit_not_blank c Hc). reflexivity.
Qed.

Lemma trim_chars_digit_run (w : list ascii) :
  digit_run w -> trim_chars w = w.
Proof.
  intro H. unfold trim_chars.
  rewrite (drop_blanks_digit_run w H),
          (drop_blanks_digit_run (rev w) (digit_run_rev w H)).
  apply rev_involutive.
Qed.

Lemma more_digits_all (t : list ascii) :
  forallb is_digit t = true -> more_digits t = (t, []).
Proof.
  induction t as [|c t IH]; intro H; [reflexivity|].
  cbn [forallb] in H. apply andb_true_iff in H. destruct H as [Hc Ht].
  cbn [more_digits]. rewrite Hc, (IH Ht). reflexivity.
Qed.

(** [int] reads a run of digits up to the limit on their number, and
    rejects a longer one. *)
Lemma int_of_string_digit_run (w : list ascii) :
  digit_run w ->
  int_of_string (text w) =
    if (List.length w <=? max_str_digits)%nat
    then Some (digits_value w) else None.
Proof.
  intro H. unfold int_of_string, chars, text.
  rewrite list_ascii_of_string_of_list_ascii, (trim_chars_digit_run w H).
  destruct H as [Hne Hd]. destruct w as [|c t]; [congruence|].
  cbn [forallb] in Hd. apply andb_true_iff in Hd. destruct Hd as [Hc Ht].
  pose proof (digit_code c Hc) as Hcode.
  unfold split_sign.
  replace (code c =? 45)%N with false by (symmetry; apply N.eqb_neq; lia).
  replace (code c =? 43)%N with false by (symmetry; apply N.eqb_neq; lia).
  unfold digit_part. rewrite Hc, (more_digits_all t Ht). reflexivity.
Qed.

End DigitRuns.

Section Totality.

Import Text Py Re FieldExtractor Validator.

Lemma hp_patterns_capture_digits (p : pattern) :
  In p hp_patterns ->
  sets_group (tree p) = true /\ groups_hold true digit_run (tree p).
Proof.
  intros [<-|[<-|[<-|[<-|[<-|[]]]]]]; (split; [reflexivity|]);
    cbn;
    repeat match goal with
           | |- _ /\ _ => split
           | |- True => exact I
           end;
    exact (digits1_words true).
Qed.

(** What a horse-power pattern finds is a run of digits of the text:
    [int] reads it, unless it is longer than the limit, and then [int]
    raises [ValueError]. *)
Lemma hp_matches_int_or_long (p : pattern) (ocr_text m : string) :
  In p hp_patterns -> In m (findall true (tree p) ocr_text) ->
  (exists v, py_int (VStr m) = Ok v) \/
  (py_int (VStr m) = Raise ValueError /\
   ~ Props.digit_runs_within max_str_digits ocr_text).
Proof.
  intros Hp Hm. destruct (hp_patterns_capture_digits p Hp) as [Hs G].
  destruct (findall_segment_holds true digit_run (tree p) ocr_text m Hs G Hm)
    as (g & -> & Hg & Hseg).
  cbn [py_int]. rewrite (int_of_string_digit_run g Hg).
  destruct (List.length g <=? max_str_digits)%nat eqn:E.
  - left. eexists. reflexivity.
  - right. split; [reflexivity|]. intro Hruns.
    apply Nat.leb_gt in E.
    assert (Hlike : forallb Props.digit_like g = true).
    { apply forallb_forall. intros c Hc. unfold Props.digit_like.
      rewrite (proj1 (forallb_forall _ _) (proj2 Hg) c Hc). reflexivity. }
    pose proof (Hruns g Hseg Hlike). lia.
Qed.

(** The scan over the text: no value, an integer within 20..150 that a
    pattern found, or [ValueError] on a run of digits beyond the limit
    of [int]. *)
Lemma hp_scan_cases (ocr_text : string) (patterns : list pattern) :
  (forall p, In p patterns -> In p hp_patterns) ->
  hp_scan patterns ocr_text = Ok no_hp \/
  (exists p n, In p patterns /\ 20 <= n <= 150 /\
               hp_scan patterns ocr_text = Ok (hp_from_text n p)) \/
  (hp_scan patterns ocr_text = Raise ValueError /\
   ~ Props.digit_runs_within max_str_digits ocr_text).
Proof.
  induction patterns as [|p rest IH]; intro Hsub.
  - left. reflexivity.
  - assert (IH' :
      hp_scan rest ocr_text = Ok no_hp \/
      (exists p0 n, In p0 (p :: rest) /\ 20 <= n <= 150 /\
                    hp_scan rest ocr_text = Ok (hp_from_text n p0)) \/
      (hp_scan rest ocr_text = Raise ValueError /\
       ~ Props.digit_runs_within max_str_digits ocr_text)).
    { destruct (IH (fun q Hq => Hsub q (or_intror Hq)))
        as [H|[(p0 & n & Hp0 & Hn & H)|H]];
        [left; exact H | | right; right; exact H].
      right. left. exists p0, n. split; [right; exact Hp0|].
      split; [exact Hn | exact H]. }
    cbn [hp_scan].
    destruct (findall true (tree p) ocr_text) as [|first others] eqn:E;
      [exact IH'|].
    destruct (hp_matches_int_or_long p ocr_text first) as [[v Hv]|[Hv Hlong]].
    + apply Hsub. left. reflexivity.
    + rewrite E. left. reflexivity.
    + rewrite Hv. cbn [bind].
      destruct ((20 <=? v) && (v <=? 150)) eqn:Hr; [|exact IH'].
      right. left. exists p, v. split; [left; reflexivity|].
      split; [|reflexivity]. apply andb_true_iff in Hr. lia.
    + rewrite Hv. cbn [bind]. right. right. split; [reflexivity | exact Hlong].
Qed.

(** The scan over a text without a run of digits beyond the limit
    returns, with no value or an integer. *)
Lemma hp_scan_returns (ocr_text : string) (patterns : list pattern) :
  Props.digit_runs_within max_str_digits ocr_text ->
  (forall p, In p patterns -> In p hp_patterns) ->
  exists r, hp_scan patterns ocr_text = Ok r /\
            (value r = VNone \/ exists n, value r = VInt n /\ 20 <= n <= 150).
Proof.
  intros Hruns Hsub.
  destruct (hp_scan_cases ocr_text patterns Hsub)
    as [H|[(p & n & _ & Hn & H)|[_ H]]]; [| |contradiction].
  - exists no_hp. split; [exact H | left; reflexivity].
  - exists (hp_from_text n p). split; [exact H|]. right.
    exists n. split; [reflexivity | exact Hn].
Qed.

End Totality.

Section Returns.

Import Text Py Re FieldExtractor.

Variable self : FieldExtractor.t.
Variable ocr_text : string.
Variable vlm_result : VlmResult.

Lemma extract_horse_power_returns :
  Props.short_number_or_none (vlm_horse_power vlm_result) ->
  (vlm_horse_power vlm_result = VNone ->
   Props.digit_runs_within max_str_digits ocr_text) ->
  exists r, extract_horse_power self ocr_text vlm_result = Ok r /\
            (value r = VNone \/ exists n, value r = VInt n).
Proof.
  unfold extract_horse_power. intros [E|(q & Hq & Hlim)] Hruns.
  - rewrite E. cbn [is_none negb].
    destruct (hp_scan_returns ocr_text hp_patterns (Hruns E) (fun p H => H))
      as (r & Hr & [Hv|(n & Hv & _)]);
      exists r; (split; [exact Hr|]); [left | right; exists n]; exact Hv.
  - assert (Hnone : is_none (vlm_horse_power vlm_result) = false).
    { destruct (vlm_horse_power vlm_result); try reflexivity; discriminate. }
    rewrite Hnone, (py_int_number _ q Hq). cbn [negb bind].
    rewrite (format_int_small _ Hlim). cbn [bind].
    eexists. split; [reflexivity|]. right. eexists. reflexivity.
Qed.

Lemma extract_asset_cost_returns :
  Props.double_or_none (vlm_asset_cost vlm_result) ->
  exists r, extract_asset_cost self ocr_text vlm_result = Ok r /\
            (value r = VNone \/ exists q, value r = VFloat q).
Proof.
  unfold extract_asset_cost. intros [E|(q & Hq & Hlo & Hhi)].
  - rewrite E. cbn [is_none negb]. eexists. split; [reflexivity|].
    destruct (cost_from_text_spec ocr_text) as [[_ ->]|(v & p & _ & _ & ->)];
      [left; reflexivity | right; exists v; reflexivity].
  - assert (Hnone : is_none (vlm_asset_cost vlm_result) = false).
    { destruct (vlm_asset_cost vlm_result); try reflexivity; discriminate. }
    pose proof (py_float_number _ q Hq Hlo Hhi) as Hfloat.
    assert (Hfmt : format_money (vlm_asset_cost vlm_result) = Ok (FMoney q)).
    { unfold format_money. rewrite Hq, Hfloat.
      destruct (vlm_asset_cost vlm_result); try reflexivity; discriminate. }
    rewrite Hnone, Hfloat, Hfmt. cbn [negb bind].
    eexists. split; [reflexivity|]. right. exists q. reflexivity.
Qed.

End Returns.

Section ValidatorReturns.

Import Py Validator.

Variable self : Validator.t.

Lemma validate_name_returns (r : FieldResult) :
  exists e, validate_name self (Some (Pipeline.as_dict r)) = Ok e.
Proof.
  unfold Pipeline.as_dict.
  rewrite (validate_name_gate self
             {| fd_value := Some (value r);
                fd_confidence := Some (VFloat (confidence r));
                fd_explanation := Some (explanation r) |}
             (confidence r) eq_refl).
  destruct (Qleb (min_confidence self) (confidence r)); eexists; reflexivity.
Qed.

Lemma validate_hp_returns (r : FieldResult) :
  value r = VNone \/ (exists n, value r = VInt n) ->
  exists e, validate_hp self (Some (Pipeline.as_dict r)) = Ok e.
Proof.
  unfold Pipeline.as_dict, validate_hp.
  cbn [get_default fd_value fd_confidence fd_explanation get].
  intros [->|(n & ->)].
  - eexists. reflexivity.
  - destruct (truthy (VInt n) && _validate_hp_range (VInt n));
      eexists; reflexivity.
Qed.

Lemma validate_cost_returns (r : FieldResult) :
  value r = VNone \/ (exists q, value r = VFloat q) ->
  exists e, validate_cost self (Some (Pipeline.as_dict r)) = Ok e.
Proof.
  unfold Pipeline.as_dict, validate_cost.
  cbn [get_default fd_value fd_confidence fd_explanation get].
  intros [->|(q & ->)].
  - eexists. reflexivity.
  - destruct (truthy (VFloat q) && _validate_cost_range (VFloat q));
      eexists; reflexivity.
Qed.

End ValidatorReturns.

Lemma validate_returns_on_extracted
    (validator : Validator.t) (f : FieldExtractor.Fields) :
  (value (FieldExtractor.horse_power f) = Py.VNone \/
   exists n, value (FieldExtractor.horse_power f) = Py.VInt n) ->
  (value (FieldExtractor.asset_cost f) = Py.VNone \/
   exists q, value (FieldExtractor.asset_cost f) = Py.VFloat q) ->
  exists out, Validator.validate validator (Pipeline.as_raw f) = Py.Ok out.
Proof.
  intros Vhp Vcost. unfold Validator.validate, Pipeline.as_raw.
  cbn [Validator.raw_dealer_name Validator.raw_model_name
       Validator.raw_horse_power Validator.raw_asset_cost
       Validator.raw_dealer_signature Validator.raw_dealer_stamp].
  destruct (validate_name_returns validator (FieldExtractor.dealer_name f))
    as ([[dv dc] de] & ->).
  destruct (validate_name_returns validator (FieldExtractor.model_name f))
    as ([[mv mc] me] & ->).
  destruct (validate_hp_returns validator _ Vhp) as ([[hv hc] he] & ->).
  destruct (validate_cost_returns validator _ Vcost) as ([[cv cc] ce] & ->).
  cbn [Py.bind]. eexists. reflexivity.
Qed.

(** When the secondary source gives nothing or a number that an
    f-string formats for the horse power, nothing or a number within the
    doubles for the cost, and the transcript that is searched for a horse
    power has no run of digits beyond the limit of [int],
    [extract_all_fields] returns and [validate] returns on its result. *)
Lemma extract_and_validate_returns
    (extractor : FieldExtractor.t) (validator : Validator.t)
    (ocr_result : FieldExtractor.OcrResult)
    (vlm_result : FieldExtractor.VlmResult)
    (detection_result : FieldExtractor.DetectionResult) :
  Props.short_number_or_none (FieldExtractor.vlm_horse_power vlm_result) ->
  Props.double_or_none (FieldExtractor.vlm_asset_cost vlm_result) ->
  (FieldExtractor.vlm_horse_power vlm_result = Py.VNone ->
   Props.digit_runs_within Text.max_str_digits
     (get_default (FieldExtractor.full_text ocr_result) EmptyString)) ->
  exists fields out,
    FieldExtractor.extract_all_fields extractor ocr_result vlm_result
      detection_result = Py.Ok fields /\
    Validator.validate validator (Pipeline.as_raw fields) = Py.Ok out /\
    Pipeline.extract_and_validate extractor validator ocr_result vlm_result
      detection_result = Py.Ok out.
Proof.
  intros Hhp Hcost Hruns.
  unfold Pipeline.extract_and_validate, FieldExtractor.extract_all_fields.
  cbv zeta.
  destruct (extract_horse_power_returns extractor
              (get_default (FieldExtractor.full_text ocr_result) EmptyString)
              vlm_result Hhp Hruns) as (hp & -> & Vhp).
  destruct (extract_asset_cost_returns extractor
              (get_default (FieldExtractor.full_text ocr_result) EmptyString)
              vlm_result Hcost) as (cost & -> & Vcost).
  cbn [Py.bind].
  match goal with
  | |- exists fields out, Py.Ok ?f = _ /\ _ =>
      destruct (validate_returns_on_extracted validator f Vhp Vcost)
        as (out & Hout);
      exists f, out
  end.
  split; [reflexivity|]. split; exact Hout.
Qed.

(** ** Worked inputs *)

(** The scenario of the specification: one dealer line, one power line and
    one total, nothing from the secondary source. *)
Example scenario_abc_motors :
  let extractor :=
    FieldExtractor.mkFieldExtractor
      ["XYZ Tractors"; "ABC Motors Pvt. Ltd."]%string
      ["Mahindra 475 DI"%string] in
  let ocr_result :=
    FieldExtractor.mkOcrResult (Some "ABC Motors Pvt Ltd
45 HP
Total: Rs. 450000"%string) in
  let vlm_result := FieldExtractor.mkVlmResult None None Py.VNone Py.VNone in
  let detection_result := FieldExtractor.mkDetectionResult None None in
  exists out,
    Pipeline.extract_and_validate extractor Validator.new ocr_result
      vlm_result detection_result = Py.Ok out /\
    Validator.dealer_name out = Py.VStr "ABC Motors Pvt. Ltd." /\
    Validator.dealer_name_confidence out = Py.VFloat (3600 # 3800) /\
    Validator.model_name out = Py.VNone /\
    Validator.horse_power out = Py.VInt 45 /\
    Validator.asset_cost out = Py.VFloat 450000 /\
    Validator.dp_bbox (Validator.dealer_signature out) = Py.VNone.
Proof.
  cbv zeta. eexists. split; [vm_compute; reflexivity|]. repeat split.
Qed.

(** Two model candidates: the first is one letter short of a reference
    entry (similarity 2800/29, above 95), the second is another reference
    entry exactly.  The first one is returned. *)
Example model_first_acceptable_wins :
  let extractor :=
    FieldExtractor.mkFieldExtractor []
      ["Mahindra 475 DI"; "Sonalika DI 750"]%string in
  FieldExtractor.reconcile_model extractor
    ["Mahindra 475 D"; "Sonalika DI 750"]%string =
    {| value := Py.VStr "Mahindra 475 DI";
       confidence := ((2800 # 29) / 100)%Q;
       explanation :=
         [FLit "Matched '"; FStr "Mahindra 475 D"; FLit "' to '";
          FStr "Mahindra 475 DI"; FLit "' ("; FNum (2800 # 29); FLit "%)"] |}
  /\
  FieldExtractor.reconcile_model extractor ["Sonalika DI 750"%string] =
    {| value := Py.VStr "Sonalika DI 750";
       confidence := 1%Q;
       explanation := [FLit "Exact match found: "; FStr "Sonalika DI 750"] |}.
Proof.
  cbv zeta. split; vm_compute; reflexivity.
Qed.

(** A horse power given to the validator as a string is outside the
    statements above: ["45"] is kept as 45, while ["45.5"] passes the range
    test through [float] and then makes [int] raise. *)
Remark validate_hp_on_strings (self : Validator.t) (c : option Py.PyVal)
    (e : option Expl) :
  Validator.validate_hp self
    (Some (Validator.Structured
             (Validator.mkFieldDict (Some (Py.VStr "45")) c e)))
    = Py.Ok (Py.VInt 45, get c, e) /\
  Validator.validate_hp self
    (Some (Validator.Structured
             (Validator.mkFieldDict (Some (Py.VStr "45.5")) c e)))
    = Py.Raise Py.ValueError.
Proof.
  split; reflexivity.
Qed.

(** * Further properties of the code *)

Section Stripping.

Import Text.

Lemma chars_text (l : list ascii) : chars (text l) = l.
Proof. apply list_ascii_of_string_of_list_ascii. Qed.

Lemma text_chars (s : string) : text (chars s) = s.
Proof. apply string_of_list_ascii_of_string. Qed.

Lemma drop_while_idem (p : ascii -> bool) (l : list ascii) :
  drop_while p (drop_while p l) = drop_while p l.
Proof.
  induction l as [|c t IH]; [reflexivity|]. cbn [drop_while].
  destruct (p c) eqn:E; [exact IH|]. cbn [drop_while]. rewrite E. reflexivity.
Qed.

Lemma drop_while_head (p : ascii -> bool) (l : list ascii) (c : ascii)
    (t : list ascii) :
  drop_while p l = c :: t -> p c = false.
Proof.
  induction l as [|x l IH]; [discriminate|]. cbn [drop_while].
  destruct (p x) eqn:E; [exact IH|]. intro H. injection H as <- _. exact E.
Qed.

Lemma drop_while_app_last (p : ascii -> bool) (l : list ascii) (c : ascii) :
  p c = false -> drop_while p (l ++ [c]) = drop_while p l ++ [c].
Proof.
  intro Hc. induction l as [|x l IH]; cbn [app drop_while].
  - rewrite Hc. reflexivity.
  - destruct (p x); [exact IH | reflexivity].
Qed.

(** Stripping what has been stripped changes nothing. *)
Lemma strip_chars_idem (l : list ascii) :
  strip_chars (strip_chars l) = strip_chars l.
Proof.
  unfold strip_chars.
  destruct (drop_while is_space l) as [|c t] eqn:E; [reflexivity|].
  pose proof (drop_while_head _ _ _ _ E) as Hc.
  cbn [rev]. rewrite (drop_while_app_last _ _ _ Hc).
  rewrite rev_app_distr. cbn [rev app].
  cbn [drop_while]. rewrite Hc.
  cbn [rev]. rewrite rev_involutive.
  rewrite (drop_while_app_last _ _ _ Hc), drop_while_idem.
  rewrite rev_app_distr. reflexivity.
Qed.

Lemma strip_idem (s : string) : strip (strip s) = strip s.
Proof.
  unfold strip. rewrite chars_text, strip_chars_idem. reflexivity.
Qed.

End Stripping.

Section MasterLists.

Import Text Py Fuzz FieldExtractor.

Lemma dealer_loop_no_master (self : FieldExtractor.t)
    (candidates : list string) :
  dealer_master self = [] -> dealer_loop self candidates = dealer_init.
Proof.
  intro H. unfold dealer_loop. generalize dealer_init as st.
  induction candidates as [|c rest IH]; intro st; [reflexivity|].
  cbn [fold_left]. rewrite <- (IH st) at 2. f_equal.
  unfold dealer_step. destruct st as [[bm bs] bc].
  destruct (negb (str_truthy c)); [reflexivity|].
  rewrite H. reflexivity.
Qed.

Lemma reconcile_model_no_master (self : FieldExtractor.t)
    (candidates : list string) :
  asset_master self = [] -> reconcile_model self candidates = no_model.
Proof.
  intro H. induction candidates as [|c rest IH]; [reflexivity|].
  cbn [reconcile_model]. rewrite H. cbn [in_master existsb extractOne fold_left].
  destruct (negb (str_truthy c)); exact IH.
Qed.

End MasterLists.

(** X1. Every entry of a loaded master list is a non-empty string without
    surrounding white space; a file that does not exist gives the empty
    list.  With a missing dealer list every dealer name is then rejected
    with best score 0, and with a missing model list every model name is
    rejected, whatever the document says. *)
Theorem load_master_list_entries
    (fs : FieldExtractor.FileSystem) (dealer_path asset_path : string) :
  (forall path e,
     In e (FieldExtractor._load_master_list fs path) ->
     FieldExtractor.str_truthy e = true /\ Text.strip e = e) /\
  (forall path,
     fs path = None -> FieldExtractor._load_master_list fs path = []) /\
  (fs dealer_path = None ->
   forall ocr_text vlm_result,
     FieldExtractor.extract_dealer_name
       (FieldExtractor.init fs dealer_path asset_path) ocr_text vlm_result =
       {| value := Py.VNone;
          confidence := 0%Q;
          explanation :=
            [FLit "No dealer match found (best: "; FNum 0; FLit "%)"] |}) /\
  (fs asset_path = None ->
   forall ocr_text vlm_result,
     FieldExtractor.extract_model_name
       (FieldExtractor.init fs dealer_path asset_path) ocr_text vlm_result =
       FieldExtractor.no_model).
Proof.
  split; [|split; [|split]].
  - intros path e. unfold FieldExtractor._load_master_list.
    destruct (fs path) as [content|]; [|intros []].
    intro H. apply in_map_iff in H. destruct H as (line & <- & H).
    apply filter_In in H. destruct H as [_ H].
    split; [exact H | apply strip_idem].
  - intros path H. unfold FieldExtractor._load_master_list. rewrite H.
    reflexivity.
  - intros H ocr_text vlm_result.
    unfold FieldExtractor.extract_dealer_name, FieldExtractor.reconcile_dealer.
    rewrite dealer_loop_no_master; [reflexivity|].
    unfold FieldExtractor.init, FieldExtractor._load_master_list.
    cbn [FieldExtractor.dealer_master]. rewrite H. reflexivity.
  - intros H ocr_text vlm_result.
    unfold FieldExtractor.extract_model_name.
    apply reconcile_model_no_master.
    unfold FieldExtractor.init, FieldExtractor._load_master_list.
    cbn [FieldExtractor.asset_master]. rewrite H. reflexivity.
Qed.

(** X2. From the text alone, [extract_horse_power] ends in one of three
    ways: no value at confidence 0, an integer within 20..150 at
    confidence 0.85 that one of the five patterns found, or [ValueError].
    The exception comes from [int] on a first match of more than 4300
    digits, so it needs a run of that many digits in the transcript. *)
Theorem extract_horse_power_text_range
    (self : FieldExtractor.t) (ocr_text : string)
    (vlm_result : FieldExtractor.VlmResult)
    (Hvlm : FieldExtractor.vlm_horse_power vlm_result = Py.VNone) :
  FieldExtractor.extract_horse_power self ocr_text vlm_result
    = Py.Ok FieldExtractor.no_hp \/
  (exists p n,
     In p FieldExtractor.hp_patterns /\ 20 <= n <= 150 /\
     FieldExtractor.extract_horse_power self ocr_text vlm_result =
       Py.Ok {| value := Py.VInt n;
                confidence := 0.85%Q;
                explanation :=
                  [FLit "Extracted "; FInt n; FLit " HP using pattern '";
                   FStr (Re.source p); FLit "'"] |}) \/
  (FieldExtractor.extract_horse_power self ocr_text vlm_result
     = Py.Raise Py.ValueError /\
   ~ Props.digit_runs_within Text.max_str_digits ocr_text).
Proof.
  unfold FieldExtractor.extract_horse_power. rewrite Hvlm.
  cbn [FieldExtractor.is_none negb].
  exact (hp_scan_cases ocr_text FieldExtractor.hp_patterns (fun p H => H)).
Qed.

Lemma extract_horse_power_text_range_witness :
  let vlm_result := FieldExtractor.mkVlmResult None None Py.VNone Py.VNone in
  FieldExtractor.vlm_horse_power vlm_result = Py.VNone /\
  (FieldExtractor.extract_horse_power (FieldExtractor.mkFieldExtractor [] [])
     "Engine 45 hp"%string vlm_result = Py.Ok FieldExtractor.no_hp \/
   (exists p n,
      In p FieldExtractor.hp_patterns /\ 20 <= n <= 150 /\
      FieldExtractor.extract_horse_power
        (FieldExtractor.mkFieldExtractor [] [])
        "Engine 45 hp"%string vlm_result =
        Py.Ok {| value := Py.VInt n;
                 confidence := 0.85%Q;
                 explanation :=
                   [FLit "Extracted "; FInt n; FLit " HP using pattern '";
                    FStr (Re.source p); FLit "'"] |}) \/
   (FieldExtractor.extract_horse_power (FieldExtractor.mkFieldExtractor [] [])
      "Engine 45 hp"%string vlm_result = Py.Raise Py.ValueError /\
    ~ Props.digit_runs_within Text.max_str_digits "Engine 45 hp"%string)).
Proof.
  intro vlm_result. split; [reflexivity|].
  apply (extract_horse_power_text_range _ _ vlm_result). reflexivity.
Defined.

(** The third case happens: 4299 zeros before [45 HP] make a first match
    of 4301 digits, on which [int] raises; with one zero less the value
    is 45. *)
Example extract_horse_power_long_digit_run :
  let vlm_result := FieldExtractor.mkVlmResult None None Py.VNone Py.VNone in
  let zeros n := Text.text (repeat "0"%char n) in
  FieldExtractor.extract_horse_power (FieldExtractor.mkFieldExtractor [] [])
    (zeros 4299%nat ++ "45 HP")%string vlm_result = Py.Raise Py.ValueError /\
  exists r,
    FieldExtractor.extract_horse_power (FieldExtractor.mkFieldExtractor [] [])
      (zeros 4298%nat ++ "45 HP")%string vlm_result = Py.Ok r /\
    value r = Py.VInt 45.
Proof.
  cbv zeta. split; [vm_compute; reflexivity|].
  eexists. split; [vm_compute; reflexivity | reflexivity].
Qed.

Section NamesThroughValidation.

Import Py Fuzz FieldExtractor Validator Props.

(** The confidence of a dealer result is 0 or at least 0.9. *)
Lemma dealer_result_confidence (st : dealer_state) :
  (value (dealer_result st) = VNone /\ confidence (dealer_result st) = 0%Q) \/
  (0.9 <= confidence (dealer_result st))%Q.
Proof.
  destruct st as [[bm bs] bc]. unfold dealer_result.
  destruct (Qleb 90 bs) eqn:E; [|left; split; reflexivity].
  right. apply Qleb_le in E. cbn [confidence].
  unfold Qle in *. simpl in *. lia.
Qed.

(** The confidence of a model result is 0 or at least 0.95. *)
Lemma reconcile_model_confidence (self : FieldExtractor.t)
    (candidates : list string) :
  (value (reconcile_model self candidates) = VNone /\
   confidence (reconcile_model self candidates) = 0%Q) \/
  (0.95 <= confidence (reconcile_model self candidates))%Q.
Proof.
  induction candidates as [|c rest IH]; cbn [reconcile_model].
  - left. split; reflexivity.
  - destruct (negb (str_truthy c)); [exact IH|].
    destruct (in_master c (asset_master self)).
    + right. cbn [confidence]. unfold Qle. simpl. lia.
    + destruct (extractOne c (asset_master self)) as [[m s]|]; [|exact IH].
      destruct (Qleb 95 s) eqn:E; [|exact IH].
      right. apply Qleb_le in E. cbn [confidence].
      unfold Qle in *. simpl in *. lia.
Qed.

(** A result with confidence 0 and no value, or with a confidence at
    least the threshold, goes through the name block as it is. *)
Lemma validate_name_passes (self : Validator.t) (r : FieldResult) :
  (value r = VNone /\ confidence r = 0%Q) \/
  (min_confidence self <= confidence r)%Q ->
  validate_name self (Some (Pipeline.as_dict r)) =
    Ok (value r, VFloat (confidence r), Some (explanation r)).
Proof.
  intro H. unfold Pipeline.as_dict.
  rewrite (validate_name_gate self
             {| fd_value := Some (value r);
                fd_confidence := Some (VFloat (confidence r));
                fd_explanation := Some (explanation r) |}
             (confidence r) eq_refl).
  cbn [fd_value fd_confidence fd_explanation get get_default].
  destruct (Qleb (min_confidence self) (confidence r)) eqn:E; [reflexivity|].
  destruct H as [[-> ->]|H]; [reflexivity|].
  apply Qleb_le in H. congruence.
Qed.

End NamesThroughValidation.

(** X3. The minimum-confidence gate never changes a name the extractor
    produced, as long as the threshold is at most 0.9 (the default is
    0.5): an accepted dealer has confidence 0.9 or more, an accepted
    model 0.95 or more, and a rejected one is already [None] at 0.0.  The
    validated entries are the value, confidence and explanation of the
    extractor's result. *)
Theorem extracted_names_pass_validation
    (validator : Validator.t) (extractor : FieldExtractor.t)
    (ocr_text : string) (vlm_result : FieldExtractor.VlmResult)
    (Hmin : (Validator.min_confidence validator <= 0.9)%Q) :
  let dealer :=
    FieldExtractor.extract_dealer_name extractor ocr_text vlm_result in
  let model :=
    FieldExtractor.extract_model_name extractor ocr_text vlm_result in
  Validator.validate_name validator (Some (Pipeline.as_dict dealer)) =
    Py.Ok (value dealer, Py.VFloat (confidence dealer),
           Some (explanation dealer)) /\
  Validator.validate_name validator (Some (Pipeline.as_dict model)) =
    Py.Ok (value model, Py.VFloat (confidence model),
           Some (explanation model)).
Proof.
  intros dealer model. split; apply validate_name_passes.
  - destruct (dealer_result_confidence
                (FieldExtractor.dealer_loop extractor
                   (FieldExtractor.combine_candidates
                      (FieldExtractor.vlm_dealer_name vlm_result)
                      (FieldExtractor._extract_dealer_candidates ocr_text))))
      as [H|H]; [left; exact H|].
    right. apply Qle_trans with 0.9%Q; [exact Hmin | exact H].
  - destruct (reconcile_model_confidence extractor
                (FieldExtractor.combine_candidates
                   (FieldExtractor.vlm_model_name vlm_result)
                   (FieldExtractor._extract_model_candidates ocr_text)))
      as [H|H]; [left; exact H|].
    right. apply Qle_trans with 0.9%Q; [exact Hmin|].
    apply Qle_trans with 0.95%Q; [|exact H]. unfold Qle. simpl. lia.
Qed.

Lemma extracted_names_pass_validation_witness :
  let extractor :=
    FieldExtractor.mkFieldExtractor ["ABC Motors Pvt. Ltd."%string] [] in
  let vlm_result :=
    FieldExtractor.mkVlmResult (Some "ABC Motors Pvt Ltd"%string) None
      Py.VNone Py.VNone in
  (Validator.min_confidence Validator.new <= 0.9)%Q /\
  Validator.validate_name Validator.new
    (Some (Pipeline.as_dict
             (FieldExtractor.extract_dealer_name extractor EmptyString
                vlm_result))) =
    Py.Ok (value (FieldExtractor.extract_dealer_name extractor EmptyString
                    vlm_result),
           Py.VFloat (confidence
                        (FieldExtractor.extract_dealer_name extractor
                           EmptyString vlm_result)),
           Some (explanation
                   (FieldExtractor.extract_dealer_name extractor EmptyString
                      vlm_result))).
Proof.
  intros extractor vlm_result.
  assert (Hmin : (Validator.min_confidence Validator.new <= 0.9)%Q)
    by (unfold Qle; simpl; lia).
  split; [exact Hmin|].
  exact (proj1 (extracted_names_pass_validation Validator.new extractor
                  EmptyString vlm_result Hmin)).
Defined.

(** X4. A cost extracted from the text survives validation unchanged: the
    extractor's band 300000..1500000 lies inside the validator's band
    200000..2000000, so the validated entries are the value, confidence
    and explanation of the extractor's result (and a missing cost stays
    [None] at 0.0). *)
Theorem text_cost_survives_validation
    (validator : Validator.t) (extractor : FieldExtractor.t)
    (ocr_text : string) (vlm_result : FieldExtractor.VlmResult)
    (Hvlm : FieldExtractor.vlm_asset_cost vlm_result = Py.VNone) :
  exists r,
    FieldExtractor.extract_asset_cost extractor ocr_text vlm_result
      = Py.Ok r /\
    Validator.validate_cost validator (Some (Pipeline.as_dict r)) =
      Py.Ok (value r, Py.VFloat (confidence r), Some (explanation r)).
Proof.
  unfold FieldExtractor.extract_asset_cost. rewrite Hvlm.
  cbn [FieldExtractor.is_none negb]. eexists. split; [reflexivity|].
  destruct (cost_from_text_spec ocr_text) as [[_ ->]|(v & p & Hin & _ & ->)];
    [reflexivity|].
  apply cost_candidates_spec in Hin. destruct Hin as (_ & m & _ & _ & Hr).
  apply in_cost_range_bounds in Hr. destruct Hr as [Hlo Hhi].
  unfold Validator.validate_cost, Pipeline.as_dict.
  cbn [get_default Validator.fd_value Validator.fd_confidence
       Validator.fd_explanation get value confidence explanation].
  assert (Ht : Py.truthy (Py.VFloat v) = true).
  { cbn [Py.truthy]. apply negb_true_iff.
    destruct (Py.Qeqb v 0) eqn:E; [|reflexivity].
    apply Qeq_bool_iff in E. rewrite E in Hlo. exfalso.
    revert Hlo. apply Qlt_not_le. reflexivity. }
  assert (Hb : Validator._validate_cost_range (Py.VFloat v) = true).
  { unfold Validator._validate_cost_range.
    cbn [Py.py_float Py.bind Py.try_except].
    apply andb_true_iff. rewrite !Qleb_le. split.
    - apply Qle_trans with 300000%Q; [unfold Qle; simpl; lia | exact Hlo].
    - apply Qle_trans with 1500000%Q; [exact Hhi | unfold Qle; simpl; lia]. }
  rewrite Ht, Hb. reflexivity.
Qed.

Lemma text_cost_survives_validation_witness :
  let vlm_result := FieldExtractor.mkVlmResult None None Py.VNone Py.VNone in
  FieldExtractor.vlm_asset_cost vlm_result = Py.VNone /\
  exists r,
    FieldExtractor.extract_asset_cost (FieldExtractor.mkFieldExtractor [] [])
      "Total: Rs. 4,50,000"%string vlm_result = Py.Ok r /\
    Validator.validate_cost Validator.new (Some (Pipeline.as_dict r)) =
      Py.Ok (value r, Py.VFloat (confidence r), Some (explanation r)).
Proof.
  intro vlm_result. split; [reflexivity|].
  apply (text_cost_survives_validation Validator.new _ _ vlm_result).
  reflexivity.
Defined.



(** An integer of 4301 digits under [horse_power]: [int] returns it and
    the f-string of the explanation raises. *)
Example secondary_hp_too_long_to_format :
  FieldExtractor.extract_horse_power (FieldExtractor.mkFieldExtractor [] [])
    EmptyString
    (FieldExtractor.mkVlmResult None None
       (Py.VInt FieldExtractor.int_str_limit) Py.VNone)
    = Py.Raise Py.ValueError.
Proof. vm_compute. reflexivity. Qed.

Section ValidatedRanges.

Import Py Validator.

(** What passes the horse-power condition and [int] is within 15..200. *)
Lemma hp_gate_int_band (v : PyVal) (n : Z) :
  truthy v && _validate_hp_range v = true -> py_int v = Ok n ->
  15 <= n <= 200.
Proof.
  intros Hg Hn. apply andb_true_iff in Hg. destruct Hg as [_ Hr].
  unfold _validate_hp_range in Hr.
  destruct (py_float v) as [q|] eqn:Hf; [|discriminate].
  cbn [bind try_except] in Hr. apply andb_true_iff in Hr.
  rewrite !Qleb_le in Hr. destruct Hr as [Hlo Hhi].
  destruct v as [|b|z|q'|s|l]; cbn [py_float py_int] in Hf, Hn;
    try discriminate.
  - injection Hf as <-. destruct b; exfalso; revert Hlo;
      apply Qlt_not_le; reflexivity.
  - destruct (Z.abs z <? float_overflow); [|discriminate].
    injection Hf as <-. injection Hn as <-.
    unfold Qle in Hlo, Hhi. simpl in Hlo, Hhi. lia.
  - injection Hf as <-. injection Hn as <-.
    apply Qtrunc_between; [lia | exact Hlo | exact Hhi].
  - destruct (Text.int_of_string s) as [z|] eqn:Hz; [|discriminate].
    injection Hn as <-.
    destruct (int_of_string_float s z Hz) as (q' & Hq' & Heq).
    rewrite Hq' in Hf. injection Hf as <-.
    rewrite Heq in Hlo, Hhi. unfold Qle in Hlo, Hhi. simpl in Hlo, Hhi. lia.
Qed.

Lemma validate_hp_range (self : Validator.t) (f : option FieldInput)
    (v c : PyVal) (e : option Expl) :
  validate_hp self f = Ok (v, c, e) ->
  v = VNone \/ exists n, v = VInt n /\ 15 <= n <= 200.
Proof.
  unfold validate_hp.
  destruct (get_default f (Structured empty_dict)) as [d|hv]; cbv zeta.
  - destruct (truthy (get (fd_value d))
              && _validate_hp_range (get (fd_value d))) eqn:Hg.
    + destruct (py_int (get (fd_value d))) as [n|] eqn:Hn; [|discriminate].
      cbn [bind]. intro H. injection H as <- _ _. right. exists n.
      split; [reflexivity | exact (hp_gate_int_band _ n Hg Hn)].
    + intro H. injection H as <- _ _. left. reflexivity.
  - destruct (truthy hv && _validate_hp_range hv) eqn:Hg.
    + destruct (py_int hv) as [n|] eqn:Hn; [|discriminate].
      cbn [bind]. intro H. injection H as <- _ _. right. exists n.
      split; [reflexivity | exact (hp_gate_int_band _ n Hg Hn)].
    + intro H. injection H as <- _ _. left. reflexivity.
Qed.

Lemma cost_gate_float_band (v : PyVal) (q : Q) :
  truthy v && _validate_cost_range v = true -> py_float v = Ok q ->
  (200000 <= q /\ q <= 2000000)%Q.
Proof.
  intros Hg Hq. apply andb_true_iff in Hg. destruct Hg as [_ Hr].
  unfold _validate_cost_range in Hr. rewrite Hq in Hr.
  cbn [bind try_except] in Hr. apply andb_true_iff in Hr.
  rewrite !Qleb_le in Hr. exact Hr.
Qed.

Lemma validate_cost_range (self : Validator.t) (f : option FieldInput)
    (v c : PyVal) (e : option Expl) :
  validate_cost self f = Ok (v, c, e) ->
  v = VNone \/ exists q, v = VFloat q /\ (200000 <= q /\ q <= 2000000)%Q.
Proof.
  unfold validate_cost.
  destruct (get_default f (Structured empty_dict)) as [d|cv]; cbv zeta.
  - destruct (truthy (get (fd_value d))
              && _validate_cost_range (get (fd_value d))) eqn:Hg.
    + destruct (py_float (get (fd_value d))) as [q|] eqn:Hq; [|discriminate].
      cbn [bind]. intro H. injection H as <- _ _. right. exists q.
      split; [reflexivity | exact (cost_gate_float_band _ q Hg Hq)].
    + intro H. injection H as <- _ _. left. reflexivity.
  - destruct (truthy cv && _validate_cost_range cv) eqn:Hg.
    + destruct (py_float cv) as [q|] eqn:Hq; [|discriminate].
      cbn [bind]. intro H. injection H as <- _ _. right. exists q.
      split; [reflexivity | exact (cost_gate_float_band _ q Hg Hq)].
    + intro H. injection H as <- _ _. left. reflexivity.
Qed.

End ValidatedRanges.

(** X6. Whatever [validate] is given (records, bare values, strings,
    missing keys), when it returns the horse power in its result is
    [None] or an integer within 15..200, and the asset cost is [None] or
    a float within 200000..2000000. *)
Theorem validated_numbers_within_bands
    (self : Validator.t) (fields : Validator.RawFields)
    (out : Validator.Validated)
    (Hout : Validator.validate self fields = Py.Ok out) :
  (Validator.horse_power out = Py.VNone \/
   exists n, Validator.horse_power out = Py.VInt n /\ 15 <= n <= 200) /\
  (Validator.asset_cost out = Py.VNone \/
   exists q, Validator.asset_cost out = Py.VFloat q /\
             (200000 <= q /\ q <= 2000000)%Q).
Proof.
  destruct (validate_entries self fields out Hout) as (_ & _ & Hhp & Hcost & _).
  split.
  - exact (validate_hp_range self _ _ _ _ Hhp).
  - exact (validate_cost_range self _ _ _ _ Hcost).
Qed.

Lemma validated_numbers_within_bands_witness :
  let fields :=
    Validator.mkRawFields None None
      (Some (Validator.Bare (Py.VStr " 1_50 ")))
      (Some (Validator.Structured
               (Validator.mkFieldDict (Some (Py.VStr "4.5e5")) None None)))
      None None in
  exists out,
    Validator.validate Validator.new fields = Py.Ok out /\
    Validator.horse_power out = Py.VInt 150 /\
    Validator.asset_cost out = Py.VFloat 450000.0 /\
    (Validator.horse_power out = Py.VNone \/
     exists n, Validator.horse_power out = Py.VInt n /\ 15 <= n <= 200) /\
    (Validator.asset_cost out = Py.VNone \/
     exists q, Validator.asset_cost out = Py.VFloat q /\
               (200000 <= q /\ q <= 2000000)%Q).
Proof.
  intro fields.
  assert (E : exists out, Validator.validate Validator.new fields = Py.Ok out
                          /\ Validator.horse_power out = Py.VInt 150
                          /\ Validator.asset_cost out = Py.VFloat 450000.0).
  { eexists. split; [vm_compute; reflexivity|]. split; reflexivity. }
  destruct E as (out & Hout & Hhp & Hcost).
  exists out. split; [exact Hout|]. split; [exact Hhp|]. split; [exact Hcost|].
  exact (validated_numbers_within_bands Validator.new fields out Hout).
Defined.


Section ValidateRaises.

Import Py Validator.

Variable self : Validator.t.

Lemma validate_name_cases (f : option FieldInput) :
  (Props.name_confidence_invalid f /\ validate_name self f = Raise TypeError) \/
  (~ Props.name_confidence_invalid f /\ exists e, validate_name self f = Ok e).
Proof.
  unfold validate_name, Props.name_confidence_invalid.
  destruct f as [[d|v]|]; cbn [get_default].
  - destruct (number_of (get_default (fd_confidence d) (VInt 0)))
      as [q|] eqn:Hq.
    + right. split.
      * intros (d' & E & H). injection E as <-. congruence.
      * unfold py_ge. rewrite Hq. cbn [number_of bind].
        destruct (Qleb (min_confidence self) q); eexists; reflexivity.
    + left. split.
      * exists d. split; [reflexivity | exact Hq].
      * unfold py_ge. rewrite Hq. reflexivity.
  - right. split; [intros (d & E & _); discriminate | eexists; reflexivity].
  - right. split; [intros (d & E & _); discriminate|].
    cbn. destruct (Qleb (min_confidence self) (inject_Z 0));
      eexists; reflexivity.
Qed.

Lemma hp_block_cases (hv : PyVal) (A : Type) (k : Z -> result A)
    (rejected : result A) :
  (forall n, exists a, k n = Ok a) -> (exists a, rejected = Ok a) ->
  ((exists s q, hv = VStr s /\ Text.float_of_string s = Some q /\
                (15 <= q /\ q <= 200)%Q /\ Text.int_of_string s = None) /\
   (if truthy hv && _validate_hp_range hv then bind (py_int hv) k
    else rejected) = Raise ValueError) \/
  (~ (exists s q, hv = VStr s /\ Text.float_of_string s = Some q /\
                  (15 <= q /\ q <= 200)%Q /\ Text.int_of_string s = None) /\
   exists a, (if truthy hv && _validate_hp_range hv then bind (py_int hv) k
              else rejected) = Ok a).
Proof.
  intros Hk Hrej.
  destruct (truthy hv && _validate_hp_range hv) eqn:Hg.
  2:{ right. split; [|exact Hrej].
      intros (s & q & -> & Hf & Hb & _).
      apply andb_false_iff in Hg. destruct Hg as [Hg|Hg].
      - cbn [truthy] in Hg. apply negb_false_iff, String.eqb_eq in Hg.
        subst s. vm_compute in Hf. discriminate.
      - unfold _validate_hp_range in Hg. cbn [py_float] in Hg.
        rewrite Hf in Hg. cbn [bind try_except] in Hg.
        apply andb_false_iff in Hg. rewrite <- !Qleb_le in Hb.
        destruct Hb as [H1 H2]. rewrite H1, H2 in Hg.
        destruct Hg; discriminate. }
  destruct (py_int hv) as [n|e] eqn:Hn.
  - right. split; [|cbn [bind]; exact (Hk n)].
    intros (s & q & -> & _ & _ & Hi). cbn [py_int] in Hn.
    rewrite Hi in Hn. discriminate.
  - left.
    apply andb_true_iff in Hg. destruct Hg as [_ Hr].
    unfold _validate_hp_range in Hr.
    destruct hv as [|b|z|q|s|l]; cbn [py_int] in Hn; try discriminate;
      cbn [py_float bind try_except] in Hr; try discriminate.
    destruct (Text.int_of_string s) eqn:Hi; [discriminate|].
    injection Hn as <-.
    destruct (Text.float_of_string s) as [q|] eqn:Hf; [|discriminate].
    cbn [bind try_except] in Hr. apply andb_true_iff in Hr.
    rewrite !Qleb_le in Hr.
    split; [|reflexivity]. exists s, q. repeat split; tauto.
Qed.

Lemma validate_hp_cases (f : option FieldInput) :
  (Props.hp_string_invalid f /\ validate_hp self f = Raise ValueError) \/
  (~ Props.hp_string_invalid f /\ exists e, validate_hp self f = Ok e).
Proof.
  unfold validate_hp, Props.hp_string_invalid, Props.hp_value_of.
  destruct (get_default f (Structured empty_dict)) as [d|hv]; cbv zeta;
    apply hp_block_cases; try (intro n); eexists; reflexivity.
Qed.

Lemma validate_cost_returns_always (f : option FieldInput) :
  exists e, validate_cost self f = Ok e.
Proof.
  unfold validate_cost.
  destruct (get_default f (Structured empty_dict)) as [d|cv]; cbv zeta.
  - destruct (truthy (get (fd_value d))
              && _validate_cost_range (get (fd_value d))) eqn:Hg;
      [|eexists; reflexivity].
    apply andb_true_iff in Hg. destruct Hg as [_ Hr].
    unfold _validate_cost_range in Hr.
    destruct (py_float (get (fd_value d))); [|discriminate].
    eexists. reflexivity.
  - destruct (truthy cv && _validate_cost_range cv) eqn:Hg;
      [|eexists; reflexivity].
    apply andb_true_iff in Hg. destruct Hg as [_ Hr].
    unfold _validate_cost_range in Hr.
    destruct (py_float cv); [|discriminate].
    eexists. reflexivity.
Qed.

Lemma hp_string_invalid_unsettled (f : option FieldInput) :
  Props.hp_string_invalid f -> Props.hp_string_unsettled f.
Proof.
  intros (s & q & Hv & Hf & [Hlo Hhi] & Hi). exists s.
  split; [exact Hv|]. right. split; [exact Hi|]. exists q.
  split; [exact Hf|]. split.
  - apply Qlt_le_trans with 15%Q; [reflexivity | exact Hlo].
  - apply Qle_lt_trans with 200%Q; [exact Hhi | reflexivity].
Qed.

Lemma validate_detection_any_cases (p : option DetInput) :
  (Props.not_a_dict p /\ validate_detection_any p = Raise AttributeError) \/
  (~ Props.not_a_dict p /\ exists d, validate_detection_any p = Ok d).
Proof.
  destruct p as [[d|v]|]; cbn [validate_detection_any].
  - right. split; [intros (v & E); discriminate | eexists; reflexivity].
  - left. split; [exists v; reflexivity | reflexivity].
  - right. split; [intros (v & E); discriminate | eexists; reflexivity].
Qed.

(** With dictionaries as detection entries the two agree. *)
Lemma validate_any_typed (fields : RawFields) :
  validate_any self (typed fields) = validate self fields.
Proof.
  unfold validate_any, validate, typed.
  cbn [any_dealer_name any_model_name any_horse_power any_asset_cost
       any_dealer_signature any_dealer_stamp].
  destruct (validate_name self (raw_dealer_name fields))
    as [[[dv dc] de]|]; [|reflexivity].
  destruct (validate_name self (raw_model_name fields))
    as [[[mv mc] me]|]; [|reflexivity].
  destruct (validate_hp self (raw_horse_power fields))
    as [[[hv hc] he]|]; [|reflexivity].
  destruct (validate_cost self (raw_asset_cost fields))
    as [[[cv cc] ce]|]; [|reflexivity].
  cbn [bind].
  destruct (raw_dealer_signature fields), (raw_dealer_stamp fields);
    reflexivity.
Qed.

End ValidateRaises.

(** X7. The situations in which [validate] raises, in the order in which
    they are tested: the [dealer_name] record has a confidence that is
    not a number ([TypeError]); the [model_name] record has one
    ([TypeError]); the horse power is a string that [float] reads within
    15..200 and [int] does not read, such as ["45.5"] ([ValueError]); the
    entry under [dealer_signature] is not a dictionary
    ([AttributeError]); the entry under [dealer_stamp] is not one
    ([AttributeError]).  On an input in none of these situations it
    returns, the result being that of the blocks on dictionaries; the
    cost block never raises.  The clauses that need the horse-power
    block to return leave out the strings on which the model does not
    settle it: a string with a character outside ASCII, and a string
    within a unit of the band, where the rounding of [float] decides. *)
Theorem validate_raises_in_order
    (self : Validator.t) (fields : Validator.AnyFields) :
  (Props.name_confidence_invalid (Validator.any_dealer_name fields) ->
   Validator.validate_any self fields = Py.Raise Py.TypeError) /\
  (~ Props.name_confidence_invalid (Validator.any_dealer_name fields) ->
   Props.name_confidence_invalid (Validator.any_model_name fields) ->
   Validator.validate_any self fields = Py.Raise Py.TypeError) /\
  (~ Props.name_confidence_invalid (Validator.any_dealer_name fields) ->
   ~ Props.name_confidence_invalid (Validator.any_model_name fields) ->
   Props.hp_string_invalid (Validator.any_horse_power fields) ->
   Validator.validate_any self fields = Py.Raise Py.ValueError) /\
  (~ Props.name_confidence_invalid (Validator.any_dealer_name fields) ->
   ~ Props.name_confidence_invalid (Validator.any_model_name fields) ->
   ~ Props.hp_string_unsettled (Validator.any_horse_power fields) ->
   (Props.not_a_dict (Validator.any_dealer_signature fields) ->
    Validator.validate_any self fields = Py.Raise Py.AttributeError) /\
   (~ Props.not_a_dict (Validator.any_dealer_signature fields) ->
    Props.not_a_dict (Validator.any_dealer_stamp fields) ->
    Validator.validate_any self fields = Py.Raise Py.AttributeError) /\
   (~ Props.not_a_dict (Validator.any_dealer_signature fields) ->
    ~ Props.not_a_dict (Validator.any_dealer_stamp fields) ->
    exists out, Validator.validate_any self fields = Py.Ok out)) /\
  (forall typed_fields,
     Validator.validate_any self (Validator.typed typed_fields)
       = Validator.validate self typed_fields).
Proof.
  split; [|split; [|split; [|split]]];
    try exact (validate_any_typed self).
  all: unfold Validator.validate_any.
  all: destruct (validate_name_cases self (Validator.any_dealer_name fields))
         as [[Hd ->]|[Hd ([[dv dc] de] & ->)]];
       [intros; try reflexivity; contradiction|].
  all: try (intro H0; contradiction).
  all: intros _.
  all: destruct (validate_name_cases self (Validator.any_model_name fields))
         as [[Hm ->]|[Hm ([[mv mc] me] & ->)]];
       [intros; try reflexivity; contradiction|].
  all: try (intro H0; contradiction).
  all: intros _.
  all: destruct (validate_hp_cases self (Validator.any_horse_power fields))
         as [[Hh ->]|[Hh ([[hv hc] he] & ->)]].
  - intros _. reflexivity.
  - intro H. contradiction.
  - intro H. exfalso. apply H, hp_string_invalid_unsettled, Hh.
  - intros _.
    destruct (validate_cost_returns_always self
                (Validator.any_asset_cost fields)) as ([[cv cc] ce] & ->).
    cbn [Py.bind].
    destruct (validate_detection_any_cases
                (Validator.any_dealer_signature fields))
      as [[Hs ->]|[Hs (sd & ->)]].
    { split; [intros _; reflexivity|].
      split; intros H; contradiction. }
    cbn [Py.bind].
    destruct (validate_detection_any_cases
                (Validator.any_dealer_stamp fields))
      as [[Ht ->]|[Ht (td & ->)]].
    { split; [intro H; contradiction|].
      split; [intros _ _; reflexivity | intros _ H; contradiction]. }
    cbn [Py.bind].
    split; [intro H; contradiction|].
    split; [intros _ H; contradiction|].
    intros _ _. eexists. reflexivity.
Qed.

(** A detection entry that is a list, not a dictionary: [.get] raises;
    and a number as the confidence of a name. *)
Example validate_any_raises :
  Validator.validate_any Validator.new
    (Validator.mkAnyFields None None None None
       (Some (Validator.DetObject
                (Py.VList [Py.VInt 10; Py.VInt 20; Py.VInt 30; Py.VInt 40])))
       None)
    = Py.Raise Py.AttributeError /\
  Validator.validate_any Validator.new
    (Validator.mkAnyFields None None None None None
       (Some (Validator.DetObject Py.VNone)))
    = Py.Raise Py.AttributeError /\
  Validator.validate_any Validator.new
    (Validator.mkAnyFields
       (Some (Validator.Structured
                (Validator.mkFieldDict (Some (Py.VStr "ABC Motors"))
                   (Some (Py.VStr "high")) None)))
       None None None None None)
    = Py.Raise Py.TypeError.
Proof.
  repeat split.
Qed.

(** X8. An empty document degrades to an empty record and raises
    nothing: with no transcript (missing or empty [full_text]), nothing
    from the secondary source and no detections, every value is [None],
    every confidence 0.0, and both detections are absent without a box,
    whatever the master lists and the confidence threshold are. *)
Theorem empty_document_degrades
    (extractor : FieldExtractor.t) (validator : Validator.t)
    (full_text : option string)
    (Hempty : get_default full_text EmptyString = EmptyString) :
  exists out,
    Pipeline.extract_and_validate extractor validator
      (FieldExtractor.mkOcrResult full_text)
      (FieldExtractor.mkVlmResult None None Py.VNone Py.VNone)
      (FieldExtractor.mkDetectionResult None None) = Py.Ok out /\
    (Validator.dealer_name out = Py.VNone /\
     Validator.model_name out = Py.VNone /\
     Validator.horse_power out = Py.VNone /\
     Validator.asset_cost out = Py.VNone) /\
    (Validator.dealer_name_confidence out = Py.VFloat 0 /\
     Validator.model_name_confidence out = Py.VFloat 0 /\
     Validator.horse_power_confidence out = Py.VFloat 0 /\
     Validator.asset_cost_confidence out = Py.VFloat 0) /\
    Validator.dealer_signature out =
      Validator.mkDetectionPayload (Py.VBool false) Py.VNone (Py.VFloat 0) /\
    Validator.dealer_stamp out =
      Validator.mkDetectionPayload (Py.VBool false) Py.VNone (Py.VFloat 0).
Proof.
  unfold Pipeline.extract_and_validate, FieldExtractor.extract_all_fields.
  cbn [FieldExtractor.full_text]. cbv zeta. rewrite Hempty.
  change (FieldExtractor.extract_horse_power extractor EmptyString
            (FieldExtractor.mkVlmResult None None Py.VNone Py.VNone))
    with (FieldExtractor.hp_scan FieldExtractor.hp_patterns EmptyString).
  replace (FieldExtractor.hp_scan FieldExtractor.hp_patterns EmptyString)
    with (Py.Ok FieldExtractor.no_hp) by (vm_compute; reflexivity).
  change (FieldExtractor.extract_asset_cost extractor EmptyString
            (FieldExtractor.mkVlmResult None None Py.VNone Py.VNone))
    with (Py.Ok (FieldExtractor.cost_from_text EmptyString)).
  replace (FieldExtractor.cost_from_text EmptyString)
    with FieldExtractor.no_cost by (vm_compute; reflexivity).
  cbn [Py.bind].
  unfold Validator.validate, Pipeline.as_raw.
  cbn [Validator.raw_dealer_name Validator.raw_model_name
       Validator.raw_horse_power Validator.raw_asset_cost
       Validator.raw_dealer_signature Validator.raw_dealer_stamp
       FieldExtractor.dealer_name FieldExtractor.model_name
       FieldExtractor.horse_power FieldExtractor.asset_cost
       FieldExtractor.dealer_signature FieldExtractor.dealer_stamp].
  rewrite !validate_name_passes by (left; split; reflexivity).
  cbn [Py.bind]. eexists. split; [reflexivity|]. repeat split.
Qed.

Lemma empty_document_degrades_witness :
  get_default (Some EmptyString) EmptyString = EmptyString /\
  exists out,
    Pipeline.extract_and_validate
      (FieldExtractor.mkFieldExtractor ["ABC Motors"%string] [])
      Validator.new
      (FieldExtractor.mkOcrResult (Some EmptyString))
      (FieldExtractor.mkVlmResult None None Py.VNone Py.VNone)
      (FieldExtractor.mkDetectionResult None None) = Py.Ok out /\
    (Validator.dealer_name out = Py.VNone /\
     Validator.model_name out = Py.VNone /\
     Validator.horse_power out = Py.VNone /\
     Validator.asset_cost out = Py.VNone) /\
    (Validator.dealer_name_confidence out = Py.VFloat 0 /\
     Validator.model_name_confidence out = Py.VFloat 0 /\
     Validator.horse_power_confidence out = Py.VFloat 0 /\
     Validator.asset_cost_confidence out = Py.VFloat 0) /\
    Validator.dealer_signature out =
      Validator.mkDetectionPayload (Py.VBool false) Py.VNone (Py.VFloat 0) /\
    Validator.dealer_stamp out =
      Validator.mkDetectionPayload (Py.VBool false) Py.VNone (Py.VFloat 0).
Proof.
  split; [reflexivity|].
  exact (empty_document_degrades _ _ (Some EmptyString) eq_refl).
Defined.

Section SamePattern.

Import Text Re.

(** The matcher depends on its continuation through its values only. *)
Lemma rmatch_ext (ic : bool) (R : Type) (r : regex) :
  forall (s : list ascii) (cap : capture)
         (k k' : list ascii -> capture -> option R),
    (forall s' c', k s' c' = k' s' c') ->
    rmatch ic R r s cap k = rmatch ic R r s cap k'.
Proof.
  induction r as [|a|cs|r1 IH1 r2 IH2|r1 IH1 r2 IH2|r1 IH1|r1 IH1|r1 IH1];
    intros s cap k k' H; cbn [rmatch].
  - apply H.
  - destruct s as [|x t]; [reflexivity|].
    destruct (lit_matches ic a x); [apply H | reflexivity].
  - destruct s as [|x t]; [reflexivity|].
    destruct (in_charset cs x); [apply H | reflexivity].
  - apply IH1. intros s' c'. apply IH2. exact H.
  - rewrite (IH1 s cap k k' H), (IH2 s cap k k' H). reflexivity.
  - rewrite (IH1 s cap k k' H), (H s cap). reflexivity.
  - generalize (List.length s). intro fuel. revert s cap.
    induction fuel as [|fuel IHf]; intros s cap; [apply H|].
    rewrite (H s cap).
    erewrite IH1; [reflexivity|].
    intros s' c'. cbv beta.
    destruct (List.length s' <? List.length s)%nat; [apply IHf | reflexivity].
  - apply IH1. intros s' c'. apply H.
Qed.

(** Under [re.IGNORECASE] the words [HP] and [hp] match the same text. *)
Lemma lit_HP_hp (R : Type) (s : list ascii) (cap : capture)
    (k : list ascii -> capture -> option R) :
  rmatch true R (lit "HP") s cap k = rmatch true R (lit "hp") s cap k.
Proof.
  destruct s as [|x [|y t]]; reflexivity.
Qed.

Lemma findall_from_same (r1 r2 : regex) :
  (forall s, match_here true r1 s = match_here true r2 s) ->
  forall fuel s, findall_from fuel true r1 s = findall_from fuel true r2 s.
Proof.
  intros H fuel. induction fuel as [|fuel IH]; intro s; [reflexivity|].
  cbn [findall_from]. rewrite (H s).
  destruct (match_here true r2 s) as [[rest cap]|].
  - rewrite (IH rest).
    destruct s as [|c t]; [reflexivity | rewrite (IH t); reflexivity].
  - destruct s as [|c t]; [reflexivity | apply IH].
Qed.

End SamePattern.

(** X9. The second horse-power pattern, [(\d+)\s*hp], is dead code: every
    pattern is applied with [re.IGNORECASE], under which it finds exactly
    the matches of the first pattern, [(\d+)\s*HP]; so it is reached only
    when the first pattern has passed, it then passes too, and no result
    of [extract_horse_power] ever names it. *)
Theorem second_hp_pattern_never_used
    (self : FieldExtractor.t) (ocr_text : string)
    (vlm_result : FieldExtractor.VlmResult) :
  exists first second others,
    FieldExtractor.hp_patterns = first :: second :: others /\
    Re.source first = "(\d+)\s*HP"%string /\
    Re.source second = "(\d+)\s*hp"%string /\
    ~ In (Re.source second) (map Re.source (first :: others)) /\
    Re.findall true (Re.tree second) ocr_text
      = Re.findall true (Re.tree first) ocr_text /\
    forall r,
      FieldExtractor.extract_horse_power self ocr_text vlm_result
        = Py.Ok r ->
      ~ In (FStr (Re.source second)) (explanation r).
Proof.
  assert (Hsame :
    Re.findall true
      (Re.Seq (Re.Group Re.digits1) (Re.Seq Re.spaces (Re.lit "hp"))) ocr_text
    = Re.findall true
        (Re.Seq (Re.Group Re.digits1) (Re.Seq Re.spaces (Re.lit "HP")))
        ocr_text).
  { unfold Re.findall. apply findall_from_same. intro s.
    unfold Re.match_here. cbn [Re.rmatch].
    apply rmatch_ext. intros s1 c1. apply rmatch_ext. intros s2 c2.
    symmetry. apply lit_HP_hp. }
  unfold FieldExtractor.hp_patterns.
  eexists. eexists. eexists. split; [reflexivity|].
  cbn [Re.source Re.tree map].
  split; [reflexivity|]. split; [reflexivity|].
  split; [cbn [In]; intuition discriminate|].
  split; [exact Hsame|].
  intros r. unfold FieldExtractor.extract_horse_power.
  destruct (negb (FieldExtractor.is_none
                    (FieldExtractor.vlm_horse_power vlm_result))).
  { destruct (Py.py_int (FieldExtractor.vlm_horse_power vlm_result))
      as [n|]; [|discriminate].
    cbn [Py.bind]. unfold FieldExtractor.format_int.
    destruct (Z.abs n <? FieldExtractor.int_str_limit); [|discriminate].
    cbn [Py.bind]. intro H. injection H as <-. cbn [explanation In].
    intuition discriminate. }
  unfold FieldExtractor.hp_patterns. cbn [FieldExtractor.hp_scan Re.tree].
  rewrite Hsame.
  repeat match goal with
         | |- context [match Re.findall true ?t ocr_text with _ => _ end] =>
             destruct (Re.findall true t ocr_text) as [|? ?]
         | |- context [Py.bind (Py.py_int ?v) _] =>
             destruct (Py.py_int v) as [?n|]; cbn [Py.bind]
         | |- context [if ?b then _ else _] => destruct b
         end;
    intro H; try discriminate H; injection H as <-;
    cbn [explanation FieldExtractor.no_hp FieldExtractor.hp_from_text
         Re.source In];
    intuition discriminate.
Qed.

Section LongestCommonSubsequence.

Import Text Fuzz.
Local Open Scope nat_scope.

Lemma chars_length (s : string) : List.length (chars s) = String.length s.
Proof. induction s as [|c s IH]; simpl; [reflexivity | rewrite IH; reflexivity]. Qed.

Lemma lcs_row_length (x : ascii) (b : list ascii) :
  forall prev diag left,
    List.length prev = List.length b ->
    List.length (lcs_row x b prev diag left) = List.length b.
Proof.
  induction b as [|y b IH]; intros prev diag left H; [reflexivity|].
  destruct prev as [|up prev]; [discriminate|].
  cbn [lcs_row List.length]. f_equal. apply IH.
  simpl in H. lia.
Qed.

Lemma lcs_row_bounded (x : ascii) (b : list ascii) :
  forall prev diag left i j0,
    Props.row_bounded i (S j0) prev ->
    diag <= i -> diag <= j0 -> left <= S i -> left <= j0 ->
    Props.row_bounded (S i) (S j0) (lcs_row x b prev diag left).
Proof.
  induction b as [|y b IH]; intros prev diag left i j0 Hp Hd1 Hd2 Hl1 Hl2;
    [exact I|].
  destruct prev as [|up prev]; [exact I|].
  destruct Hp as (Hu1 & Hu2 & Hp).
  cbn [lcs_row Props.row_bounded].
  assert (Hv1 : (if Ascii.eqb x y then S diag else Nat.max up left) <= S i)
    by (destruct (Ascii.eqb x y); lia).
  assert (Hv2 : (if Ascii.eqb x y then S diag else Nat.max up left) <= S j0)
    by (destruct (Ascii.eqb x y); lia).
  split; [exact Hv1|]. split; [exact Hv2|].
  apply IH; try assumption; lia.
Qed.

Lemma row_bounded_zero (n j : nat) : Props.row_bounded 0 j (repeat 0 n).
Proof.
  revert j. induction n as [|n IH]; intro j; [exact I|].
  cbn [repeat Props.row_bounded]. split; [lia|]. split; [lia | apply IH].
Qed.

Lemma row_bounded_last (i j : nat) (row : list nat) :
  Props.row_bounded i j row ->
  last row 0 <= i /\ last row 0 <= j + List.length row - 1.
Proof.
  revert j. induction row as [|v t IH]; intros j H; [simpl; lia|].
  destruct H as (H1 & H2 & Ht).
  destruct t as [|w t']; [simpl; lia|].
  specialize (IH (S j) Ht). change (last (v :: w :: t') 0) with (last (w :: t') 0).
  simpl List.length in *. lia.
Qed.

Lemma lcs_fold_bounded (b : list ascii) (a : list ascii) :
  forall row i,
    List.length row = List.length b -> Props.row_bounded i 1 row ->
    let final := fold_left (fun row x => lcs_row x b row 0 0) a row in
    List.length final = List.length b /\
    Props.row_bounded (i + List.length a) 1 final.
Proof.
  induction a as [|x a IH]; intros row i Hlen Hb; cbn [fold_left List.length].
  - rewrite Nat.add_0_r. split; assumption.
  - replace (i + S (List.length a)) with (S i + List.length a) by lia.
    apply IH.
    + apply lcs_row_length. exact Hlen.
    + apply lcs_row_bounded; try assumption; lia.
Qed.

(** The longest common subsequence is no longer than either string. *)
Lemma lcs_le (a b : list ascii) :
  lcs a b <= List.length a /\ lcs a b <= List.length b.
Proof.
  unfold lcs.
  destruct (lcs_fold_bounded b a (repeat 0 (List.length b)) 0)
    as [Hlen Hb].
  - apply repeat_length.
  - apply row_bounded_zero.
  - cbv zeta in Hlen, Hb. apply row_bounded_last in Hb.
    rewrite Hlen in Hb. simpl in Hb.
    destruct (List.length b) eqn:E.
    + assert (Hnil : fold_left (fun row x => lcs_row x b row 0 0) a
                       (repeat 0 0) = []).
      { apply length_zero_iff_nil. rewrite <- E in Hlen.
        destruct b; [|discriminate]. exact Hlen. }
      rewrite Hnil. simpl. lia.
    + lia.
Qed.

Lemma lcs_row_exact (x : ascii) (b : list ascii) :
  forall prev diag left i j0,
    Props.row_exact i (S j0) prev ->
    diag = Nat.min i j0 -> left = Nat.min (S i) j0 ->
    (forall k, j0 + k = i -> nth_error b k = Some x) ->
    Props.row_exact (S i) (S j0) (lcs_row x b prev diag left).
Proof.
  induction b as [|y b IH]; intros prev diag left i j0 Hp Hd Hl Hx;
    [exact I|].
  destruct prev as [|up prev]; [exact I|].
  destruct Hp as (Hu & Hp).
  cbn [lcs_row Props.row_exact].
  assert (Hv : (if Ascii.eqb x y then S diag else Nat.max up left)
               = Nat.min (S i) (S j0)).
  { destruct (Ascii.eqb x y) eqn:E; [lia|].
    assert (j0 <> i).
    { intro Heq. specialize (Hx 0 ltac:(lia)). simpl in Hx.
      injection Hx as ->. rewrite Ascii.eqb_refl in E. discriminate. }
    lia. }
  split; [exact Hv|].
  apply IH; try assumption.
  intros k Hk. apply (Hx (S k)). lia.
Qed.

Lemma row_exact_zero (n j : nat) : Props.row_exact 0 j (repeat 0 n).
Proof.
  revert j. induction n as [|n IH]; intro j; [exact I|].
  cbn [repeat Props.row_exact]. split; [reflexivity | apply IH].
Qed.

Lemma row_exact_last (i j : nat) (row : list nat) :
  Props.row_exact i j row -> row <> [] ->
  last row 0 = Nat.min i (j + List.length row - 1).
Proof.
  revert j. induction row as [|v t IH]; intros j H Hne; [congruence|].
  destruct H as (Hv & Ht).
  destruct t as [|w t'].
  - simpl. rewrite Hv. f_equal. lia.
  - change (last (v :: w :: t') 0) with (last (w :: t') 0).
    rewrite (IH (S j) Ht) by discriminate. f_equal. simpl List.length. lia.
Qed.

Lemma lcs_fold_exact (a : list ascii) (suffix : list ascii) :
  forall pre row,
    a = pre ++ suffix ->
    List.length row = List.length a -> Props.row_exact (List.length pre) 1 row ->
    let final := fold_left (fun row x => lcs_row x a row 0 0) suffix row in
    List.length final = List.length a /\
    Props.row_exact (List.length a) 1 final.
Proof.
  induction suffix as [|x suffix IH]; intros pre row Ha Hlen Hr;
    cbn [fold_left].
  - rewrite app_nil_r in Ha. subst pre. split; assumption.
  - apply (IH (pre ++ [x])).
    + rewrite <- app_assoc. exact Ha.
    + apply lcs_row_length. exact Hlen.
    + rewrite length_app. cbn [List.length]. rewrite Nat.add_1_r.
      apply lcs_row_exact; try assumption; try lia.
      intros k Hk. simpl in Hk. subst k a.
      rewrite nth_error_app2 by lia. rewrite Nat.sub_diag. reflexivity.
Qed.

(** A string shares the whole of itself with itself. *)
Lemma lcs_self (a : list ascii) : lcs a a = List.length a.
Proof.
  unfold lcs.
  destruct (lcs_fold_exact a a [] (repeat 0 (List.length a)) eq_refl)
    as [Hlen Hr].
  - apply repeat_length.
  - apply row_exact_zero.
  - cbv zeta in Hlen, Hr.
    destruct a as [|c a']; [reflexivity|].
    rewrite (row_exact_last _ _ _ Hr).
    + rewrite Hlen. lia.
    + intro E. rewrite E in Hlen. discriminate.
Qed.

End LongestCommonSubsequence.

Section RatioBounds.

Import Text Fuzz.

Lemma ratio_bounds (s1 s2 : string) :
  (0 <= ratio s1 s2 /\ ratio s1 s2 <= 100)%Q.
Proof.
  unfold ratio.
  destruct (lcs_le (chars s1) (chars s2)) as [H1 H2].
  rewrite !chars_length in *.
  destruct (String.length s1 + String.length s2)%nat eqn:E.
  - split; unfold Qle; simpl; lia.
  - assert (Hpos : (0 < inject_Z (Z.of_nat (S n)))%Q)
      by (unfold Qlt; simpl; lia).
    split.
    + apply Qle_shift_div_l; [exact Hpos|].
      unfold Qle, Qmult, inject_Z. cbn [Qnum Qden]. lia.
    + apply Qle_shift_div_r; [exact Hpos|].
      unfold Qle, Qmult, inject_Z. cbn [Qnum Qden]. lia.
Qed.

Lemma ratio_self (s : string) : (ratio s s == 100)%Q.
Proof.
  apply Qle_antisym; [apply ratio_bounds|].
  unfold ratio. rewrite lcs_self, chars_length.
  destruct (String.length s + String.length s)%nat eqn:E;
    [apply Qle_refl|].
  apply Qle_shift_div_l; [unfold Qlt; simpl; lia|].
  unfold Qle, Qmult, inject_Z. cbn [Qnum Qden]. lia.
Qed.

End RatioBounds.

Section ConfidenceRange.

Import Py Re Fuzz FieldExtractor Props.

Lemma div100_unit (s : Q) :
  (0 <= s)%Q -> (s <= 100)%Q -> (0 <= s / 100 /\ s / 100 <= 1)%Q.
Proof.
  intros H0 H1. split.
  - apply Qle_shift_div_l; [reflexivity|]. rewrite Qmult_0_l. exact H0.
  - apply Qle_shift_div_r; [reflexivity|]. rewrite Qmult_1_l. exact H1.
Qed.

Lemma reconcile_dealer_unit (self : FieldExtractor.t)
    (candidates : list string) :
  (0 <= confidence (reconcile_dealer self candidates) /\
   confidence (reconcile_dealer self candidates) <= 1)%Q.
Proof.
  pose proof (dealer_loop_inv self candidates) as Hinv.
  unfold reconcile_dealer.
  destruct (dealer_loop self candidates) as [[bm bs] bc].
  destruct Hinv as (H0 & _ & Hwit). unfold dealer_result.
  destruct (Qleb 90 bs); cbn [confidence];
    [|split; unfold Qle; simpl; lia].
  apply div100_unit; [exact H0|].
  destruct Hwit as [(_ & _ & ->)|(c & r & _ & _ & _ & _ & _ & ->)].
  - unfold Qle. simpl. lia.
  - apply ratio_bounds.
Qed.

Lemma reconcile_model_unit (self : FieldExtractor.t)
    (candidates : list string) :
  (0 <= confidence (reconcile_model self candidates) /\
   confidence (reconcile_model self candidates) <= 1)%Q.
Proof.
  induction candidates as [|c rest IH]; cbn [reconcile_model].
  - split; unfold Qle; simpl; lia.
  - destruct (negb (str_truthy c)); [exact IH|].
    destruct (in_master c (asset_master self)).
    + split; unfold Qle; simpl; lia.
    + destruct (extractOne c (asset_master self)) as [[m s]|] eqn:E;
        [|exact IH].
      destruct (Qleb 95 s); [|exact IH]. cbn [confidence].
      apply extractOne_best in E. destruct E as (_ & -> & _).
      apply div100_unit; apply ratio_bounds.
Qed.

Lemma hp_scan_unit (ocr_text : string) (patterns : list pattern)
    (r : FieldResult) :
  hp_scan patterns ocr_text = Ok r ->
  (0 <= confidence r /\ confidence r <= 1)%Q.
Proof.
  induction patterns as [|p rest IH]; cbn [hp_scan].
  - intro H. injection H as <-. split; unfold Qle; simpl; lia.
  - destruct (findall true (tree p) ocr_text) as [|first others]; [exact IH|].
    destruct (py_int (VStr first)) as [v|]; [|discriminate]. cbn [bind].
    destruct ((20 <=? v) && (v <=? 150)); [|exact IH].
    intro H. injection H as <-. split; unfold Qle; simpl; lia.
Qed.

End ConfidenceRange.

(** X10. Every result the extractors return has a confidence within
    [0, 1]: a fuzzy match divides a similarity that lies within 0..100 by
    100, and the other confidences are the constants 0, 0.85, 0.9
    and 1. *)
Theorem extracted_confidences_in_unit_interval
    (self : FieldExtractor.t) (ocr_result : FieldExtractor.OcrResult)
    (vlm_result : FieldExtractor.VlmResult)
    (detection_result : FieldExtractor.DetectionResult)
    (fields : FieldExtractor.Fields)
    (Hfields : FieldExtractor.extract_all_fields self ocr_result vlm_result
                 detection_result = Py.Ok fields) :
  forall r,
    In r [FieldExtractor.dealer_name fields; FieldExtractor.model_name fields;
          FieldExtractor.horse_power fields; FieldExtractor.asset_cost fields]
    -> (0 <= confidence r /\ confidence r <= 1)%Q.
Proof.
  revert Hfields. unfold FieldExtractor.extract_all_fields. cbv zeta.
  set (ocr_text := get_default (FieldExtractor.full_text ocr_result)
                     EmptyString).
  destruct (FieldExtractor.extract_horse_power self ocr_text vlm_result)
    as [hp|] eqn:Hhp; [|discriminate].
  destruct (FieldExtractor.extract_asset_cost self ocr_text vlm_result)
    as [cost|] eqn:Hcost; [|discriminate].
  cbn [Py.bind]. intro H. injection H as <-.
  cbn [FieldExtractor.dealer_name FieldExtractor.model_name
       FieldExtractor.horse_power FieldExtractor.asset_cost].
  intros r [<-|[<-|[<-|[<-|[]]]]].
  - apply reconcile_dealer_unit.
  - apply reconcile_model_unit.
  - revert Hhp. unfold FieldExtractor.extract_horse_power.
    destruct (negb (FieldExtractor.is_none
                      (FieldExtractor.vlm_horse_power vlm_result))).
    + destruct (Py.py_int (FieldExtractor.vlm_horse_power vlm_result))
        as [n|]; [|discriminate].
      cbn [Py.bind]. destruct (FieldExtractor.format_int n); [|discriminate].
      cbn [Py.bind]. intro H. injection H as <-.
      split; unfold Qle; simpl; lia.
    + apply hp_scan_unit.
  - revert Hcost. unfold FieldExtractor.extract_asset_cost.
    destruct (negb (FieldExtractor.is_none
                      (FieldExtractor.vlm_asset_cost vlm_result))).
    + destruct (Py.py_float (FieldExtractor.vlm_asset_cost vlm_result));
        [|discriminate].
      destruct (FieldExtractor.format_money
                  (FieldExtractor.vlm_asset_cost vlm_result));
        [|discriminate].
      cbn [Py.bind]. intro H. injection H as <-.
      split; unfold Qle; simpl; lia.
    + intro H. injection H as <-.
      destruct (cost_from_text_spec ocr_text)
        as [[_ ->]|(v & p & _ & _ & ->)];
        split; unfold Qle; simpl; lia.
Qed.

Lemma extracted_confidences_in_unit_interval_witness :
  let self :=
    FieldExtractor.mkFieldExtractor ["ABC Motors Pvt. Ltd."%string] [] in
  let ocr_result :=
    FieldExtractor.mkOcrResult (Some "ABC Motors Pvt Ltd
45 HP"%string) in
  let vlm_result := FieldExtractor.mkVlmResult None None Py.VNone Py.VNone in
  let detection_result := FieldExtractor.mkDetectionResult None None in
  exists fields,
    FieldExtractor.extract_all_fields self ocr_result vlm_result
      detection_result = Py.Ok fields /\
    confidence (FieldExtractor.dealer_name fields) = (3600 # 3800)%Q /\
    (0 <= confidence (FieldExtractor.dealer_name fields) /\
     confidence (FieldExtractor.dealer_name fields) <= 1)%Q.
Proof.
  intros self ocr_result vlm_result detection_result.
  assert (E : exists fields,
             FieldExtractor.extract_all_fields self ocr_result vlm_result
               detection_result = Py.Ok fields /\
             confidence (FieldExtractor.dealer_name fields)
               = (3600 # 3800)%Q).
  { eexists. split; [vm_compute; reflexivity | reflexivity]. }
  destruct E as (fields & Hf & Hc).
  exists fields. split; [exact Hf|]. split; [exact Hc|].
  apply (extracted_confidences_in_unit_interval self ocr_result vlm_result
           detection_result fields Hf).
  left. reflexivity.
Defined.

(** X11. A candidate that is spelled exactly like a reference entry is
    always accepted by the dealer reconciliation: the best score is then
    100, the value is a reference entry at similarity 100 to a candidate
    and the confidence equals 1, whatever the other candidates are. *)
Theorem exact_dealer_candidate_accepted
    (self : FieldExtractor.t) (candidates : list string) (c : string)
    (Hc : In c candidates) (Hne : FieldExtractor.str_truthy c = true)
    (Href : In c (FieldExtractor.dealer_master self)) :
  exists c' r,
    In c' candidates /\ In r (FieldExtractor.dealer_master self) /\
    (Fuzz.ratio c' r == 100)%Q /\
    value (FieldExtractor.reconcile_dealer self candidates) = Py.VStr r /\
    (confidence (FieldExtractor.reconcile_dealer self candidates) == 1)%Q.
Proof.
  pose proof (dealer_loop_inv self candidates) as Hinv.
  unfold FieldExtractor.reconcile_dealer.
  destruct (FieldExtractor.dealer_loop self candidates) as [[bm bs] bc].
  pose proof Hinv as (H0 & Hmax & _).
  assert (H100 : (100 <= bs)%Q).
  { rewrite <- (ratio_self c). exact (Hmax c c Hc Hne Href). }
  assert (H90 : (90 <= bs)%Q).
  { apply Qle_trans with 100%Q; [unfold Qle; simpl; lia | exact H100]. }
  destruct (dealer_accepted_triple self candidates bm bs bc Hinv H90)
    as (c' & r & Hc' & _ & Hr & -> & -> & Hs).
  assert (Hbs : (bs == 100)%Q).
  { apply Qle_antisym; [|exact H100]. rewrite Hs. apply ratio_bounds. }
  exists c', r. split; [exact Hc'|]. split; [exact Hr|].
  split; [rewrite <- Hs; exact Hbs|].
  unfold FieldExtractor.dealer_result.
  apply Qleb_le in H90. rewrite H90. cbn [value confidence].
  split; [reflexivity|]. rewrite Hbs. reflexivity.
Qed.

Lemma exact_dealer_candidate_accepted_witness :
  let self :=
    FieldExtractor.mkFieldExtractor ["XYZ Tractors"; "ABC Motors"]%string [] in
  let candidates := ["ABC Motor"; "ABC Motors"]%string in
  In "ABC Motors"%string candidates /\
  FieldExtractor.str_truthy "ABC Motors" = true /\
  In "ABC Motors"%string (FieldExtractor.dealer_master self) /\
  exists c' r,
    In c' candidates /\ In r (FieldExtractor.dealer_master self) /\
    (Fuzz.ratio c' r == 100)%Q /\
    value (FieldExtractor.reconcile_dealer self candidates) = Py.VStr r /\
    (confidence (FieldExtractor.reconcile_dealer self candidates) == 1)%Q.
Proof.
  intros self candidates.
  assert (Hc : In "ABC Motors"%string candidates) by (right; left; reflexivity).
  assert (Hr : In "ABC Motors"%string (FieldExtractor.dealer_master self))
    by (right; left; reflexivity).
  split; [exact Hc|]. split; [reflexivity|]. split; [exact Hr|].
  exact (exact_dealer_candidate_accepted self candidates "ABC Motors"
           Hc eq_refl Hr).
Defined.

Section Detector.

Import Py SignatureStampDetector.

Lemma record_box_keeps (st : Detections) (box : Box) :
  Props.detected_or_nothing (fst st) -> Props.detected_or_nothing (snd st) ->
  Props.detected_or_nothing (fst (record_box st box)) /\
  Props.detected_or_nothing (snd (record_box st box)).
Proof.
  intros H1 H2. unfold record_box. cbv zeta.
  assert (Hfound :
    Props.detected_or_nothing
      {| present := Some (VBool true);
         bbox := Some (VList [VInt (Qtrunc (x1 box)); VInt (Qtrunc (y1 box));
                              VInt (Qtrunc (x2 box - x1 box));
                              VInt (Qtrunc (y2 box - y1 box))]);
         det_confidence := Some (VFloat (conf box)) |}).
  { right. do 5 eexists. reflexivity. }
  destruct (Qtrunc (cls box) =? 0); [split; assumption|].
  destruct (Qtrunc (cls box) =? 1); split; assumption.
Qed.

Lemma fold_record_box_keeps (boxes : list Box) (st : Detections) :
  Props.detected_or_nothing (fst st) -> Props.detected_or_nothing (snd st) ->
  Props.detected_or_nothing (fst (fold_left record_box boxes st)) /\
  Props.detected_or_nothing (snd (fold_left record_box boxes st)).
Proof.
  revert st. induction boxes as [|b boxes IH]; intros st H1 H2;
    [split; assumption|].
  cbn [fold_left]. destruct (record_box_keeps st b H1 H2) as [K1 K2].
  exact (IH _ K1 K2).
Qed.

Lemma detect_keeps (results : list (list Box)) :
  exists s t,
    detect results = FieldExtractor.mkDetectionResult (Some s) (Some t) /\
    Props.detected_or_nothing s /\ Props.detected_or_nothing t.
Proof.
  unfold detect. cbv zeta. do 2 eexists. split; [reflexivity|].
  assert (H0 : Props.detected_or_nothing (nothing 0)) by (left; reflexivity).
  destruct results as [|boxes rest]; [split; exact H0|].
  exact (fold_record_box_keeps boxes (nothing 0, nothing 0) H0 H0).
Qed.

(** The flag of the signature after the loop: set exactly when a box of
    class 0 was seen, or set before. *)
Lemma fold_signature_present (boxes : list Box) (st : Detections) :
  (present (fst st) = Some (VBool true) \/
   present (fst st) = Some (VBool false)) ->
  (present (fst (fold_left record_box boxes st)) = Some (VBool true) /\
   (present (fst st) = Some (VBool true) \/
    exists b, In b boxes /\ Qtrunc (cls b) = 0)) \/
  (present (fst (fold_left record_box boxes st)) = Some (VBool false) /\
   present (fst st) = Some (VBool false) /\
   forall b, In b boxes -> Qtrunc (cls b) <> 0).
Proof.
  revert st. induction boxes as [|b boxes IH]; intros st H.
  - cbn [fold_left]. destruct H as [H|H].
    + left. split; [exact H | left; exact H].
    + right. split; [exact H|]. split; [exact H | intros b []].
  - cbn [fold_left].
    assert (Hstep :
      (Qtrunc (cls b) = 0 /\
       present (fst (record_box st b)) = Some (VBool true)) \/
      (Qtrunc (cls b) <> 0 /\
       present (fst (record_box st b)) = present (fst st))).
    { unfold record_box. cbv zeta.
      destruct (Z.eqb_spec (Qtrunc (cls b)) 0) as [E|E].
      - left. split; [exact E | reflexivity].
      - right. split; [exact E|].
        destruct (Qtrunc (cls b) =? 1); reflexivity. }
    destruct Hstep as [[E Hp]|[E Hp]].
    + destruct (IH (record_box st b) (or_introl Hp))
        as [[K _]|[K [K' _]]]; [|congruence].
      left. split; [exact K|]. right. exists b. split; [left; reflexivity|exact E].
    + rewrite <- Hp in H.
      destruct (IH (record_box st b) H) as [[K [K'|(b' & Hb' & E')]]|[K [K' Hall]]].
      * left. split; [exact K|]. left. rewrite <- Hp. exact K'.
      * left. split; [exact K|]. right. exists b'. split; [right; exact Hb'|exact E'].
      * right. split; [exact K|]. split; [rewrite <- Hp; exact K'|].
        intros b' [<-|Hb']; [exact E | exact (Hall b' Hb')].
Qed.

Lemma fold_stamp_present (boxes : list Box) (st : Detections) :
  (present (snd st) = Some (VBool true) \/
   present (snd st) = Some (VBool false)) ->
  (present (snd (fold_left record_box boxes st)) = Some (VBool true) /\
   (present (snd st) = Some (VBool true) \/
    exists b, In b boxes /\ Qtrunc (cls b) = 1)) \/
  (present (snd (fold_left record_box boxes st)) = Some (VBool false) /\
   present (snd st) = Some (VBool false) /\
   forall b, In b boxes -> Qtrunc (cls b) <> 1).
Proof.
  revert st. induction boxes as [|b boxes IH]; intros st H.
  - cbn [fold_left]. destruct H as [H|H].
    + left. split; [exact H | left; exact H].
    + right. split; [exact H|]. split; [exact H | intros b []].
  - cbn [fold_left].
    assert (Hstep :
      (Qtrunc (cls b) = 1 /\
       present (snd (record_box st b)) = Some (VBool true)) \/
      (Qtrunc (cls b) <> 1 /\
       present (snd (record_box st b)) = present (snd st))).
    { unfold record_box. cbv zeta.
      destruct (Z.eqb_spec (Qtrunc (cls b)) 0) as [E|E].
      - right. split; [lia | reflexivity].
      - destruct (Z.eqb_spec (Qtrunc (cls b)) 1) as [E1|E1].
        + left. split; [exact E1 | reflexivity].
        + right. split; [exact E1 | reflexivity]. }
    destruct Hstep as [[E Hp]|[E Hp]].
    + destruct (IH (record_box st b) (or_introl Hp))
        as [[K _]|[K [K' _]]]; [|congruence].
      left. split; [exact K|]. right. exists b. split; [left; reflexivity|exact E].
    + rewrite <- Hp in H.
      destruct (IH (record_box st b) H) as [[K [K'|(b' & Hb' & E')]]|[K [K' Hall]]].
      * left. split; [exact K|]. left. rewrite <- Hp. exact K'.
      * left. split; [exact K|]. right. exists b'. split; [right; exact Hb'|exact E'].
      * right. split; [exact K|]. split; [rewrite <- Hp; exact K'|].
        intros b' [<-|Hb']; [exact E | exact (Hall b' Hb')].
Qed.

End Detector.

Section DetectorThroughPipeline.

Import Py.

Lemma validate_detection_consistent (d : DetDict) :
  Props.detected_or_nothing d ->
  Props.payload_consistent (Validator.validate_detection (Some d)).
Proof.
  intros [->|(c & x & y & w & h & ->)].
  - left. repeat split.
  - right. split; [reflexivity|].
    unfold Validator.validate_detection.
    cbn [get_default bbox get Validator.dp_bbox].
    rewrite (validate_bbox_numbers (VInt x) (VInt y) (VInt w) (VInt h)
               (inject_Z x) (inject_Z y) (inject_Z w) (inject_Z h)
               eq_refl eq_refl eq_refl eq_refl).
    destruct (Qleb 0 (inject_Z x) && Qleb 0 (inject_Z y)
              && Qltb 0 (inject_Z w) && Qltb 0 (inject_Z h)) eqn:E;
      [|left; reflexivity].
    right. exists x, y, w, h.
    apply andb_true_iff in E. destruct E as [E Bh].
    apply andb_true_iff in E. destruct E as [E Bw].
    apply andb_true_iff in E. destruct E as [Bx By].
    apply Qleb_le in Bx, By. apply Qltb_lt in Bw, Bh.
    rewrite !Qtrunc_inject_Z.
    unfold Qle in Bx, By. unfold Qlt in Bw, Bh. simpl in Bx, By, Bw, Bh.
    repeat split; try lia.
Qed.

(** The detections in the result of the two steps are the validated
    detections of the detector (or of the defaults). *)
Lemma extract_and_validate_detections
    (extractor : FieldExtractor.t) (validator : Validator.t)
    (ocr_result : FieldExtractor.OcrResult)
    (vlm_result : FieldExtractor.VlmResult)
    (detection_result : FieldExtractor.DetectionResult)
    (out : Validator.Validated) :
  Pipeline.extract_and_validate extractor validator ocr_result vlm_result
    detection_result = Ok out ->
  Validator.dealer_signature out =
    Validator.validate_detection
      (Some (get_default (FieldExtractor.signature detection_result)
               FieldExtractor.absent_detection)) /\
  Validator.dealer_stamp out =
    Validator.validate_detection
      (Some (get_default (FieldExtractor.stamp detection_result)
               FieldExtractor.absent_detection)).
Proof.
  unfold Pipeline.extract_and_validate, FieldExtractor.extract_all_fields.
  cbv zeta.
  destruct (FieldExtractor.extract_horse_power extractor _ vlm_result)
    as [hp|]; [|discriminate].
  destruct (FieldExtractor.extract_asset_cost extractor _ vlm_result)
    as [cost|]; [|discriminate].
  cbn [bind]. intro H.
  destruct (validate_entries validator _ out H) as (_ & _ & _ & _ & Hs & Ht).
  split; [exact Hs | exact Ht].
Qed.

End DetectorThroughPipeline.

(** X12. On the detections that [detect] reads off the boxes of the
    detection model, the validated payloads keep the invariant of the
    payload, for every list of boxes: a payload that is not present has
    no box and confidence 0.0, and a payload that is present has no box
    or a box of four integers with [x >= 0], [y >= 0], [w > 0],
    [h > 0]. *)
Theorem detector_payloads_consistent
    (extractor : FieldExtractor.t) (validator : Validator.t)
    (ocr_result : FieldExtractor.OcrResult)
    (vlm_result : FieldExtractor.VlmResult)
    (results : list (list SignatureStampDetector.Box))
    (out : Validator.Validated)
    (Hout : Pipeline.extract_and_validate extractor validator ocr_result
              vlm_result (SignatureStampDetector.detect results)
            = Py.Ok out) :
  Props.payload_consistent (Validator.dealer_signature out) /\
  Props.payload_consistent (Validator.dealer_stamp out).
Proof.
  destruct (extract_and_validate_detections _ _ _ _ _ _ Hout) as [Hs Ht].
  destruct (detect_keeps results) as (s & t & E & Ks & Kt).
  rewrite E in Hs, Ht.
  cbn [FieldExtractor.signature FieldExtractor.stamp get_default] in Hs, Ht.
  rewrite Hs, Ht.
  split; apply validate_detection_consistent; assumption.
Qed.

Lemma detector_payloads_consistent_witness :
  let results :=
    [[SignatureStampDetector.mkBox 0 0.8 10.5 20.2 110.9 50;
      SignatureStampDetector.mkBox 1 0.6 5 5 5.5 9]]%Q in
  exists out,
    Pipeline.extract_and_validate (FieldExtractor.mkFieldExtractor [] [])
      Validator.new (FieldExtractor.mkOcrResult None)
      (FieldExtractor.mkVlmResult None None Py.VNone Py.VNone)
      (SignatureStampDetector.detect results) = Py.Ok out /\
    Validator.dealer_signature out =
      Validator.mkDetectionPayload (Py.VBool true)
        (Py.VList [Py.VInt 10; Py.VInt 20; Py.VInt 100; Py.VInt 29])
        (Py.VFloat 0.8) /\
    Validator.dealer_stamp out =
      Validator.mkDetectionPayload (Py.VBool true) Py.VNone (Py.VFloat 0.6) /\
    Props.payload_consistent (Validator.dealer_signature out) /\
    Props.payload_consistent (Validator.dealer_stamp out).
Proof.
  intro results.
  assert (E : exists out,
    Pipeline.extract_and_validate (FieldExtractor.mkFieldExtractor [] [])
      Validator.new (FieldExtractor.mkOcrResult None)
      (FieldExtractor.mkVlmResult None None Py.VNone Py.VNone)
      (SignatureStampDetector.detect results) = Py.Ok out /\
    Validator.dealer_signature out =
      Validator.mkDetectionPayload (Py.VBool true)
        (Py.VList [Py.VInt 10; Py.VInt 20; Py.VInt 100; Py.VInt 29])
        (Py.VFloat 0.8) /\
    Validator.dealer_stamp out =
      Validator.mkDetectionPayload (Py.VBool true) Py.VNone (Py.VFloat 0.6)).
  { eexists. split; [vm_compute; reflexivity|]. split; reflexivity. }
  destruct E as (out & Hout & Hs & Ht).
  exists out. split; [exact Hout|]. split; [exact Hs|]. split; [exact Ht|].
  exact (detector_payloads_consistent _ _ _ _ results out Hout).
Defined.

(** X13. When the detection model has run, the formatted output explains
    a detection as [Detected] exactly when the model reported a box of
    its class for the first image (class 0 for the signature, class 1 for
    the stamp), and as [Not detected] otherwise; the flag [present] in
    the output fields says the same.  An invalid box does not change
    it. *)
Theorem detected_iff_box_of_class
    (round : Q -> Z -> Q)
    (extractor : FieldExtractor.t) (validator : Validator.t)
    (doc_id : string) (ocr : option (list (list OCRExtractor.Line)))
    (vlm_result : FieldExtractor.VlmResult)
    (results : list (list SignatureStampDetector.Box))
    (processing_time estimated_cost : Q)
    (output : OutputFormatter.Output)
    (Hout : Document.process round extractor validator doc_id ocr vlm_result
              results processing_time estimated_cost = Py.Ok output) :
  let fields := OutputFormatter.fields output in
  let explanations := OutputFormatter.explanations output in
  (Props.has_class 0 results ->
   OutputFormatter.expl_dealer_signature explanations = [FLit "Detected"] /\
   OutputFormatter.det_present (OutputFormatter.out_dealer_signature fields)
     = Py.VBool true) /\
  (~ Props.has_class 0 results ->
   OutputFormatter.expl_dealer_signature explanations
     = [FLit "Not detected"] /\
   OutputFormatter.det_present (OutputFormatter.out_dealer_signature fields)
     = Py.VBool false) /\
  (Props.has_class 1 results ->
   OutputFormatter.expl_dealer_stamp explanations = [FLit "Detected"] /\
   OutputFormatter.det_present (OutputFormatter.out_dealer_stamp fields)
     = Py.VBool true) /\
  (~ Props.has_class 1 results ->
   OutputFormatter.expl_dealer_stamp explanations = [FLit "Not detected"] /\
   OutputFormatter.det_present (OutputFormatter.out_dealer_stamp fields)
     = Py.VBool false).
Proof.
  revert Hout. unfold Document.process.
  destruct (Pipeline.extract_and_validate extractor validator
              (OCRExtractor.extract ocr) vlm_result
              (SignatureStampDetector.detect results)) as [v|] eqn:E;
    [|discriminate].
  cbn [Py.bind]. intro H. injection H as <-.
  destruct (extract_and_validate_detections _ _ _ _ _ _ E) as [Hs Ht].
  cbv zeta.
  unfold OutputFormatter.format, OutputFormatter.of_validated,
    OutputFormatter.detection_explanation, OutputFormatter.detection_of,
    OutputFormatter.payload_dict.
  cbn [OutputFormatter.fields OutputFormatter.explanations
       OutputFormatter.expl_dealer_signature OutputFormatter.expl_dealer_stamp
       OutputFormatter.out_dealer_signature OutputFormatter.out_dealer_stamp
       OutputFormatter.det_present OutputFormatter.dealer_signature
       OutputFormatter.dealer_stamp get_default present get].
  rewrite Hs, Ht. unfold Validator.validate_detection.
  cbn [Validator.dp_present get_default].
  unfold SignatureStampDetector.detect. cbv zeta.
  cbn [FieldExtractor.signature FieldExtractor.stamp get_default].
  unfold Props.has_class, Props.first_image.
  set (st0 := (SignatureStampDetector.nothing 0,
               SignatureStampDetector.nothing 0)).
  destruct results as [|boxes rest].
  - cbn [fst snd SignatureStampDetector.nothing present get_default
         Py.truthy].
    split; [|split; [|split]].
    + intros (b & [] & _).
    + intros _. split; reflexivity.
    + intros (b & [] & _).
    + intros _. split; reflexivity.
  - pose proof (fold_signature_present boxes st0 (or_intror eq_refl)) as Ks.
    pose proof (fold_stamp_present boxes st0 (or_intror eq_refl)) as Kt.
    split; [|split; [|split]].
    + intros Hc. destruct Ks as [[-> _]|[_ [_ Hall]]];
        [split; reflexivity|].
      destruct Hc as (b & Hb & Hz). exfalso. exact (Hall b Hb Hz).
    + intros Hc. destruct Ks as [[_ [K|K]]|[-> _]];
        [discriminate K | contradiction | split; reflexivity].
    + intros Hc. destruct Kt as [[-> _]|[_ [_ Hall]]];
        [split; reflexivity|].
      destruct Hc as (b & Hb & Hz). exfalso. exact (Hall b Hb Hz).
    + intros Hc. destruct Kt as [[_ [K|K]]|[-> _]];
        [discriminate K | contradiction | split; reflexivity].
Qed.

Lemma detected_iff_box_of_class_witness :
  let results :=
    [[SignatureStampDetector.mkBox 0 0.8 10.5 20.2 110.9 50]]%Q in
  exists output,
    Document.process (fun x _ => x) (FieldExtractor.mkFieldExtractor [] [])
      Validator.new "doc"%string None
      (FieldExtractor.mkVlmResult None None Py.VNone Py.VNone)
      results 0 0 = Py.Ok output /\
    Props.has_class 0 results /\ ~ Props.has_class 1 results /\
    OutputFormatter.expl_dealer_signature (OutputFormatter.explanations output)
      = [FLit "Detected"] /\
    OutputFormatter.expl_dealer_stamp (OutputFormatter.explanations output)
      = [FLit "Not detected"].
Proof.
  intro results.
  assert (E : exists output,
    Document.process (fun x _ => x) (FieldExtractor.mkFieldExtractor [] [])
      Validator.new "doc"%string None
      (FieldExtractor.mkVlmResult None None Py.VNone Py.VNone)
      results 0 0 = Py.Ok output).
  { eexists. vm_compute. reflexivity. }
  destruct E as (output & Hout).
  assert (H0 : Props.has_class 0 results).
  { eexists. split; [left; reflexivity | reflexivity]. }
  assert (H1 : ~ Props.has_class 1 results).
  { intros (b & [<-|[]] & Hb). vm_compute in Hb. discriminate Hb. }
  exists output. split; [exact Hout|]. split; [exact H0|]. split; [exact H1|].
  destruct (detected_iff_box_of_class _ _ _ _ _ _ _ _ _ output Hout)
    as (Ks & _ & _ & Kt).
  split; [exact (proj1 (Ks H0)) | exact (proj1 (Kt H1))].
Defined.

Section ResponseParser.

Import Text VLMExtractor.

Lemma parsed_name_set (raw : string) :
  not_found (strip raw) = false -> Props.parsed_name (Some (strip raw)).
Proof.
  intros H v E. injection E as <-. split.
  - intro E. unfold not_found in H. rewrite E in H. discriminate.
  - apply strip_idem.
Qed.

Lemma parse_line_keeps (f : Fields) (raw : string) :
  Props.parsed_name (dealer_name f) -> Props.parsed_name (model_name f) ->
  Props.parsed_name (dealer_name (parse_line f raw)) /\
  Props.parsed_name (model_name (parse_line f raw)) /\
  vlm_raw_response (parse_line f raw) = vlm_raw_response f /\
  vlm_available (parse_line f raw) = vlm_available f.
Proof.
  intros Hd Hm. unfold parse_line. cbv zeta.
  assert (Hsame : Props.parsed_name (dealer_name f) /\ Props.parsed_name (model_name f) /\
                  vlm_raw_response f = vlm_raw_response f /\
                  vlm_available f = vlm_available f)
    by (split; [exact Hd|]; split; [exact Hm|]; split; reflexivity).
  destruct (startswith (strip raw) "DEALER_NAME:").
  { destruct (not_found (strip (after_colon (strip raw)))) eqn:E;
      cbn [negb]; [exact Hsame|].
    cbn [set_dealer_name dealer_name model_name vlm_raw_response vlm_available].
    split; [apply parsed_name_set; exact E|]. split; [exact Hm|].
    split; reflexivity. }
  destruct (startswith (strip raw) "MODEL_NAME:").
  { destruct (not_found (strip (after_colon (strip raw)))) eqn:E;
      cbn [negb]; [exact Hsame|].
    cbn [set_model_name dealer_name model_name vlm_raw_response vlm_available].
    split; [exact Hd|]. split; [apply parsed_name_set; exact E|].
    split; reflexivity. }
  destruct (startswith (strip raw) "HORSE_POWER:").
  { destruct (negb (not_found (strip (after_colon (strip raw)))));
      [|exact Hsame].
    destruct (py_float_of_str (strip (after_colon (strip raw))));
      exact Hsame. }
  destruct (startswith (strip raw) "ASSET_COST:").
  { destruct (negb (not_found (strip (after_colon (strip raw)))));
      [|exact Hsame].
    destruct (py_float_of_str
                (remove_char ","%char (strip (after_colon (strip raw)))));
      exact Hsame. }
  exact Hsame.
Qed.

Lemma finite_or_infinity_double (q q' : Q) :
  finite_or_infinity q = Finite q' ->
  (- inject_Z Py.float_overflow < q')%Q /\
  (q' < inject_Z Py.float_overflow)%Q.
Proof.
  unfold finite_or_infinity, overflow_bound.
  destruct (Py.Qleb (inject_Z Py.float_overflow) q) eqn:Hhi; [discriminate|].
  destruct (Py.Qleb q (- inject_Z Py.float_overflow)) eqn:Hlo;
    [discriminate|].
  intro E. injection E as <-.
  apply Qleb_gt in Hhi, Hlo. split; assumption.
Qed.

Lemma py_float_of_str_double (s : string) (q : Q) :
  py_float_of_str s = Some (Finite q) ->
  (- inject_Z Py.float_overflow < q)%Q /\
  (q < inject_Z Py.float_overflow)%Q.
Proof.
  unfold py_float_of_str.
  destruct (special_float s) as [f|] eqn:E.
  - intro H. injection H as ->. revert E. unfold special_float.
    destruct (split_sign (trim_chars (chars s))) as [negative body].
    destruct (chars_eqb _ _ || chars_eqb _ _); [discriminate|].
    destruct (chars_eqb _ _); discriminate.
  - destruct (float_of_string s) as [x|]; [|discriminate].
    cbn [option_map]. intro H. injection H as H.
    exact (finite_or_infinity_double x q H).
Qed.

Lemma parse_line_numbers (f : Fields) (raw : string) :
  Props.parsed_number (horse_power f) ->
  Props.parsed_number (asset_cost f) ->
  Props.parsed_number (horse_power (parse_line f raw)) /\
  Props.parsed_number (asset_cost (parse_line f raw)).
Proof.
  intros Hh Hc. unfold parse_line. cbv zeta.
  destruct (startswith (strip raw) "DEALER_NAME:").
  { destruct (negb (not_found _)); split; assumption. }
  destruct (startswith (strip raw) "MODEL_NAME:").
  { destruct (negb (not_found _)); split; assumption. }
  destruct (startswith (strip raw) "HORSE_POWER:").
  { destruct (negb (not_found _)); [|split; assumption].
    destruct (py_float_of_str _) as [v|] eqn:E; [|split; assumption].
    cbn [set_horse_power horse_power asset_cost]. split; [|exact Hc].
    intros q Hq. injection Hq as ->.
    exact (py_float_of_str_double _ q E). }
  destruct (startswith (strip raw) "ASSET_COST:").
  { destruct (negb (not_found _)); [|split; assumption].
    destruct (py_float_of_str _) as [v|] eqn:E; [|split; assumption].
    cbn [set_asset_cost horse_power asset_cost]. split; [exact Hh|].
    intros q Hq. injection Hq as ->.
    exact (py_float_of_str_double _ q E). }
  split; assumption.
Qed.

Lemma fold_parse_line_numbers (lines : list string) (f : Fields) :
  Props.parsed_number (horse_power f) ->
  Props.parsed_number (asset_cost f) ->
  Props.parsed_number (horse_power (fold_left parse_line lines f)) /\
  Props.parsed_number (asset_cost (fold_left parse_line lines f)).
Proof.
  revert f. induction lines as [|l lines IH]; intros f Hh Hc;
    [split; assumption|].
  cbn [fold_left].
  destruct (parse_line_numbers f l Hh Hc) as [Kh Kc].
  exact (IH _ Kh Kc).
Qed.

Lemma fold_parse_line_keeps (lines : list string) (f : Fields) :
  Props.parsed_name (dealer_name f) -> Props.parsed_name (model_name f) ->
  Props.parsed_name (dealer_name (fold_left parse_line lines f)) /\
  Props.parsed_name (model_name (fold_left parse_line lines f)) /\
  vlm_raw_response (fold_left parse_line lines f) = vlm_raw_response f /\
  vlm_available (fold_left parse_line lines f) = vlm_available f.
Proof.
  revert f. induction lines as [|l lines IH]; intros f Hd Hm;
    [split; [exact Hd|]; split; [exact Hm|]; split; reflexivity|].
  cbn [fold_left].
  destruct (parse_line_keeps f l Hd Hm) as (Kd & Km & Kr & Ka).
  destruct (IH _ Kd Km) as (Jd & Jm & Jr & Ja).
  split; [exact Jd|]. split; [exact Jm|]. split; congruence.
Qed.

End ResponseParser.

(** X14. Whatever the model answers, the parsed dealer and model names are
    never the marker [NOT_FOUND] and carry no surrounding white space,
    the raw response is kept as it came, and the key [vlm_available] is
    not set. *)
Theorem parse_vlm_response_names (response : string) :
  let fields := VLMExtractor._parse_vlm_response response in
  Props.parsed_name (VLMExtractor.dealer_name fields) /\
  Props.parsed_name (VLMExtractor.model_name fields) /\
  VLMExtractor.vlm_raw_response fields = Some response /\
  VLMExtractor.vlm_available fields = None.
Proof.
  unfold VLMExtractor._parse_vlm_response.
  apply fold_parse_line_keeps; intros v E; discriminate E.
Qed.

(** X15. The answer of the model cannot make the engine raise as long as
    the numbers parsed from it are finite: a [HORSE_POWER] or [ASSET_COST]
    line that [float] rejects is skipped, and on the parsed dictionary
    the extraction and the validation return, whatever the master lists
    and the detections are.  When no horse power was parsed the
    transcript is searched for one, and then it must not hold a run of
    more than 4300 digits, on which [int] raises. *)
Theorem parsed_response_engine_returns
    (extractor : FieldExtractor.t) (validator : Validator.t)
    (ocr_result : FieldExtractor.OcrResult)
    (detection_result : FieldExtractor.DetectionResult)
    (response : string) (vlm_result : FieldExtractor.VlmResult)
    (Hfinite : VLMExtractor.as_vlm_result
                 (VLMExtractor._parse_vlm_response response)
               = Some vlm_result)
    (Hruns : FieldExtractor.vlm_horse_power vlm_result = Py.VNone ->
             Props.digit_runs_within Text.max_str_digits
               (get_default (FieldExtractor.full_text ocr_result)
                  EmptyString)) :
  exists out,
    Pipeline.extract_and_validate extractor validator ocr_result vlm_result
      detection_result = Py.Ok out.
Proof.
  revert Hfinite Hruns. unfold VLMExtractor.as_vlm_result.
  set (f := VLMExtractor._parse_vlm_response response).
  assert (Hnum : Props.parsed_number (VLMExtractor.horse_power f) /\
                 Props.parsed_number (VLMExtractor.asset_cost f)).
  { unfold f, VLMExtractor._parse_vlm_response.
    apply fold_parse_line_numbers; intros q E; discriminate E. }
  destruct Hnum as [Nh Nc].
  destruct (VLMExtractor.number_object (VLMExtractor.horse_power f))
    as [hp|] eqn:Hhp; [|discriminate].
  destruct (VLMExtractor.number_object (VLMExtractor.asset_cost f))
    as [cost|] eqn:Hcost; [|discriminate].
  intro H. injection H as <-. intro Hruns.
  assert (Hn : forall o v, Props.parsed_number o ->
                           VLMExtractor.number_object o = Some v ->
                           Props.double_or_none v).
  { intros o v Hd. destruct o as [[q|n|]|]; cbn; intro E; try discriminate;
      injection E as <-; [|left; reflexivity].
    right. exists q. split; [reflexivity | exact (Hd q eq_refl)]. }
  destruct (extract_and_validate_returns extractor validator ocr_result
              (FieldExtractor.mkVlmResult (VLMExtractor.dealer_name f)
                 (VLMExtractor.model_name f) hp cost) detection_result)
    as (fields & out & _ & _ & Hout).
  - exact (double_is_short _ (Hn _ _ Nh Hhp)).
  - exact (Hn _ _ Nc Hcost).
  - exact Hruns.
  - exists out. exact Hout.
Qed.

Lemma parsed_response_engine_returns_witness :
  let response := "DEALER_NAME: ABC Motors
MODEL_NAME: NOT_FOUND
HORSE_POWER: 45 HP
ASSET_COST: 4,50,000"%string in
  let vlm_result :=
    FieldExtractor.mkVlmResult (Some "ABC Motors"%string) None Py.VNone
      (Py.VFloat 450000) in
  let ocr_result :=
    FieldExtractor.mkOcrResult (Some "Engine power 45 HP"%string) in
  VLMExtractor.as_vlm_result (VLMExtractor._parse_vlm_response response)
    = Some vlm_result /\
  (FieldExtractor.vlm_horse_power vlm_result = Py.VNone ->
   Props.digit_runs_within Text.max_str_digits
     (get_default (FieldExtractor.full_text ocr_result) EmptyString)) /\
  exists out,
    Pipeline.extract_and_validate (FieldExtractor.mkFieldExtractor [] [])
      Validator.new ocr_result vlm_result
      (FieldExtractor.mkDetectionResult None None) = Py.Ok out.
Proof.
  intros response vlm_result ocr_result.
  assert (E : VLMExtractor.as_vlm_result
                (VLMExtractor._parse_vlm_response response)
              = Some vlm_result) by (vm_compute; reflexivity).
  assert (Hruns : FieldExtractor.vlm_horse_power vlm_result = Py.VNone ->
                  Props.digit_runs_within Text.max_str_digits
                    (get_default (FieldExtractor.full_text ocr_result)
                       EmptyString)).
  { intros _. apply short_text_digit_runs. apply Nat.leb_le. reflexivity. }
  split; [exact E|]. split; [exact Hruns|].
  exact (parsed_response_engine_returns _ _ ocr_result _ response vlm_result
           E Hruns).
Defined.

Section Fields.

Import Text.

Variable p : ascii -> bool.

Lemma fields_not_nil (l : list ascii) : fields p l <> [].
Proof.
  destruct l as [|c t]; cbn [fields]; [discriminate|].
  destruct (p c); [discriminate|]. destruct (fields p t); discriminate.
Qed.

Lemma fields_plain (w : list ascii) :
  (forall c, In c w -> p c = false) -> fields p w = [w].
Proof.
  induction w as [|c w IH]; intro H; [reflexivity|].
  cbn [fields]. rewrite (H c (or_introl eq_refl)).
  rewrite IH; [reflexivity|]. intros x Hx. apply H. right. exact Hx.
Qed.

Lemma fields_sep (w rest : list ascii) (sep : ascii) :
  (forall c, In c w -> p c = false) -> p sep = true ->
  fields p (w ++ sep :: rest) = w :: fields p rest.
Proof.
  intros H Hs. induction w as [|c w IH]; cbn [app fields].
  - rewrite Hs. reflexivity.
  - rewrite (H c (or_introl eq_refl)).
    rewrite IH; [reflexivity|]. intros x Hx. apply H. right. exact Hx.
Qed.

(** The characters of a field come from the text and do not satisfy the
    separator test. *)
Lemma fields_chars (l w : list ascii) (c : ascii) :
  In w (fields p l) -> In c w -> In c l /\ p c = false.
Proof.
  revert w. induction l as [|x l IH]; intros w Hw Hc.
  - destruct Hw as [<-|[]]. destruct Hc.
  - cbn [fields] in Hw. destruct (p x) eqn:E.
    + destruct Hw as [<-|Hw]; [destruct Hc|].
      destruct (IH w Hw Hc) as [H1 H2]. split; [right; exact H1 | exact H2].
    + destruct (fields p l) as [|w0 ws] eqn:F.
      * exfalso. exact (fields_not_nil l F).
      * destruct Hw as [<-|Hw].
        -- destruct Hc as [<-|Hc]; [split; [left; reflexivity | exact E]|].
           destruct (IH w0 (or_introl eq_refl) Hc) as [H1 H2].
           split; [right; exact H1 | exact H2].
        -- destruct (IH w (or_intror Hw) Hc) as [H1 H2].
           split; [right; exact H1 | exact H2].
Qed.

End Fields.

Section Joining.

Import Text.

Lemma chars_append (a b : string) :
  chars (a ++ b)%string = chars a ++ chars b.
Proof.
  induction a as [|c a IH]; [reflexivity|].
  cbn. f_equal. exact IH.
Qed.

Lemma join_cons (sep w : string) (ws : list string) :
  ws <> [] -> join sep (w :: ws) = (w ++ sep ++ join sep ws)%string.
Proof. destruct ws; [congruence | reflexivity]. Qed.

Lemma join_chars (sep : string) (ws : list string) (c : ascii) :
  In c (chars (join sep ws)) ->
  In c (chars sep) \/ exists w, In w ws /\ In c (chars w).
Proof.
  induction ws as [|w ws IH]; intro H; [destruct H|].
  destruct ws as [|w' ws'].
  - right. exists w. split; [left; reflexivity | exact H].
  - rewrite join_cons in H by discriminate.
    rewrite !chars_append in H. apply in_app_or in H.
    destruct H as [H|H]; [right; exists w; split; [left; reflexivity|exact H]|].
    apply in_app_or in H. destruct H as [H|H]; [left; exact H|].
    destruct (IH H) as [K|(x & Hx & K)]; [left; exact K|].
    right. exists x. split; [right; exact Hx | exact K].
Qed.

End Joining.

Section TranscriptLines.

Import Text OCRExtractor.

Lemma split_lines_join (ws : list string) :
  ws <> [] -> (forall w, In w ws -> Props.one_line w) ->
  split_lines (join newline ws) = ws.
Proof.
  unfold split_lines.
  induction ws as [|w ws IH]; intros Hne H; [congruence|].
  assert (Hw : forall c, In c (chars w) -> (code c =? 10)%N = false).
  { intros c Hc. apply N.eqb_neq. exact (H w (or_introl eq_refl) c Hc). }
  destruct ws as [|w' ws'].
  - cbn [join]. rewrite (fields_plain _ _ Hw). cbn [map].
    rewrite text_chars. reflexivity.
  - rewrite join_cons by discriminate. rewrite !chars_append.
    change (chars newline) with [ascii_of_N 10]. cbn [app].
    rewrite (fields_sep _ _ _ _ Hw) by reflexivity.
    cbn [map]. rewrite text_chars. f_equal.
    apply IH; [discriminate|]. intros x Hx. apply H. right. exact Hx.
Qed.

End TranscriptLines.

(** X16. The transcript is a faithful carrier of the recognised lines:
    when the recogniser returns at least one line and no line contains a
    newline, splitting the transcript gives the lines back, in order; so
    the candidate extractors look at exactly the recognised lines. *)
Theorem transcript_round_trip
    (lines : list OCRExtractor.Line) (others : list (list OCRExtractor.Line))
    (Hne : lines <> [])
    (Hone : forall l, In l lines -> Props.one_line (fst l)) :
  FieldExtractor.full_text (OCRExtractor.extract (Some (lines :: others)))
    = Some (OCRExtractor.full_text_of lines) /\
  Text.split_lines (OCRExtractor.full_text_of lines) = map fst lines /\
  FieldExtractor._extract_dealer_candidates (OCRExtractor.full_text_of lines)
    = firstn 5
        (flat_map FieldExtractor.dealer_candidate_of_line (map fst lines)) /\
  FieldExtractor._extract_model_candidates (OCRExtractor.full_text_of lines)
    = firstn 10
        (flat_map FieldExtractor.model_candidate_of_line (map fst lines)).
Proof.
  assert (E : Text.split_lines (OCRExtractor.full_text_of lines)
              = map fst lines).
  { unfold OCRExtractor.full_text_of. apply split_lines_join.
    - destruct lines; [congruence | discriminate].
    - intros w Hw. apply in_map_iff in Hw. destruct Hw as (l & <- & Hl).
      exact (Hone l Hl). }
  split; [reflexivity|]. split; [exact E|].
  unfold FieldExtractor._extract_dealer_candidates,
    FieldExtractor._extract_model_candidates.
  rewrite E. split; reflexivity.
Qed.

Lemma transcript_round_trip_witness :
  let lines := [("ABC Motors Pvt Ltd", 0.98); ("45 HP", 0.91)]%string%Q in
  lines <> [] /\
  (forall l, In l lines -> Props.one_line (fst l)) /\
  Text.split_lines (OCRExtractor.full_text_of lines)
    = ["ABC Motors Pvt Ltd"; "45 HP"]%string.
Proof.
  intro lines.
  assert (Hne : lines <> []) by discriminate.
  assert (Hone : forall l, In l lines -> Props.one_line (fst l)).
  { intros l [<-|[<-|[]]] c Hc E;
      cbn [fst] in Hc;
      repeat (destruct Hc as [<-|Hc]; [vm_compute in E; discriminate E|]);
      destruct Hc. }
  split; [exact Hne|]. split; [exact Hone|].
  exact (proj1 (proj2 (transcript_round_trip lines [] Hne Hone))).
Defined.

Section DealerCandidates.

Import Text FieldExtractor.

Lemma in_firstn (A : Type) (n : nat) (l : list A) (x : A) :
  In x (firstn n l) -> In x l.
Proof.
  revert l. induction n as [|n IH]; intros l H; [destruct H|].
  destruct l as [|y l]; [destruct H|].
  destruct H as [<-|H]; [left; reflexivity | right; exact (IH l H)].
Qed.

Lemma firstn_length_le (A : Type) (n : nat) (l : list A) :
  (List.length (firstn n l) <= n)%nat.
Proof. rewrite length_firstn. apply Nat.le_min_l. Qed.

Lemma blank_punctuation_chars (line : string) (c : ascii) :
  In c (chars (blank_punctuation line)) ->
  is_word c = true \/ is_space c = true.
Proof.
  unfold blank_punctuation. rewrite chars_text. intro H.
  apply in_map_iff in H. destruct H as (x & <- & _).
  destruct (is_word x || is_space x) eqn:E.
  - apply orb_true_iff. exact E.
  - right. reflexivity.
Qed.

Lemma split_ws_chars (s w : string) (c : ascii) :
  In w (split_ws s) -> In c (chars w) ->
  In c (chars s) /\ is_space c = false.
Proof.
  unfold split_ws. intros Hw Hc.
  apply in_map_iff in Hw. destruct Hw as (w' & <- & Hw).
  apply filter_In in Hw. destruct Hw as [Hw _].
  rewrite chars_text in Hc.
  exact (fields_chars is_space (chars s) w' c Hw Hc).
Qed.

Lemma dealer_candidate_of_line_spec (raw cand : string) :
  In cand (dealer_candidate_of_line raw) ->
  (5 < String.length cand)%nat /\
  forall c, In c (chars cand) -> is_word c = true \/ c = " "%char.
Proof.
  unfold dealer_candidate_of_line. cbv zeta.
  destruct (existsb _ dealer_keywords); [|intros []].
  destruct (5 <? String.length _)%nat eqn:E; [|intros []].
  intros [<-|[]]. split; [apply Nat.ltb_lt; exact E|].
  intros c Hc. apply join_chars in Hc.
  destruct Hc as [[<-|[]]|(w & Hw & Hc)]; [right; reflexivity|].
  destruct (split_ws_chars _ w c Hw Hc) as [Hb Hs].
  destruct (blank_punctuation_chars _ c Hb) as [K|K];
    [left; exact K | congruence].
Qed.

End DealerCandidates.

(** X17. The candidates read from the transcript are capped and clean:
    at most 5 dealer candidates and at most 10 model candidates; every
    dealer candidate is longer than 5 characters (so never empty) and
    consists of word characters and spaces only, all punctuation having
    been blanked. *)
Theorem transcript_candidates_capped_and_clean (ocr_text : string) :
  (List.length (FieldExtractor._extract_dealer_candidates ocr_text) <= 5)%nat
  /\
  (List.length (FieldExtractor._extract_model_candidates ocr_text) <= 10)%nat
  /\
  forall cand,
    In cand (FieldExtractor._extract_dealer_candidates ocr_text) ->
    (5 < String.length cand)%nat /\
    FieldExtractor.str_truthy cand = true /\
    forall c, In c (Text.chars cand) ->
              Text.is_word c = true \/ c = " "%char.
Proof.
  split; [apply firstn_length_le|]. split; [apply firstn_length_le|].
  intros cand H. unfold FieldExtractor._extract_dealer_candidates in H.
  apply in_firstn in H. apply in_flat_map in H.
  destruct H as (raw & _ & H).
  destruct (dealer_candidate_of_line_spec raw cand H) as [Hlen Hchars].
  split; [exact Hlen|]. split; [|exact Hchars].
  destruct cand; [simpl in Hlen; lia | reflexivity].
Qed.

Section CostBand.

Import Py Validator.

Lemma cost_gate_number (v : PyVal) (q : Q) :
  number_of v = Some q ->
  truthy v && _validate_cost_range v = Qleb 200000 q && Qleb q 2000000.
Proof.
  intro H. pose proof float_overflow_large as Hbig.
  assert (Er : _validate_cost_range v = Qleb 200000 q && Qleb q 2000000)
    by (apply (range_test_number v q 200000 2000000 H); lia).
  rewrite Er.
  destruct (truthy v) eqn:Ht; [reflexivity|]. simpl.
  pose proof (falsy_number_zero v q H Ht) as Hz.
  assert (E : Qleb 200000 q = false).
  { apply Qleb_gt. rewrite Hz. reflexivity. }
  rewrite E. reflexivity.
Qed.

Lemma cost_gate_other (v : PyVal) :
  number_of v = None -> (forall s, v <> VStr s) ->
  truthy v && _validate_cost_range v = false.
Proof.
  destruct v; simpl; intros H Hs; try discriminate; try reflexivity.
  - exfalso. exact (Hs s eq_refl).
  - apply andb_false_r.
Qed.

End CostBand.

(** X18. The validator keeps an asset cost exactly when it is a number
    within 200000..2000000, as a float, with the confidence and
    explanation it came with; otherwise the value becomes [None] and the
    attached confidence and explanation are kept.  No confidence is
    looked at. *)
Theorem validate_asset_cost_band (self : Validator.t)
    (d : Validator.FieldDict)
    (Hstr : forall s, get (Validator.fd_value d) <> Py.VStr s) :
  (Props.cost_in_band (get (Validator.fd_value d)) ->
   exists q,
     Py.number_of (get (Validator.fd_value d)) = Some q /\
     Validator.validate_cost self (Some (Validator.Structured d)) =
       Py.Ok (Py.VFloat q, get (Validator.fd_confidence d),
              Validator.fd_explanation d)) /\
  (~ Props.cost_in_band (get (Validator.fd_value d)) ->
   Validator.validate_cost self (Some (Validator.Structured d)) =
     Py.Ok (Py.VNone,
            get_default (Validator.fd_confidence d) (Py.VFloat 0),
            Some (get_default (Validator.fd_explanation d)
                    [FLit "Invalid range or not found"]))).
Proof.
  unfold Validator.validate_cost. cbn [get_default]. cbv zeta.
  destruct (Py.number_of (get (Validator.fd_value d))) as [q|] eqn:Hq.
  - rewrite (cost_gate_number _ q Hq).
    assert (Hband : Props.cost_in_band (get (Validator.fd_value d)) <->
                    Py.Qleb 200000 q && Py.Qleb q 2000000 = true).
    { unfold Props.cost_in_band. rewrite andb_true_iff, !Qleb_le. split.
      - intros (q' & H' & Hb). rewrite Hq in H'. injection H' as <-. exact Hb.
      - intro Hb. exists q. split; [exact Hq | exact Hb]. }
    split.
    + intro Hin. exists q. split; [reflexivity|].
      pose proof Hin as Hb. apply Hband in Hb. rewrite Hb.
      destruct Hin as (q' & Hq' & Hlo & Hhi).
      rewrite Hq in Hq'. injection Hq' as <-.
      pose proof float_overflow_large as Hbig.
      rewrite (py_float_number _ q Hq); [reflexivity| |].
      * apply Qlt_le_trans with 200000%Q; [|exact Hlo].
        unfold Qlt. cbn [Qnum Qden inject_Z Qopp]. lia.
      * apply Qle_lt_trans with 2000000%Q; [exact Hhi|].
        unfold Qlt. cbn [Qnum Qden inject_Z]. lia.
    + intro Hout.
      destruct (Py.Qleb 200000 q && Py.Qleb q 2000000); [|reflexivity].
      exfalso. apply Hout, Hband. reflexivity.
  - rewrite (cost_gate_other _ Hq Hstr). split.
    + intros (q & Hq' & _). congruence.
    + reflexivity.
Qed.

Lemma validate_asset_cost_band_witness :
  let d :=
    Validator.mkFieldDict (Some (Py.VInt 250000)) (Some (Py.VFloat 0.1))
      None in
  (forall s, get (Validator.fd_value d) <> Py.VStr s) /\
  Props.cost_in_band (get (Validator.fd_value d)) /\
  exists q,
    Py.number_of (get (Validator.fd_value d)) = Some q /\
    Validator.validate_cost Validator.new (Some (Validator.Structured d)) =
      Py.Ok (Py.VFloat q, get (Validator.fd_confidence d),
             Validator.fd_explanation d).
Proof.
  intro d.
  assert (Hstr : forall s, get (Validator.fd_value d) <> Py.VStr s)
    by (intros s; discriminate).
  assert (Hin : Props.cost_in_band (get (Validator.fd_value d))).
  { exists (inject_Z 250000). split; [reflexivity|].
    split; unfold Qle; simpl; lia. }
  split; [exact Hstr|]. split; [exact Hin|].
  exact (proj1 (validate_asset_cost_band Validator.new d Hstr) Hin).
Defined.

Section EarliestBest.

Import Py Fuzz FieldExtractor.

Variable self : FieldExtractor.t.

Lemma scores_below_app (strict : bool) (s : Q) (xs ys : list string) :
  Props.scores_below self strict s xs -> Props.scores_below self strict s ys ->
  Props.scores_below self strict s (xs ++ ys).
Proof.
  intros Hx Hy x m t Hin. apply in_app_or in Hin.
  destruct Hin as [Hin|Hin]; [exact (Hx x m t Hin) | exact (Hy x m t Hin)].
Qed.

Lemma scores_below_nil (strict : bool) (s : Q) :
  Props.scores_below self strict s [].
Proof. intros x m t []. Qed.

Lemma scores_below_raise (strict : bool) (s s' : Q) (xs : list string) :
  (s < s')%Q -> Props.scores_below self strict s xs ->
  Props.scores_below self true s' xs.
Proof.
  intros Hlt H x m t Hin Ht E. specialize (H x m t Hin Ht E).
  destruct strict.
  - apply Qlt_trans with s; assumption.
  - apply Qle_lt_trans with s; assumption.
Qed.

Lemma scores_below_one (strict : bool) (s : Q) (x : string) :
  (forall m t, str_truthy x = true ->
               extractOne x (dealer_master self) = Some (m, t) ->
               if strict then (t < s)%Q else (t <= s)%Q) ->
  Props.scores_below self strict s [x].
Proof.
  intros H y m t [<-|[]] Ht E. exact (H m t Ht E).
Qed.

Lemma dealer_step_earliest (seen : list string) (x : string)
    (st : dealer_state) :
  Props.dealer_earliest self seen st ->
  Props.dealer_earliest self (seen ++ [x]) (dealer_step self st x).
Proof.
  destruct st as [[bm bs] bc]. unfold dealer_step.
  intro Hinv.
  assert (Hskip :
    (forall m t, str_truthy x = true ->
                 extractOne x (dealer_master self) = Some (m, t) ->
                 (t <= bs)%Q) ->
    Props.dealer_earliest self (seen ++ [x]) (bm, bs, bc)).
  { intro Hx. destruct Hinv as [(-> & -> & -> & Hall)
                               |(pre & c & post & r & -> & Hc & E & -> & -> & Hpos & Hpre & Hpost)].
    - left. repeat split; try reflexivity.
      apply scores_below_app; [exact Hall|].
      apply scores_below_one. exact Hx.
    - right. exists pre, c, (post ++ [x]), r.
      rewrite <- app_assoc. repeat split; try assumption; try reflexivity.
      apply scores_below_app; [exact Hpost|].
      apply scores_below_one. exact Hx. }
  destruct (str_truthy x) eqn:Ht; cbn [negb].
  2:{ apply Hskip. intros m t H. discriminate H. }
  destruct (extractOne x (dealer_master self)) as [[m s]|] eqn:E.
  2:{ apply Hskip. intros m t _ H. discriminate H. }
  destruct (Qltb bs s) eqn:Hlt.
  2:{ apply Hskip. intros m' t _ H. injection H as _ <-.
      apply Qltb_ge. exact Hlt. }
  apply Qltb_lt in Hlt. right. exists seen, x, [], m.
  destruct Hinv as [(-> & -> & -> & Hall)
                   |(pre & c & post & r & -> & Hc & Ec & -> & -> & Hpos & Hpre & Hpost)].
  - repeat split; try assumption; try reflexivity.
    + exact (scores_below_raise false 0 s seen Hlt Hall).
    + apply scores_below_nil.
  - repeat split; try assumption; try reflexivity.
    + apply Qlt_trans with bs; assumption.
    + apply scores_below_app; [exact (scores_below_raise true bs s pre Hlt Hpre)|].
      change (c :: post) with ([c] ++ post).
      apply scores_below_app;
        [|exact (scores_below_raise false bs s post Hlt Hpost)].
      apply scores_below_one. intros m' t _ H. rewrite Ec in H.
      injection H as _ <-. exact Hlt.
    + apply scores_below_nil.
Qed.

Lemma dealer_fold_earliest (candidates seen : list string)
    (st : dealer_state) :
  Props.dealer_earliest self seen st ->
  Props.dealer_earliest self (seen ++ candidates)
    (fold_left (dealer_step self) candidates st).
Proof.
  revert seen st.
  induction candidates as [|c candidates IH]; intros seen st Hinv; simpl.
  - rewrite app_nil_r. exact Hinv.
  - replace (seen ++ c :: candidates) with ((seen ++ [c]) ++ candidates)
      by (rewrite <- app_assoc; reflexivity).
    apply IH. apply dealer_step_earliest. exact Hinv.
Qed.

End EarliestBest.

(** X19. Ties go to the earliest: when several candidates reach the best
    score, the dealer loop keeps the first of them in candidate order
    (every candidate before the one kept scores strictly less, every one
    after it no more), together with the reference entry [extractOne]
    chose for it; a score that is not above 0 is never kept. *)
Theorem dealer_ties_go_to_earliest
    (self : FieldExtractor.t) (candidates : list string) :
  Props.dealer_earliest self candidates
    (FieldExtractor.dealer_loop self candidates).
Proof.
  apply (dealer_fold_earliest self candidates []).
  left. repeat split. apply scores_below_nil.
Qed.

Section ReferenceEntries.

Import Py Fuzz FieldExtractor.

Variable self : FieldExtractor.t.

Lemma reconcile_dealer_entry (candidates : list string) :
  Props.none_or_entry (dealer_master self)
    (value (reconcile_dealer self candidates)).
Proof.
  unfold reconcile_dealer.
  pose proof (dealer_loop_inv self candidates) as Hinv.
  destruct (dealer_loop self candidates) as [[bm bs] bc].
  unfold dealer_result.
  destruct (Qleb 90 bs) eqn:H90; [|left; reflexivity].
  apply Qleb_le in H90.
  destruct (dealer_accepted_triple self candidates bm bs bc Hinv H90)
    as (c & r & _ & _ & Hr & -> & _).
  right. exists r. split; [exact Hr | reflexivity].
Qed.

Lemma in_master_In (c : string) (master : list string) :
  in_master c master = true -> In c master.
Proof.
  unfold in_master. intro H. apply existsb_exists in H.
  destruct H as (x & Hx & E). apply String.eqb_eq in E. subst x. exact Hx.
Qed.

Lemma reconcile_model_entry (candidates : list string) :
  Props.none_or_entry (asset_master self)
    (value (reconcile_model self candidates)).
Proof.
  induction candidates as [|c rest IH]; [left; reflexivity|].
  cbn [reconcile_model].
  destruct (negb (str_truthy c)); [exact IH|].
  destruct (in_master c (asset_master self)) eqn:Hin.
  - right. exists c. split; [exact (in_master_In c _ Hin) | reflexivity].
  - destruct (extractOne c (asset_master self)) as [[m s]|] eqn:E;
      [|exact IH].
    destruct (Qleb 95 s); [|exact IH].
    right. exists m. split; [|reflexivity].
    exact (proj1 (extractOne_best c _ m s E)).
Qed.

End ReferenceEntries.

Section NamesThroughValidator.

Import Py Validator.

(** The validator hands a name on, or replaces it by [None]. *)
Lemma validate_name_value (self : Validator.t) (r : FieldResult)
    (v c : PyVal) (e : option Expl) :
  validate_name self (Some (Pipeline.as_dict r)) = Ok (v, c, e) ->
  v = VNone \/ v = value r.
Proof.
  unfold validate_name, Pipeline.as_dict.
  cbn [get_default fd_confidence fd_value fd_explanation get py_ge
       number_of bind].
  destruct (Qleb (min_confidence self) (confidence r)); intro H;
    injection H as <- _ _; [right | left]; reflexivity.
Qed.

End NamesThroughValidator.

(** X20. Whatever the three models deliver for a document, when
    [process_document] returns its output the four fields are clean: the
    dealer name is [None] or an entry of the dealer master list, the
    model name is [None] or an entry of the asset master list, the horse
    power is [None] or an integer within 15..200 and the asset cost is
    [None] or a float within 200000..2000000.  A text the recogniser or
    the vision-language model read is never passed on as it is. *)
Theorem process_document_fields_clean
    (round : Q -> Z -> Q)
    (extractor : FieldExtractor.t) (validator : Validator.t)
    (doc_id : string) (ocr : option (list (list OCRExtractor.Line)))
    (vlm_result : FieldExtractor.VlmResult)
    (boxes : list (list SignatureStampDetector.Box))
    (processing_time estimated_cost : Q)
    (output : OutputFormatter.Output)
    (Hout : Document.process round extractor validator doc_id ocr vlm_result
              boxes processing_time estimated_cost = Py.Ok output) :
  let f := OutputFormatter.fields output in
  Props.none_or_entry (FieldExtractor.dealer_master extractor)
    (OutputFormatter.out_dealer_name f) /\
  Props.none_or_entry (FieldExtractor.asset_master extractor)
    (OutputFormatter.out_model_name f) /\
  (OutputFormatter.out_horse_power f = Py.VNone \/
   exists n, OutputFormatter.out_horse_power f = Py.VInt n /\
             15 <= n <= 200) /\
  (OutputFormatter.out_asset_cost f = Py.VNone \/
   exists q, OutputFormatter.out_asset_cost f = Py.VFloat q /\
             (200000 <= q /\ q <= 2000000)%Q).
Proof.
  unfold Document.process in Hout.
  destruct (Pipeline.extract_and_validate extractor validator
              (OCRExtractor.extract ocr) vlm_result
              (SignatureStampDetector.detect boxes)) as [v|] eqn:Hv;
    [|discriminate].
  cbn [Py.bind] in Hout. injection Hout as <-.
  cbn [OutputFormatter.fields OutputFormatter.format
       OutputFormatter.out_dealer_name OutputFormatter.out_model_name
       OutputFormatter.out_horse_power OutputFormatter.out_asset_cost
       OutputFormatter.of_validated OutputFormatter.dealer_name
       OutputFormatter.model_name OutputFormatter.horse_power
       OutputFormatter.asset_cost get].
  unfold Pipeline.extract_and_validate, FieldExtractor.extract_all_fields
    in Hv. cbv zeta in Hv.
  destruct (FieldExtractor.extract_horse_power extractor _ vlm_result)
    as [hp|]; [|discriminate].
  destruct (FieldExtractor.extract_asset_cost extractor _ vlm_result)
    as [cost|]; [|discriminate].
  cbn [Py.bind] in Hv.
  destruct (validate_entries validator _ v Hv)
    as (Hd & Hm & Hhp & Hcost & _).
  cbn [Pipeline.as_raw Validator.raw_dealer_name Validator.raw_model_name
       FieldExtractor.dealer_name FieldExtractor.model_name] in Hd, Hm.
  split; [|split; [|split]].
  - destruct (validate_name_value validator _ _ _ _ Hd) as [->| ->];
      [left; reflexivity|].
    apply reconcile_dealer_entry.
  - destruct (validate_name_value validator _ _ _ _ Hm) as [->| ->];
      [left; reflexivity|].
    apply reconcile_model_entry.
  - exact (validate_hp_range validator _ _ _ _ Hhp).
  - exact (validate_cost_range validator _ _ _ _ Hcost).
Qed.

Lemma process_document_fields_clean_witness :
  let extractor :=
    FieldExtractor.mkFieldExtractor ["ABC Motors Pvt Ltd"%string]
      ["Mahindra 575 DI"%string] in
  let ocr :=
    Some [[("ABC Motors Pvt. Ltd"%string, 0.9%Q);
           ("Mahindra 575 DI"%string, 0.9%Q);
           ("45 HP"%string, 0.8%Q);
           ("Total: Rs. 450000"%string, 0.7%Q)]] in
  exists output,
    Document.process (fun x _ => x) extractor Validator.new "doc"%string ocr
      (FieldExtractor.mkVlmResult None None Py.VNone Py.VNone) [] 0 0
      = Py.Ok output /\
    Props.none_or_entry (FieldExtractor.dealer_master extractor)
      (OutputFormatter.out_dealer_name (OutputFormatter.fields output)) /\
    Props.none_or_entry (FieldExtractor.asset_master extractor)
      (OutputFormatter.out_model_name (OutputFormatter.fields output)).
Proof.
  intros extractor ocr.
  assert (E : exists output,
    Document.process (fun x _ => x) extractor Validator.new "doc"%string ocr
      (FieldExtractor.mkVlmResult None None Py.VNone Py.VNone) [] 0 0
      = Py.Ok output).
  { eexists. vm_compute. reflexivity. }
  destruct E as (output & Hout).
  exists output. split; [exact Hout|].
  destruct (process_document_fields_clean _ _ _ _ _ _ _ _ _ output Hout)
    as (Hd & Hm & _).
  split; [exact Hd | exact Hm].
Defined.

Section BatchLoop.

Import Batch.

Lemma batch_fold (image_files : list (option OutputFormatter.Output))
    (results : list OutputFormatter.Output) (t c : Q) :
  fold_left step image_files (results, t, c) =
    (results ++ Props.processed_documents image_files,
     fold_left (fun total result =>
                  (total + OutputFormatter.processing_time_seconds result)%Q)
       (Props.processed_documents image_files) t,
     fold_left (fun total result =>
                  (total + OutputFormatter.estimated_cost_usd result)%Q)
       (Props.processed_documents image_files) c).
Proof.
  revert results t c.
  induction image_files as [|[r|] rest IH]; intros results t c.
  - cbn. rewrite app_nil_r. reflexivity.
  - cbn [fold_left step]. rewrite IH.
    cbn [Props.processed_documents flat_map app fold_left].
    rewrite <- app_assoc. reflexivity.
  - cbn [fold_left step]. rewrite IH. reflexivity.
Qed.

Lemma processed_length (image_files : list (option OutputFormatter.Output)) :
  (List.length (Props.processed_documents image_files)
   <= List.length image_files)%nat.
Proof.
  induction image_files as [|[r|] rest IH].
  - apply Nat.le_refl.
  - cbn [Props.processed_documents flat_map app List.length].
    fold (Props.processed_documents rest). lia.
  - cbn [Props.processed_documents flat_map app List.length].
    fold (Props.processed_documents rest). lia.
Qed.

Lemma processed_nil (image_files : list (option OutputFormatter.Output)) :
  Props.processed_documents image_files = [] <->
  (forall document, In document image_files -> document = None).
Proof.
  induction image_files as [|[r|] rest IH];
    cbn [Props.processed_documents flat_map app].
  - split; [intros _ d [] | reflexivity].
  - split; [discriminate|]. intro H.
    specialize (H (Some r) (or_introl eq_refl)). discriminate H.
  - fold (Props.processed_documents rest). rewrite IH. split.
    + intros H d [<-|Hd]; [reflexivity | exact (H d Hd)].
    + intros H d Hd. apply H. right. exact Hd.
Qed.

End BatchLoop.

(** X21. A batch in which no document was processed makes [process_batch]
    raise [ZeroDivisionError] at its summary: the averages divide by the
    number of results, which is 0 for an empty directory and when every
    document raised.  With at least one processed document the summary is
    printed: the processed and the failed documents add up to the files
    found, and the totals are the sums over the processed documents, in
    their order. *)
Theorem process_batch_needs_one_result
    (image_files : list (option OutputFormatter.Output)) :
  (Batch.process_batch image_files = Batch.ZeroDivisionError <->
   forall document, In document image_files -> document = None) /\
  forall summary,
    Batch.process_batch image_files = Batch.Printed summary ->
    let n := Batch.successfully_processed summary in
    n = List.length (Props.processed_documents image_files) /\
    (0 < n)%nat /\
    (n + Batch.failed summary)%nat = List.length image_files /\
    Batch.total_documents summary = List.length image_files /\
    Batch.total_time summary =
      Props.sum_of OutputFormatter.processing_time_seconds
        (Props.processed_documents image_files)
    /\
    Batch.total_cost summary =
      Props.sum_of OutputFormatter.estimated_cost_usd
        (Props.processed_documents image_files).
Proof.
  unfold Batch.process_batch. rewrite batch_fold. cbn [app].
  pose proof (processed_length image_files) as Hlen.
  pose proof (processed_nil image_files) as Hnil.
  destruct (Props.processed_documents image_files) as [|r rs] eqn:E.
  - cbn [List.length Nat.eqb]. split.
    + split; [intros _; apply Hnil; reflexivity | reflexivity].
    + intros summary H. discriminate H.
  - cbn [List.length Nat.eqb] in *. split.
    + split; [discriminate|]. intro H. apply Hnil in H. discriminate H.
    + intros summary H. injection H as <-.
      cbn [Batch.successfully_processed Batch.failed Batch.total_documents
           Batch.total_time Batch.total_cost Batch.average_time
           Batch.average_cost].
      repeat match goal with |- _ /\ _ => split end;
        try reflexivity; lia.
Qed.

(** X22. The engine returns on the inputs its interface declares, within
    the limits of [int], [str] and [float]: when the secondary source
    gives nothing or a number with an integer part of at most 4300 digits
    for the horse power and nothing or a number within the range of the
    doubles for the cost, and (when the transcript is searched for the
    horse power) the transcript has no run of more than 4300 digits,
    [extract_all_fields] returns and [validate] returns on its result,
    whatever the names, the master lists, the confidence threshold and
    the detections are. *)
Theorem engine_returns_on_numbers
    (extractor : FieldExtractor.t) (validator : Validator.t)
    (ocr_result : FieldExtractor.OcrResult)
    (vlm_result : FieldExtractor.VlmResult)
    (detection_result : FieldExtractor.DetectionResult)
    (Hhp : Props.short_number_or_none (FieldExtractor.vlm_horse_power vlm_result))
    (Hcost : Props.double_or_none (FieldExtractor.vlm_asset_cost vlm_result))
    (Hruns : FieldExtractor.vlm_horse_power vlm_result = Py.VNone ->
             Props.digit_runs_within Text.max_str_digits
               (get_default (FieldExtractor.full_text ocr_result)
                  EmptyString)) :
  exists fields out,
    FieldExtractor.extract_all_fields extractor ocr_result vlm_result
      detection_result = Py.Ok fields /\
    Validator.validate validator (Pipeline.as_raw fields) = Py.Ok out /\
    Pipeline.extract_and_validate extractor validator ocr_result vlm_result
      detection_result = Py.Ok out.
Proof.
  exact (extract_and_validate_returns extractor validator ocr_result
           vlm_result detection_result Hhp Hcost Hruns).
Qed.

Lemma engine_returns_on_numbers_witness :
  let vlm_result :=
    FieldExtractor.mkVlmResult (Some "ABC Motors"%string) None
      Py.VNone (Py.VInt 450000) in
  let ocr_result :=
    FieldExtractor.mkOcrResult (Some "Engine power 45 HP"%string) in
  Props.short_number_or_none (FieldExtractor.vlm_horse_power vlm_result) /\
  Props.double_or_none (FieldExtractor.vlm_asset_cost vlm_result) /\
  (FieldExtractor.vlm_horse_power vlm_result = Py.VNone ->
   Props.digit_runs_within Text.max_str_digits
     (get_default (FieldExtractor.full_text ocr_result) EmptyString)) /\
  exists fields out,
    FieldExtractor.extract_all_fields
      (FieldExtractor.mkFieldExtractor [] []) ocr_result
      vlm_result (FieldExtractor.mkDetectionResult None None) = Py.Ok fields /\
    Validator.validate Validator.new (Pipeline.as_raw fields) = Py.Ok out /\
    Pipeline.extract_and_validate
      (FieldExtractor.mkFieldExtractor [] []) Validator.new ocr_result
      vlm_result (FieldExtractor.mkDetectionResult None None) = Py.Ok out.
Proof.
  intros vlm_result ocr_result.
  assert (Hhp : Props.short_number_or_none
                  (FieldExtractor.vlm_horse_power vlm_result))
    by (left; reflexivity).
  assert (Hcost : Props.double_or_none
                    (FieldExtractor.vlm_asset_cost vlm_result)).
  { right. exists (inject_Z 450000). split; [reflexivity|].
    split; vm_compute; reflexivity. }
  assert (Hruns : FieldExtractor.vlm_horse_power vlm_result = Py.VNone ->
                  Props.digit_runs_within Text.max_str_digits
                    (get_default (FieldExtractor.full_text ocr_result)
                       EmptyString)).
  { intros _. apply short_text_digit_runs. apply Nat.leb_le. reflexivity. }
  split; [exact Hhp|]. split; [exact Hcost|]. split; [exact Hruns|].
  exact (engine_returns_on_numbers _ _ ocr_result vlm_result _
           Hhp Hcost Hruns).
Defined.
